(** * Copy, Paste, Forget: a shallow embedding of the extension's scripts

    The development follows the repository file by file:
    - [JS]          the fragments of JavaScript the scripts rely on
                    (numbers, coercions, string helpers, promise results);
    - [Background]  src/background.js: settings, the message router, the
                    countdown timers and the clipboard-clearing fallback chain,
                    run by an explicit event loop;
    - [ContentNarrow], [ContentBroad]  the two detector variants that carry a
                    password-field classifier (src/unnamed/part_002 and the
                    second script of src/content.js);
    - [Popup]       src/popup.js: the interval field's validation;
    - [System]      which events the scripts can cause for one another;
    - [Accounting]  the answers the service worker has given and still owes;
    - [Words]       the regular expression on the autocomplete attribute;
    - [Liveness]    the content script's listeners and its validity flag;
    - [BroadScript] the second script of src/content.js from its top level;
    - [Primitive]   the three ways a page empties the clipboard (injected
                    function, content script, offscreen document);
    - [PopupUI]     src/popup.js: what the popup shows, and its debounce.

    Definitions come first, the theorems about them afterwards. *)

From Stdlib Require Import ZArith Lia Bool List String Ascii.
From stdpp Require Import gmap strings pretty.
Import ListNotations.

Local Open Scope string_scope.
Local Open Scope Z_scope.

(* ===================================================================== *)
(** * JavaScript fragments *)
(* ===================================================================== *)

Module JS.

(** Numbers.  The scripts only ever build numbers from integers by
    decrementing, multiplying by 1000 and comparing, or obtain [NaN] from a
    failed coercion; [Int z] stands for the double that represents [z].
    Doubles are exact on the safe integers only, so the arithmetic and the
    numerals below are the code's as long as arguments and results are safe
    integers; every theorem that reads a numeral or a decremented value
    bounds the number accordingly. *)
Inductive num : Type :=
| Int (z : Z)
| NaN.


(** [Number.isSafeInteger(z)]: at most [2^53 - 1] in absolute value. *)
Definition isSafeInteger (z : Z) : bool := Z.abs z <=? 9007199254740991.

(** [n.toString()] of a safe integer: its decimal numeral.  (From [1e21]
    on, far above the safe integers, JavaScript prints an exponent
    instead.) *)
Definition toString (n : num) : string :=
  match n with
  | Int z => pretty z
  | NaN => "NaN"
  end.

(** [n * k] *)
Definition times (n : num) (k : Z) : num :=
  match n with
  | Int z => Int (z * k)
  | NaN => NaN
  end.

(** [n--] (the value left in the variable), for a safe integer [n].  (Above
    [2^53] a double cannot hold every integer and the difference is
    rounded.) *)
Definition decr (n : num) : num :=
  match n with
  | Int z => Int (z - 1)
  | NaN => NaN
  end.

(** [n > k], [n < k]: every comparison with NaN is false. *)
Definition gt (n : num) (k : Z) : bool :=
  match n with
  | Int z => k <? z
  | NaN => false
  end.

Definition lt (n : num) (k : Z) : bool :=
  match n with
  | Int z => z <? k
  | NaN => false
  end.

Definition isNaN (n : num) : bool :=
  match n with
  | Int _ => false
  | NaN => true
  end.

(** Truthiness of a number: 0 and NaN are falsy. *)
Definition num_truthy (n : num) : bool :=
  match n with
  | Int z => negb (z =? 0)
  | NaN => false
  end.

(** Values carried by message fields: absent, null, a boolean or a number. *)
Inductive value : Type :=
| Undefined
| Null
| Bool (b : bool)
| Num (n : num).

(** [Boolean(v)] *)
Definition Boolean (v : value) : bool :=
  match v with
  | Undefined | Null => false
  | Bool b => b
  | Num n => num_truthy n
  end.

(** [Number(v)] *)
Definition Number (v : value) : num :=
  match v with
  | Undefined => NaN
  | Null => Int 0
  | Bool b => Int (if b then 1 else 0)
  | Num n => n
  end.

(** The delay argument of [setTimeout]/[setInterval] is converted by the host
    to a 32-bit signed integer (NaN becomes 0) and negative delays count as 0. *)
Definition toInt32 (z : Z) : Z := (z + 2 ^ 31) mod 2 ^ 32 - 2 ^ 31.

Definition timerDelay (n : num) : Z :=
  match n with
  | Int z => Z.max 0 (toInt32 z)
  | NaN => 0
  end.

(** Strings are sequences of code units below 256. *)
Definition code (c : ascii) : N := N_of_ascii c.

(** White space and line terminators: what [trim] strips and [\s] matches. *)
Definition isWhiteSpace (c : ascii) : bool :=
  let n := code c in
  ((9 <=? n) && (n <=? 13) || (n =? 32) || (n =? 160))%N.

Fixpoint trimStart (s : string) : string :=
  match s with
  | String c r => if isWhiteSpace c then trimStart r else s
  | EmptyString => EmptyString
  end.

Definition isEmpty (s : string) : bool :=
  match s with
  | EmptyString => true
  | String _ _ => false
  end.

Fixpoint trimEnd (s : string) : string :=
  match s with
  | EmptyString => EmptyString
  | String c r =>
      let r' := trimEnd r in
      if isWhiteSpace c && isEmpty r' then EmptyString else String c r'
  end.

(** [s.trim()] *)
Definition trim (s : string) : string := trimEnd (trimStart s).

(** Every code unit of [s] is white space (the empty string included). *)
Fixpoint allWhiteSpace (s : string) : bool :=
  match s with
  | EmptyString => true
  | String c r => isWhiteSpace c && allWhiteSpace r
  end.

Definition lowerChar (c : ascii) : ascii :=
  let n := code c in
  if ((65 <=? n) && (n <=? 90)
      || (192 <=? n) && (n <=? 222) && negb (n =? 215))%N
  then ascii_of_N (n + 32) else c.

(** [s.toLowerCase()] *)
Fixpoint toLowerCase (s : string) : string :=
  match s with
  | EmptyString => EmptyString
  | String c r => String (lowerChar c) (toLowerCase r)
  end.

(** [s.startsWith(p)] *)
Fixpoint startsWith (s p : string) : bool :=
  match p, s with
  | EmptyString, _ => true
  | String a p', String b s' => if ascii_dec a b then startsWith s' p' else false
  | String _ _, EmptyString => false
  end.

(** [s.includes(p)] *)
Fixpoint includes (s p : string) : bool :=
  startsWith s p ||
  match s with
  | EmptyString => false
  | String _ r => includes r p
  end.

(** [s] without its prefix [p], when it has it. *)
Fixpoint dropPrefix (s p : string) : option string :=
  match p, s with
  | EmptyString, _ => Some s
  | String a p', String b s' => if ascii_dec a b then dropPrefix s' p' else None
  | String _ _, EmptyString => None
  end.

(** The regular expressions of the scripts all have the shape
    [/(^|\s)(w1|...|wn)(\s|$)/]: one of the words, preceded by the start of
    the string or a white-space unit and followed by one or by the end. *)
Definition wordHere (s w : string) : bool :=
  match dropPrefix s w with
  | Some EmptyString => true
  | Some (String c _) => isWhiteSpace c
  | None => false
  end.

Fixpoint testFrom (ws : list string) (boundary : bool) (s : string) : bool :=
  boundary && existsb (wordHere s) ws ||
  match s with
  | EmptyString => false
  | String c r => testFrom ws (isWhiteSpace c) r
  end.

Definition testWords (ws : list string) (s : string) : bool := testFrom ws true s.

(** Settled promises and [try]/[catch]: a computation returns or throws. *)
Inductive result (A : Type) : Type :=
| Ok (a : A)
| Throw (msg : string).
Arguments Ok {A} a.
Arguments Throw {A} msg.

Definition bind {A B} (m : result A) (k : A -> result B) : result B :=
  match m with
  | Ok a => k a
  | Throw e => Throw e
  end.

Definition try_catch {A} (body : result A) (handler : string -> result A) : result A :=
  match body with
  | Ok a => Ok a
  | Throw e => handler e
  end.

End JS.

(* ===================================================================== *)
(** * src/background.js *)
(* ===================================================================== *)

Module Background.
Import JS.

#[global] Instance result_bind : MBind result := fun _ _ k m => bind m k.

(** ** The clearing fallback chain *)

(** A tab as the chain reads it: [tab.id] and [tab.url] (absent without the
    permission to see it). *)
Record Tab : Type := {
  tab_id : Z;
  tab_url : option string;
}.

(** What the [chrome.runtime.sendMessage] of OFFSCREEN_CLEAR_CLIPBOARD does:
    the send throws, the callback sees [chrome.runtime.lastError], no answer
    arrives before the caller's 3-second timer, or the callback gets a
    response ([None] for an undefined one, else the truthiness of
    [response.success]). *)
Inductive Delivery : Type :=
| SendThrows
| LastError (msg : string)
| NoAnswer
| Answer (success : option bool).

(** What the [sendMessage] of one ping does.  [attempt] in [pingOffscreen]
    sets no timer: it resolves when, and only when, the send throws or the
    callback is called.  Like every other call the chain awaits, a ping is
    taken to settle, so there is no counterpart of [NoAnswer] here; a
    callback that never came would leave [clearClipboard] pending for ever,
    which the event loop below shows as a call that never settles. *)
Inductive Ping : Type :=
| PingThrows
| PingLastError (msg : string)
| PingAnswer (success : option bool).

(** The browser as one run of the chain meets it: the outcome of every
    extension API call the chain can make.  Every awaited call settles. *)
Record Env : Type := {
  tabsQueryActive : result (list Tab);
  tabsQueryAll : nat -> result (list Tab);
  executeScript : Z -> result unit;
  tabsSendMessage : Z -> result (option bool);
  offscreenCreateAvailable : bool;
  offscreenHasDocumentAvailable : bool;
  offscreenHasDocument : result bool;
  offscreenCreateDocument : result unit;
  offscreenPing : nat -> Ping;
  offscreenClear : nat -> Delivery;
  offscreenCloseAvailable : bool;
  offscreenCloseDocument : result unit;
  tabsCreate : result unit;
  tabsRemove : result unit;
  windowsCreateMinimized : result unit;
  windowsCreateNormal : result unit;
  windowsRemove : result unit;
}.

(** [tab.url && !tab.url.startsWith(p1) && ...] *)
Definition urlAvoids (prefixes : list string) (t : Tab) : bool :=
  match tab_url t with
  | None => false
  | Some u => negb (isEmpty u) && forallb (fun p => negb (startsWith u p)) prefixes
  end.

(** [response && response.success] *)
Definition acknowledged (r : option bool) : bool :=
  match r with
  | Some b => b
  | None => false
  end.

(** Lines 153-161.  [Ok true]: the chain returned from here after
    [showClearedBadge]. *)
Definition tryActiveTab (e : Env) : result bool :=
  try_catch
    (tabs ← tabsQueryActive e;
     match tabs with
     | t :: _ =>
         if urlAvoids ["chrome://"] t
         then _ ← executeScript e (tab_id t); Ok true
         else Ok false
     | [] => Ok false
     end)
    (fun _ => Ok false).

(** Lines 164-180. *)
Definition trySuitableTab (e : Env) : result bool :=
  try_catch
    (allTabs ← tabsQueryAll e 0%nat;
     let suitableTabs :=
       List.filter
         (urlAvoids ["chrome://"; "chrome-extension://"; "edge://"; "about:"; "moz-extension://"])
         allTabs in
     match suitableTabs with
     | t :: _ => _ ← executeScript e (tab_id t); Ok true
     | [] => Ok false
     end)
    (fun _ => Ok false).

(** Lines 185-196: the [for] loop over the tabs. *)
Fixpoint askContentScripts (e : Env) (tabs : list Tab) : result bool :=
  match tabs with
  | [] => Ok false
  | t :: rest =>
      if urlAvoids ["chrome://"; "chrome-extension://"] t
      then
        hit ← try_catch
                 (response ← tabsSendMessage e (tab_id t); Ok (acknowledged response))
                 (fun _ => Ok false);
        if (hit : bool) then Ok true else askContentScripts e rest
      else askContentScripts e rest
  end.

(** Lines 183-198. *)
Definition tryContentScripts (e : Env) : result bool :=
  try_catch
    (allTabs ← tabsQueryAll e 1%nat; askContentScripts e allTabs)
    (fun _ => Ok false).

(** One [attempt] of [pingOffscreen], lines 379-392: what its promise
    resolves to. *)
Definition pingAttempt (d : Ping) : bool :=
  match d with
  | PingAnswer r => acknowledged r
  | PingThrows | PingLastError _ => false
  end.

(** [pingOffscreen(retries, delay)], lines 393-400: attempts [i], [i+1], ...
    while any are left. *)
Fixpoint pingOffscreen (e : Env) (i retries : nat) : bool :=
  match retries with
  | O => false
  | S n => if pingAttempt (offscreenPing e i) then true else pingOffscreen e (S i) n
  end.

(** The attempts that loop makes, in order: the pings it sends. *)
Fixpoint pingsSent (e : Env) (i retries : nat) : list nat :=
  match retries with
  | O => []
  | S n => i :: (if pingAttempt (offscreenPing e i) then [] else pingsSent e (S i) n)
  end.

(** Lines 274-292. *)
Definition ensureOffscreen (e : Env) : result bool :=
  if negb (offscreenCreateAvailable e) then Ok false
  else
    try_catch
      (has ← (if offscreenHasDocumentAvailable e then offscreenHasDocument e else Ok false);
       _ ← (if (has : bool) then Ok tt else offscreenCreateDocument e);
       Ok (pingOffscreen e 0 5))
      (fun _ => Ok false).

(** The promise built by [send] in [clearClipboardOffscreen]. *)
Definition send (d : Delivery) : result (option bool) :=
  match d with
  | SendThrows => Throw "sendMessage"
  | LastError msg => Throw msg
  | NoAnswer => Throw "Offscreen timeout"
  | Answer r => Ok r
  end.

(** [try { await f() } catch (_) {}] *)
Definition swallow (r : result unit) : result unit :=
  try_catch r (fun _ => Ok tt).

(** Lines 298-326: no offscreen document could be made ready. *)
Definition ephemeralTab (e : Env) : result bool :=
  try_catch
    (opened ← try_catch
                 (_ ← tabsCreate e; Ok true)
                 (fun _ =>
                    _ ← windowsCreateMinimized e;
                    _ ← swallow (windowsRemove e);
                    Ok false);
     if (opened : bool)
     then _ ← swallow (tabsRemove e); Ok true
     else Ok true)
    (fun _ => Ok false).

(** Lines 330-358: [Ok true] when the function returned [true] from inside
    the [try]. *)
Definition askOffscreen (e : Env) : result bool :=
  try_catch
    (res ← try_catch (send (offscreenClear e 0)) (fun _ => send (offscreenClear e 1));
     if acknowledged res
     then
       _ ← (if offscreenCloseAvailable e then swallow (offscreenCloseDocument e) else Ok tt);
       Ok true
     else Ok false)
    (fun _ => Ok false).

(** Lines 360-375. *)
Definition ephemeralWindow (e : Env) : result bool :=
  try_catch
    (_ ← windowsCreateNormal e;
     _ ← swallow (windowsRemove e);
     Ok true)
    (fun _ => Ok false).

(** [clearClipboardOffscreen()] *)
Definition clearClipboardOffscreen (e : Env) : result bool :=
  ready ← ensureOffscreen e;
  if negb ready then ephemeralTab e
  else
    done ← askOffscreen e;
    if (done : bool) then Ok true else ephemeralWindow e.

(** How a run of [clearClipboard] ended: it called [showClearedBadge] and
    returned, or logged that no context was available, or its outer [catch]
    logged an error. *)
Inductive ChainEnd : Type :=
| Cleared
| NoContext
| Caught (msg : string).

(** The body of [clearClipboard] after its synchronous prefix (lines
    152-210). *)
Definition clearChain (e : Env) : result ChainEnd :=
  try_catch
    (a ← tryActiveTab e;
     if (a : bool) then Ok Cleared else
     b ← trySuitableTab e;
     if (b : bool) then Ok Cleared else
     c ← tryContentScripts e;
     if (c : bool) then Ok Cleared else
     d ← clearClipboardOffscreen e;
     if (d : bool) then Ok Cleared else Ok NoContext)
    (fun msg => Ok (Caught msg)).

(** The promise returned by [clearClipboard()]: the function has no [return]
    with a value and no [throw] outside its [try]. *)
Definition clearClipboardPromise (e : Env) : result unit :=
  _ ← clearChain e; Ok tt.

(** A browser in which every step of the chain fails: every tab is a
    [chrome://] page, no content script answers, there is no offscreen API,
    and neither a tab nor a window can be created. *)
Definition hostileEnv : Env := {|
  tabsQueryActive := Ok [ {| tab_id := 1; tab_url := Some "chrome://settings/" |} ];
  tabsQueryAll := fun _ =>
    Ok [ {| tab_id := 1; tab_url := Some "chrome://settings/" |};
         {| tab_id := 2; tab_url := Some "chrome://extensions/" |} ];
  executeScript := fun _ => Throw "Cannot access a chrome:// URL";
  tabsSendMessage := fun _ => Throw "Receiving end does not exist";
  offscreenCreateAvailable := false;
  offscreenHasDocumentAvailable := false;
  offscreenHasDocument := Throw "no offscreen";
  offscreenCreateDocument := Throw "no offscreen";
  offscreenPing := fun _ => PingLastError "Receiving end does not exist";
  offscreenClear := fun _ => LastError "Receiving end does not exist";
  offscreenCloseAvailable := false;
  offscreenCloseDocument := Throw "no offscreen";
  tabsCreate := Throw "No current window";
  tabsRemove := Throw "No tab";
  windowsCreateMinimized := Throw "Cannot create window";
  windowsCreateNormal := Throw "Cannot create window";
  windowsRemove := Throw "No window";
|}.

(** ** Settings, messages and responses *)

Record Settings : Type := {
  interval : num;
  enabled : bool;
  clearOnlyOnPasswordPaste : bool;
}.

(** Line 4. *)
Definition defaultSettings : Settings :=
  {| interval := Int 10; enabled := true; clearOnlyOnPasswordPaste := false |}.

(** What [chrome.storage.sync.get] hands to [loadSettings]; a key that was
    never written is absent. *)
Record Stored : Type := {
  clipboardInterval : option num;
  extensionEnabled : option bool;
  storedPasswordOnly : option bool;
}.

(** The argument of [sendResponse]: the settings object, or an object with
    [success] and optionally [message] and [error]. *)
Inductive Response : Type :=
| Reply (success : bool) (message error : option string)
| ReplySettings (s : Settings).

(** The messages the router distinguishes by [message.type]. *)
Inductive Message : Type :=
| PASTE_DETECTED (isPassword : value)
| GET_SETTINGS
| TOGGLE_EXTENSION (enabled : value)
| UPDATE_SETTINGS (interval : value)
| UPDATE_PASSWORD_ONLY (v : value)
| CLEAR_CLIPBOARD_NOW
| UNKNOWN (type : string).

(** ** Timers, suspended calls and the state of the service worker *)

(** The closures handed to [setTimeout] and [setInterval], with the variables
    they capture. *)
Inductive Callback : Type :=
| BadgeTick (timeLeft : num)
    (* handlePasteEvent's interval callback; it also captures its own handle *)
| ExpireCountdown (countdownInterval : nat)
    (* handlePasteEvent's timeout callback *)
| ExpireRestarted
    (* updateSettings' timeout callback: () => clearClipboard() *)
| BlankBadge.
    (* () => chrome.action.setBadgeText({ text: '' }) *)

Record Timer : Type := {
  due : Z;
  period : option Z;
  callback : Callback;
}.

(** An [async] call suspended at its [await], waiting for the browser. *)
Inductive Cont : Type :=
| AwaitLoadSettings (waiters : nat)
    (* loadSettings at storage.sync.get; [waiters] GET_SETTINGS replies hang on it *)
| AwaitUpdateSettings
    (* updateSettings at storage.sync.set *)
| AwaitPasswordOnly
    (* the UPDATE_PASSWORD_ONLY handler at storage.sync.set *)
| AwaitClear (reply : bool).
    (* clearClipboard past its synchronous prefix; [reply]: CLEAR_CLIPBOARD_NOW
       chained its response on the promise *)

Inductive Effect : Type :=
| Responded (r : Response)
| ClearCommand.

Record State : Type := {
  now : Z;
  nextTimer : nat;
  timers : gmap nat Timer;
  nextCall : nat;
  awaiting : gmap nat Cont;
  clearTimer : option nat;
  settings : Settings;
  settingsInitialized : bool;
  settingsInitPromise : option nat;
  badgeText : string;
  badgeColor : string;
  trace : list Effect;
}.

(** The script's top level: lines 3-6, no timer, empty badge.  Timer handles
    start at 1, so a handle is always truthy. *)
Definition initialState : State := {|
  now := 0;
  nextTimer := 1;
  timers := ∅;
  nextCall := 0;
  awaiting := ∅;
  clearTimer := None;
  settings := defaultSettings;
  settingsInitialized := false;
  settingsInitPromise := None;
  badgeText := "";
  badgeColor := "";
  trace := [];
|}.

Definition set_now (v : Z) (s : State) : State :=
  {| now := v; nextTimer := nextTimer s; timers := timers s; nextCall := nextCall s;
     awaiting := awaiting s; clearTimer := clearTimer s; settings := settings s;
     settingsInitialized := settingsInitialized s;
     settingsInitPromise := settingsInitPromise s; badgeText := badgeText s;
     badgeColor := badgeColor s; trace := trace s |}.

Definition set_timers (n : nat) (v : gmap nat Timer) (s : State) : State :=
  {| now := now s; nextTimer := n; timers := v; nextCall := nextCall s;
     awaiting := awaiting s; clearTimer := clearTimer s; settings := settings s;
     settingsInitialized := settingsInitialized s;
     settingsInitPromise := settingsInitPromise s; badgeText := badgeText s;
     badgeColor := badgeColor s; trace := trace s |}.

Definition set_awaiting (n : nat) (v : gmap nat Cont) (s : State) : State :=
  {| now := now s; nextTimer := nextTimer s; timers := timers s; nextCall := n;
     awaiting := v; clearTimer := clearTimer s; settings := settings s;
     settingsInitialized := settingsInitialized s;
     settingsInitPromise := settingsInitPromise s; badgeText := badgeText s;
     badgeColor := badgeColor s; trace := trace s |}.

Definition set_clearTimer (v : option nat) (s : State) : State :=
  {| now := now s; nextTimer := nextTimer s; timers := timers s; nextCall := nextCall s;
     awaiting := awaiting s; clearTimer := v; settings := settings s;
     settingsInitialized := settingsInitialized s;
     settingsInitPromise := settingsInitPromise s; badgeText := badgeText s;
     badgeColor := badgeColor s; trace := trace s |}.

Definition set_settings (v : Settings) (s : State) : State :=
  {| now := now s; nextTimer := nextTimer s; timers := timers s; nextCall := nextCall s;
     awaiting := awaiting s; clearTimer := clearTimer s; settings := v;
     settingsInitialized := settingsInitialized s;
     settingsInitPromise := settingsInitPromise s; badgeText := badgeText s;
     badgeColor := badgeColor s; trace := trace s |}.

Definition set_initialized (v : bool) (p : option nat) (s : State) : State :=
  {| now := now s; nextTimer := nextTimer s; timers := timers s; nextCall := nextCall s;
     awaiting := awaiting s; clearTimer := clearTimer s; settings := settings s;
     settingsInitialized := v; settingsInitPromise := p; badgeText := badgeText s;
     badgeColor := badgeColor s; trace := trace s |}.

(** [chrome.action.setBadgeText({ text })] *)
Definition setBadgeText (text : string) (s : State) : State :=
  {| now := now s; nextTimer := nextTimer s; timers := timers s; nextCall := nextCall s;
     awaiting := awaiting s; clearTimer := clearTimer s; settings := settings s;
     settingsInitialized := settingsInitialized s;
     settingsInitPromise := settingsInitPromise s; badgeText := text;
     badgeColor := badgeColor s; trace := trace s |}.

(** [chrome.action.setBadgeBackgroundColor({ color })] *)
Definition setBadgeBackgroundColor (color : string) (s : State) : State :=
  {| now := now s; nextTimer := nextTimer s; timers := timers s; nextCall := nextCall s;
     awaiting := awaiting s; clearTimer := clearTimer s; settings := settings s;
     settingsInitialized := settingsInitialized s;
     settingsInitPromise := settingsInitPromise s; badgeText := badgeText s;
     badgeColor := color; trace := trace s |}.

(** Effects are recorded newest first. *)
Definition emit (e : Effect) (s : State) : State :=
  {| now := now s; nextTimer := nextTimer s; timers := timers s; nextCall := nextCall s;
     awaiting := awaiting s; clearTimer := clearTimer s; settings := settings s;
     settingsInitialized := settingsInitialized s;
     settingsInitPromise := settingsInitPromise s; badgeText := badgeText s;
     badgeColor := badgeColor s; trace := e :: trace s |}.

Definition sendResponse (r : Response) (s : State) : State := emit (Responded r) s.

(** [setTimeout(cb, delay)]: a fresh handle, due [delay] ms from now. *)
Definition setTimeout (cb : Callback) (delay : Z) (s : State) : nat * State :=
  let id := nextTimer s in
  (id, set_timers (S id)
         (<[id := {| due := now s + delay; period := None; callback := cb |}]> (timers s)) s).

(** [setInterval(cb, delay)] *)
Definition setInterval (cb : Callback) (delay : Z) (s : State) : nat * State :=
  let id := nextTimer s in
  (id, set_timers (S id)
         (<[id := {| due := now s + delay; period := Some delay; callback := cb |}]> (timers s)) s).

(** [clearTimeout(id)] and [clearInterval(id)]: an unknown handle is ignored. *)
Definition clearTimeout (id : nat) (s : State) : State :=
  set_timers (nextTimer s) (delete id (timers s)) s.

Definition clearInterval (id : nat) (s : State) : State := clearTimeout id s.

(** Suspend the running [async] call at its [await]. *)
Definition suspend (k : Cont) (s : State) : nat * State :=
  let id := nextCall s in
  (id, set_awaiting (S id) (<[id := k]> (awaiting s)) s).

(** ** The functions of the script *)

(** Lines 254-258. *)
Definition showClearedBadge (s : State) : State :=
  let s := setBadgeText "OK" s in
  let s := setBadgeBackgroundColor "#4CAF50" s in
  snd (setTimeout BlankBadge 2000 s).

(** [clearClipboard()] up to its first [await] (lines 146-154): the pending
    timer is dropped and the call is left waiting for the browser. *)
Definition clearClipboard (reply : bool) (s : State) : State :=
  let s := emit ClearCommand s in
  let s := match clearTimer s with
           | Some id => set_clearTimer None (clearTimeout id s)
           | None => s
           end in
  snd (suspend (AwaitClear reply) s).

(** Lines 123-143. *)
Definition handlePasteEvent (s : State) : State :=
  let s := match clearTimer s with
           | Some id => clearTimeout id s
           | None => s
           end in
  let timeLeft := interval (settings s) in
  let s := setBadgeText (toString timeLeft) s in
  let s := setBadgeBackgroundColor "#ff9800" s in
  let '(countdownInterval, s) := setInterval (BadgeTick timeLeft) 1000 s in
  let '(id, s) :=
    setTimeout (ExpireCountdown countdownInterval)
               (timerDelay (times (interval (settings s)) 1000)) s in
  set_clearTimer (Some id) s.

(** [updateSettings(newInterval)] up to its [await] (lines 261-263). *)
Definition updateSettings (newInterval : num) (s : State) : State :=
  let st := settings s in
  let s := set_settings {| interval := newInterval; enabled := enabled st;
                           clearOnlyOnPasswordPaste := clearOnlyOnPasswordPaste st |} s in
  snd (suspend AwaitUpdateSettings s).

(** [updateSettings] after its [await] (lines 264-271), then the router's
    [.then] (line 88): the function catches the storage error itself, so its
    promise is fulfilled either way. *)
Definition updateSettings_resume (stored : result unit) (s : State) : State :=
  let s :=
    match stored with
    | Ok _ =>
        match clearTimer s with
        | Some id =>
            let s := clearTimeout id s in
            let '(id', s) :=
              setTimeout ExpireRestarted (timerDelay (times (interval (settings s)) 1000)) s in
            set_clearTimer (Some id') s
        | None => s
        end
    | Throw _ => s
    end in
  sendResponse (Reply true None None) s.

(** [loadSettings()] up to its [await] (lines 12-18). *)
Definition loadSettings (waiters : nat) (s : State) : nat * State :=
  suspend (AwaitLoadSettings waiters) s.

(** [loadSettings] after its [await] (lines 19-28). *)
Definition loadSettings_resume (r : option Stored) (s : State) : State :=
  match r with
  | Some result =>
      let s := set_settings
        {| interval := match clipboardInterval result with
                       | Some n => if num_truthy n then n else Int 10
                       | None => Int 10
                       end;
           enabled := match extensionEnabled result with
                      | Some false => false
                      | _ => true
                      end;
           clearOnlyOnPasswordPaste := match storedPasswordOnly result with
                                       | Some b => b
                                       | None => false
                                       end |} s in
      set_initialized true (settingsInitPromise s) s
  | None =>
      let s := set_settings defaultSettings s in
      set_initialized true (settingsInitPromise s) s
  end.

(** Answer the [n] GET_SETTINGS requests that waited for the load. *)
Fixpoint answerWaiters (n : nat) (s : State) : State :=
  match n with
  | O => s
  | S m => answerWaiters m (sendResponse (ReplySettings (settings s)) s)
  end.

(** The router's GET_SETTINGS branch when the settings are not loaded:
    [ensureSettingsLoaded().then(...)] (lines 31-38 and 59). *)
Definition ensureSettingsLoaded (s : State) : State :=
  match settingsInitPromise s with
  | Some k =>
      match awaiting s !! k with
      | Some (AwaitLoadSettings w) =>
          set_awaiting (nextCall s) (<[k := AwaitLoadSettings (S w)]> (awaiting s)) s
      | _ => s
      end
  | None =>
      let '(k, s) := loadSettings 1 s in
      set_initialized (settingsInitialized s) (Some k) s
  end.

(** The listener of [chrome.runtime.onMessage] (lines 41-121).  The badge
    calls of [chrome.action] and the toggle branch's fire-and-forget storage
    write are taken not to throw, so that branch's [catch] is not entered. *)
Definition onMessage (message : Message) (s : State) : State :=
  match message with
  | PASTE_DETECTED isPassword =>
      let s :=
        if enabled (settings s) then
          let isPassword := Boolean isPassword in
          if negb (clearOnlyOnPasswordPaste (settings s)) || isPassword
          then handlePasteEvent s
          else s
        else s in
      sendResponse (Reply true None None) s
  | GET_SETTINGS =>
      if settingsInitialized s
      then sendResponse (ReplySettings (settings s)) s
      else ensureSettingsLoaded s
  | TOGGLE_EXTENSION v =>
      let st := settings s in
      let s := set_settings {| interval := interval st; enabled := Boolean v;
                               clearOnlyOnPasswordPaste := clearOnlyOnPasswordPaste st |} s in
      let s :=
        match clearTimer s with
        | Some id =>
            if negb (enabled (settings s))
            then setBadgeText "" (set_clearTimer None (clearTimeout id s))
            else s
        | None => s
        end in
      let s :=
        if negb (enabled (settings s)) then
          let s := setBadgeText "OFF" s in
          let s := setBadgeBackgroundColor "#888" s in
          snd (setTimeout BlankBadge 2000 s)
        else setBadgeText "" s in
      sendResponse (Reply true None None) s
  | UPDATE_SETTINGS v => updateSettings (Number v) s
  | UPDATE_PASSWORD_ONLY v =>
      let st := settings s in
      let s := set_settings {| interval := interval st; enabled := enabled st;
                               clearOnlyOnPasswordPaste := Boolean v |} s in
      snd (suspend AwaitPasswordOnly s)
  | CLEAR_CLIPBOARD_NOW =>
      if negb (enabled (settings s))
      then sendResponse (Reply false (Some "Extension is disabled") None) s
      else clearClipboard true s
  | UNKNOWN _ => sendResponse (Reply false None (Some "Unknown message type")) s
  end.

(** A timer callback runs; [self] is the handle of the timer that fired. *)
Definition runCallback (self : nat) (cb : Callback) (s : State) : State :=
  match cb with
  | BadgeTick timeLeft =>
      let timeLeft := decr timeLeft in
      let s := set_timers (nextTimer s)
                 (alter (fun t => {| due := due t; period := period t;
                                     callback := BadgeTick timeLeft |}) self (timers s)) s in
      if gt timeLeft 0
      then setBadgeText (toString timeLeft) s
      else clearInterval self s
  | ExpireCountdown countdownInterval =>
      clearClipboard false (clearInterval countdownInterval s)
  | ExpireRestarted => clearClipboard false s
  | BlankBadge => setBadgeText "" s
  end.

(** The host runs the task of timer [id]: never before it is due; a timeout
    is spent, an interval is re-armed one period later. *)
Definition fire (id : nat) (s : State) : State :=
  match timers s !! id with
  | Some t =>
      if due t <=? now s then
        let remaining :=
          match period t with
          | None => delete id (timers s)
          | Some p => <[id := {| due := due t + p; period := Some p;
                                callback := callback t |}]> (timers s)
          end in
        runCallback id (callback t) (set_timers (nextTimer s) remaining s)
      else s
  | None => s
  end.

(** [clearClipboard] runs to its end against the browser [e]; when
    CLEAR_CLIPBOARD_NOW chained on it, lines 112-113 answer. *)
Definition clearClipboard_resume (reply : bool) (e : Env) (s : State) : State :=
  let s := match clearChain e with
           | Ok Cleared => showClearedBadge s
           | _ => s
           end in
  if reply then
    match clearClipboardPromise e with
    | Ok _ => sendResponse (Reply true None None) s
    | Throw msg => sendResponse (Reply false None (Some msg)) s
    end
  else s.

(** ** The event loop *)

Inductive Event : Type :=
| Elapse (dt : N)
    (* time passes *)
| Startup
    (* chrome.runtime.onStartup / onInstalled *)
| Deliver (m : Message)
    (* chrome.runtime.onMessage *)
| Fire (id : nat)
    (* a timer task *)
| StorageGetSettles (k : nat) (r : option Stored)
    (* the storage read awaited by call [k] settles; [None]: it rejects *)
| StorageSetSettles (k : nat) (r : result unit)
    (* the storage write awaited by call [k] settles *)
| ClearSettles (k : nat) (e : Env).
    (* the browser calls of clearClipboard call [k] have all settled *)

Definition resume (k : nat) (s : State) : State :=
  set_awaiting (nextCall s) (delete k (awaiting s)) s.

Definition step (ev : Event) (s : State) : State :=
  match ev with
  | Elapse dt => set_now (now s + Z.of_N dt) s
  | Startup => snd (loadSettings 0 s)
  | Deliver m => onMessage m s
  | Fire id => fire id s
  | StorageGetSettles k r =>
      match awaiting s !! k with
      | Some (AwaitLoadSettings waiters) =>
          let s := loadSettings_resume r (resume k s) in
          let s := if decide (settingsInitPromise s = Some k)
                   then set_initialized (settingsInitialized s) None s
                   else s in
          answerWaiters waiters s
      | _ => s
      end
  | StorageSetSettles k r =>
      match awaiting s !! k with
      | Some AwaitUpdateSettings => updateSettings_resume r (resume k s)
      | Some AwaitPasswordOnly =>
          sendResponse
            (match r with
             | Ok _ => Reply true None None
             | Throw msg => Reply false None (Some msg)
             end)
            (resume k s)
      | _ => s
      end
  | ClearSettles k e =>
      match awaiting s !! k with
      | Some (AwaitClear reply) => clearClipboard_resume reply e (resume k s)
      | _ => s
      end
  end.

(** Run a schedule, first event first. *)
Definition run (evs : list Event) (s : State) : State :=
  fold_left (fun s ev => step ev s) evs s.

(** ** Observations on a state *)

(** A timer whose task issues the clear command when it runs. *)
Definition isClearCallback (cb : Callback) : bool :=
  match cb with
  | ExpireCountdown _ | ExpireRestarted => true
  | BadgeTick _ | BlankBadge => false
  end.

(** The timers that will issue a clear command. *)
Definition pendingClears (s : State) : gmap nat Timer :=
  filter (fun kt => isClearCallback (callback kt.2) = true) (timers s).

(** The active countdowns: handle and deadline of every scheduled clear. *)
Definition countdowns (s : State) : list (nat * Z) :=
  (fun kt => (kt.1, due kt.2)) <$> map_to_list (pendingClears s).

(** The pending per-second badge updates. *)
Definition badgeTicks (s : State) : list nat :=
  omap (fun kt => match callback kt.2 with BadgeTick _ => Some kt.1 | _ => None end)
       (map_to_list (timers s)).

(** A step from [s] to [s'] started a countdown: [s'] holds a scheduled
    clear under a handle that [s] had not issued yet. *)
Definition startsCountdown (s s' : State) : Prop :=
  exists id t, timers s' !! id = Some t /\ isClearCallback (callback t) = true
               /\ (nextTimer s <= id)%nat.

(** The delay setting lies in its domain, the integers from 1 to 300. *)
Definition inDomain (n : num) : Prop :=
  exists z, n = Int z /\ 1 <= z <= 300.

Definition isDeliver (ev : Event) : bool :=
  match ev with
  | Deliver _ => true
  | _ => false
  end.

(** ** Invariants of the timer table *)

(** No timer of [tm] issues a clear command. *)
Definition quiet (tm : gmap nat Timer) : Prop :=
  forall id t, tm !! id = Some t -> isClearCallback (callback t) = false.

(** Every timer of [tm] that issues a clear command is the one [ct] holds. *)
Definition tracked (tm : gmap nat Timer) (ct : option nat) : Prop :=
  forall id t, tm !! id = Some t -> isClearCallback (callback t) = true -> ct = Some id.

(** Every handle in use was issued: it lies below the next handle [n]. *)
Definition issued (n : nat) (tm : gmap nat Timer) : Prop :=
  forall id t, tm !! id = Some t -> (id < n)%nat.

Definition invariant (s : State) : Prop :=
  tracked (timers s) (clearTimer s) /\ issued (nextTimer s) (timers s).

(** How many clear commands were issued so far. *)
Definition isClearCommand (e : Effect) : bool :=
  match e with
  | ClearCommand => true
  | Responded _ => false
  end.

Definition clearCommands (s : State) : nat :=
  length (List.filter isClearCommand (trace s)).

End Background.

(* ===================================================================== *)
(** * The content scripts: src/unnamed/part_002 and src/content.js *)
(* ===================================================================== *)

Module Content.
Import JS.

(** What the classifiers read of an [HTMLInputElement]: the [type] and
    [name] properties, the [autocomplete] attribute and the computed value
    of [-webkit-text-security]. *)
Record InputProps : Type := {
  type : string;
  autocomplete : option string;
  name : string;
  textSecurity : string;
}.

(** An element with the chain of its ancestors.  [htmlInput] is present
    exactly on instances of [HTMLInputElement]; [editableTrue] says whether
    the element matches [[contenteditable="true"]]. *)
#[warnings="-register-all"]
Inductive Element : Type :=
| El (localName : string) (id : string) (htmlInput : option InputProps)
     (editableTrue : bool) (parent : option Element).

Definition localName (el : Element) : string :=
  match el with El n _ _ _ _ => n end.
Definition id (el : Element) : string :=
  match el with El _ i _ _ _ => i end.
Definition htmlInput (el : Element) : option InputProps :=
  match el with El _ _ p _ _ => p end.
Definition editableTrue (el : Element) : bool :=
  match el with El _ _ _ e _ => e end.
Definition parent (el : Element) : option Element :=
  match el with El _ _ _ _ p => p end.

(** What a paste can target: nothing, a node that is no element (a text
    node, the document), or an element. *)
Inductive Target : Type :=
| NoTarget
| OtherNode
| Elem (el : Element).

(** [el.closest(selector)]: the element itself or its nearest ancestor that
    matches. *)
Fixpoint closest (matches : Element -> bool) (el : Element) : option Element :=
  if matches el then Some el
  else match el with
       | El _ _ _ _ (Some p) => closest matches p
       | El _ _ _ _ None => None
       end.

(** The selector ['input']. *)
Definition isInputTag (el : Element) : bool := String.eqb (localName el) "input".

(** The selector ['input,textarea,[contenteditable="true"]']. *)
Definition isEditable (el : Element) : bool :=
  String.eqb (localName el) "input" || String.eqb (localName el) "textarea"
  || editableTrue el.

(** [css && css.trim().toLowerCase() !== 'none'] *)
Definition masked (css : string) : bool :=
  negb (isEmpty css) && negb (String.eqb (toLowerCase (trim css)) "none").

(** [(x || '')] on an attribute that may be absent. *)
Definition orEmpty (a : option string) : string :=
  match a with
  | Some s => s
  | None => ""
  end.

(** [event.clipboardData]'s text, the candidates for the paste target, and
    the state of the script's page. *)
Record PasteEvent : Type := {
  composedPath : option (list Target);
  eventTarget : Target;
  activeElement : Target;
  clipboardData : option string;
}.

(** [chrome.runtime] as a send meets it: gone, throwing, or accepting. *)
Inductive Runtime : Type :=
| RuntimeGone
| RuntimeThrows (msg : string)
| RuntimeAlive.

Record Page : Type := {
  extensionContextValid : bool;
  contextMenuListeners : nat;
  outbox : list Background.Message;
}.

(** [getPasteTarget(event)] *)
Definition getPasteTarget (event : PasteEvent) : Target :=
  match composedPath event with
  | Some (t :: _) => t
  | _ =>
      match eventTarget event with
      | NoTarget => activeElement event
      | t => t
      end
  end.

Section Detector.

(** The functions of src/unnamed/part_002, lines 82-172, around its
    classifier.  The second script of src/content.js declares the same
    functions (lines 383-472) around its own classifier, but never installs
    them as listeners: see [BroadScript]. *)
Variable isPasswordField : Target -> bool.

(** [sendMessageSafely(message)] up to the send. *)
Definition sendMessageSafely (rt : Runtime) (message : Background.Message) (p : Page) : Page :=
  match rt with
  | RuntimeGone =>
      {| extensionContextValid := false;
         contextMenuListeners := contextMenuListeners p; outbox := outbox p |}
  | RuntimeThrows msg =>
      if includes msg "Extension context invalidated" || includes msg "chrome.runtime"
         || includes msg "Invocation of form"
      then {| extensionContextValid := false;
              contextMenuListeners := contextMenuListeners p; outbox := outbox p |}
      else p
  | RuntimeAlive =>
      {| extensionContextValid := extensionContextValid p;
         contextMenuListeners := contextMenuListeners p;
         outbox := outbox p ++ [message] |}
  end.

(** [notifyPasteEvent(isPasswordFieldPaste)]; the timestamp is not read by
    the background script and is left out of the message. *)
Definition notifyPasteEvent (rt : Runtime) (isPasswordFieldPaste : bool) (p : Page) : Page :=
  if negb (extensionContextValid p) then p
  else sendMessageSafely rt (Background.PASTE_DETECTED (Bool isPasswordFieldPaste)) p.

(** [handlePasteEvent(event)] *)
Definition handlePasteEvent (rt : Runtime) (event : PasteEvent) (p : Page) : Page :=
  let target := getPasteTarget event in
  let isPwd := isPasswordField target in
  let text := match clipboardData event with
              | Some t => if isEmpty t then "" else t
              | None => ""
              end in
  if negb (isEmpty (trim text)) then notifyPasteEvent rt isPwd p else p.

(** [handleContextMenu]'s timer has run: one more one-shot paste listener. *)
Definition handleContextMenu (p : Page) : Page :=
  {| extensionContextValid := extensionContextValid p;
     contextMenuListeners := S (contextMenuListeners p); outbox := outbox p |}.

(** A [paste] event reaches the document: the listener installed by
    [setupListeners] runs, then every one-shot [contextMenuListener], each of
    which calls [handlePasteEvent] and removes itself. *)
Definition onPaste (rt : Runtime) (event : PasteEvent) (p : Page) : Page :=
  let p := handlePasteEvent rt event p in
  let n := contextMenuListeners p in
  Nat.iter n (handlePasteEvent rt event)
    {| extensionContextValid := extensionContextValid p;
       contextMenuListeners := 0; outbox := outbox p |}.

End Detector.

End Content.

(** ** src/unnamed/part_002: the narrow classifier *)

Module ContentNarrow.
Import JS Content.

(** Lines 28-41, on the input found by [closest]. *)
Definition inputRules (p : InputProps) : bool :=
  let type := toLowerCase (type p) in
  if String.eqb type "password" then true
  else
    let ac := toLowerCase (orEmpty (autocomplete p)) in
    if testWords ["current-password"; "new-password"; "one-time-code"] ac then true
    else masked (textSecurity p).

(** [isPasswordField(el)], lines 20-45. *)
Definition isPasswordField (el : Target) : bool :=
  match el with
  | Elem el =>
      match closest isInputTag el with
      | Some input =>
          match htmlInput input with
          | Some p => inputRules p
          | None => false
          end
      | None => false
      end
  | NoTarget | OtherNode => false
  end.

End ContentNarrow.

(** ** src/content.js, second script: the broad classifier *)

Module ContentBroad.
Import JS Content.

(** Lines 326-335, on an [HTMLInputElement]. *)
Definition inputRules (elId : string) (p : InputProps) : bool :=
  let type := toLowerCase (type p) in
  if String.eqb type "password" then true
  else
    let ac := toLowerCase (orEmpty (autocomplete p)) in
    if testWords ["current-password"; "new-password"] ac then true
    else
      let nameId := toLowerCase (name p ++ " " ++ elId) in
      if includes nameId "password" then true
      else masked (textSecurity p).

(** One call of [isPasswordField] on an element, the recursive call left to
    the caller: [inl b] is a returned [b], [inr a] the call on ancestor [a]. *)
Definition classify (el : Element) : bool + Element :=
  if match htmlInput el with
     | Some p => inputRules (id el) p
     | None => false
     end
  then inl true
  else
    match closest isEditable el with
    | Some ancestor => if isEditable el then inl false else inr ancestor
    | None => inl false
    end.

(** [isPasswordField(el)], lines 323-343.  [closest] returns an element
    that matches the selector, so the recursive call on it does not recurse
    again. *)
Definition isPasswordField (el : Target) : bool :=
  match el with
  | Elem el =>
      match classify el with
      | inl b => b
      | inr ancestor =>
          match classify ancestor with
          | inl b => b
          | inr _ => false
          end
      end
  | NoTarget | OtherNode => false
  end.

End ContentBroad.

(* ===================================================================== *)
(** * src/popup.js *)
(* ===================================================================== *)

Module Popup.
Import JS.

(** The value of a digit in [radix], if it is one. *)
Definition digitValue (radix : N) (c : ascii) : option N :=
  let n := code c in
  let d := if ((48 <=? n) && (n <=? 57))%N then Some (n - 48)%N
           else if ((97 <=? n) && (n <=? 122))%N then Some (n - 87)%N
           else if ((65 <=? n) && (n <=? 90))%N then Some (n - 55)%N
           else None in
  match d with
  | Some v => if (v <? radix)%N then Some v else None
  | None => None
  end.

(** The longest prefix of digits, read in [radix]; [acc] is what was read. *)
Fixpoint readDigits (radix : N) (acc : option N) (s : string) : option N :=
  match s with
  | EmptyString => acc
  | String c r =>
      match digitValue radix c with
      | Some d => readDigits radix (Some (default 0 acc * radix + d)%N) r
      | None => acc
      end
  end.

(** [parseInt(s)] without a radix: leading white space, a sign, an optional
    [0x]/[0X] prefix, then digits; NaN when there is no digit. *)
Definition parseInt (s : string) : num :=
  let s := trimStart s in
  let '(negative, s) :=
    match s with
    | String "-" r => (true, r)
    | String "+" r => (false, r)
    | _ => (false, s)
    end in
  let '(radix, s) :=
    match s with
    | String "0" (String "x" r) => (16%N, r)
    | String "0" (String "X" r) => (16%N, r)
    | _ => (10%N, s)
    end in
  match readDigits radix None s with
  | Some n => Int (if negative then - Z.of_N n else Z.of_N n)
  | None => NaN
  end.

(** [autoSaveInterval()], lines 195-221, on the text of the interval field:
    the message it sends, if it sends one. *)
Definition autoSaveInterval (fieldValue : string) : option Background.Message :=
  let interval := parseInt fieldValue in
  if isNaN interval || lt interval 1 || gt interval 300
  then None
  else Some (Background.UPDATE_SETTINGS (Num interval)).

End Popup.

(* ===================================================================== *)
(** * The scripts together *)
(* ===================================================================== *)

Module System.
Import JS Background.

(** The events the repository's own scripts and their storage can cause:
    an UPDATE_SETTINGS message is one that [autoSaveInterval] sends (no other
    script sends this type), and a stored delay is one of the domain (only
    [updateSettings] writes the key). *)
Definition ownEvent (ev : Event) : Prop :=
  match ev with
  | Deliver (UPDATE_SETTINGS v) =>
      exists fieldValue, Popup.autoSaveInterval fieldValue = Some (UPDATE_SETTINGS v)
  | StorageGetSettles _ (Some r) =>
      match clipboardInterval r with
      | Some n => inDomain n
      | None => True
      end
  | _ => True
  end.

End System.

(* ===================================================================== *)
(** * Answers owed by the service worker *)
(* ===================================================================== *)

Module Accounting.
Import JS Background.

(** How many [sendResponse] calls hang on a suspended call. *)
Definition replies (k : Cont) : nat :=
  match k with
  | AwaitLoadSettings waiters => waiters
  | AwaitUpdateSettings => 1
  | AwaitPasswordOnly => 1
  | AwaitClear reply => if reply then 1 else 0
  end.

Definition owedBy (calls : gmap nat Cont) : nat :=
  map_fold (fun _ k acc => (replies k + acc)%nat) 0%nat calls.

(** The answers still to come. *)
Definition owed (s : State) : nat := owedBy (awaiting s).

Definition isResponse (e : Effect) : bool :=
  match e with
  | Responded _ => true
  | ClearCommand => false
  end.

(** The answers given so far. *)
Definition answered (s : State) : nat := length (List.filter isResponse (trace s)).

(** The messages a schedule delivers. *)
Definition delivered (evs : list Event) : nat := length (List.filter isDeliver evs).

(** The suspended calls have handles that were issued, and the load that
    [settingsInitPromise] stands for is one of them. *)
Definition callsInvariant (s : State) : Prop :=
  (forall k c, awaiting s !! k = Some c -> (k < nextCall s)%nat) /\
  (forall k, settingsInitPromise s = Some k ->
             exists w, awaiting s !! k = Some (AwaitLoadSettings w)).

(** What a step does to the books: [s'] keeps the invariant and the
    answers given plus the answers owed grow by [d]. *)
Definition booked (s s' : State) (d : nat) : Prop :=
  callsInvariant s' /\ (answered s' + owed s' = answered s + owed s + d)%nat.

End Accounting.

(* ===================================================================== *)
(** * White-space separated words *)
(* ===================================================================== *)

Module Words.
Import JS.

(** The pieces of [s] between its white-space units, as [s.split(/\s/)]
    gives them: one more piece than there are units, empty pieces included. *)
Fixpoint pieces (s : string) : list string :=
  match s with
  | EmptyString => [EmptyString]
  | String c r =>
      if isWhiteSpace c then EmptyString :: pieces r
      else match pieces r with
           | t :: ts => String c t :: ts
           | [] => [String c EmptyString]
           end
  end.

(** No unit of [w] is white space. *)
Fixpoint solid (w : string) : bool :=
  match w with
  | EmptyString => true
  | String c r => negb (isWhiteSpace c) && solid r
  end.

Definition isOneOf (ws : list string) (t : string) : bool :=
  existsb (String.eqb t) ws.

End Words.

(* ===================================================================== *)
(** * The content script as a whole: src/unnamed/part_002, lines 3-249 *)
(* ===================================================================== *)

Module Liveness.
Import JS Content.

(** The script's state: the guard of [setupListeners] and the page state. *)
Record Script : Type := {
  listenersSetup : bool;
  page : Page;
}.

(** Lines 13-16: the variables as the script declares them. *)
Definition scriptStart : Script :=
  {| listenersSetup := false;
     page := {| extensionContextValid := true; contextMenuListeners := 0; outbox := [] |} |}.

Definition setValid (b : bool) (p : Page) : Page :=
  {| extensionContextValid := b; contextMenuListeners := contextMenuListeners p;
     outbox := outbox p |}.

(** [testExtensionContext()], lines 69-80. *)
Definition testExtensionContext (rt : Runtime) (p : Page) : Page :=
  match rt with
  | RuntimeAlive => setValid true p
  | RuntimeGone => p
  | RuntimeThrows _ => setValid false p
  end.

(** [setupListeners()], lines 55-67. *)
Definition setupListeners (rt : Runtime) (sc : Script) : Script :=
  if listenersSetup sc then sc
  else {| listenersSetup := true; page := testExtensionContext rt (page sc) |}.

(** The callback handed to [chrome.runtime.sendMessage], lines 138-158:
    [lastError] is [chrome.runtime.lastError.message] when there is one. *)
Definition sendCallback (lastError : option string) (p : Page) : Page :=
  match lastError with
  | Some error =>
      if includes error "Extension context invalidated"
         || includes error "Receiving end does not exist"
         || includes error "message port closed"
      then setValid false p
      else p
  | None => p
  end.

(** The 30-second check, lines 235-247. *)
Definition periodicCheck (rt : Runtime) (p : Page) : Page :=
  if extensionContextValid p then
    match rt with
    | RuntimeAlive => p
    | RuntimeGone | RuntimeThrows _ => setValid false p
    end
  else p.

(** What can happen to the script after its top level has run. *)
Inductive PageEvent : Type :=
| SetupListeners (rt : Runtime)
    (* a call of setupListeners: lines 224-232 *)
| Paste (rt : Runtime) (event : PasteEvent)
    (* a paste event reaches the document *)
| ContextMenuTimer
    (* the timer set by handleContextMenu runs *)
| SendCallback (lastError : option string)
| PeriodicCheck (rt : Runtime).

Section Loop.

Variable isPasswordField : Target -> bool.

(** The listeners exist only once [setupListeners] has installed them. *)
Definition pageStep (ev : PageEvent) (sc : Script) : Script :=
  match ev with
  | SetupListeners rt => setupListeners rt sc
  | Paste rt event =>
      if listenersSetup sc
      then {| listenersSetup := true; page := onPaste isPasswordField rt event (page sc) |}
      else sc
  | ContextMenuTimer =>
      if listenersSetup sc
      then {| listenersSetup := true; page := handleContextMenu (page sc) |}
      else sc
  | SendCallback lastError =>
      {| listenersSetup := listenersSetup sc; page := sendCallback lastError (page sc) |}
  | PeriodicCheck rt =>
      {| listenersSetup := listenersSetup sc; page := periodicCheck rt (page sc) |}
  end.

Definition pageRun (evs : list PageEvent) (sc : Script) : Script :=
  fold_left (fun sc ev => pageStep ev sc) evs sc.

End Loop.

End Liveness.

(* ===================================================================== *)
(** * The second script of src/content.js as a whole: lines 305-550 *)
(* ===================================================================== *)

Module BroadScript.
Import JS Content.

(** The names the script declares in its closure (lines 317-498).  A name it
    uses must be one of them or a global of the content-script world, and no
    script of the repository defines a global function. *)
Definition declared : list string :=
  ["listenersSetup"; "extensionContextValid"; "isPasswordField"; "getPasteTarget";
   "setupListeners"; "testExtensionContext"; "handlePasteEvent"; "handleContextMenu";
   "notifyPasteEvent"; "sendMessageSafely"; "clearClipboardInContent"].

(** Evaluating an identifier: a ReferenceError unless it is declared. *)
Definition resolve (name : string) : result unit :=
  if existsb (String.eqb name) declared then Ok tt
  else Throw (name ++ " is not defined").

(** The script's state: the guard of [setupListeners], which listeners and
    timers it has installed, and the page state. *)
Record Script : Type := {
  listenersSetup : bool;
  pasteListener : bool;             (* handlePasteEvent listens for paste *)
  contextMenuListener : bool;       (* handleContextMenu listens for contextmenu *)
  domContentLoadedListener : bool;  (* setupListeners listens for DOMContentLoaded *)
  periodicCheck : bool;             (* the interval of lines 535-547 is set *)
  page : Page;
}.

Definition withPage (p : Page) (sc : Script) : Script :=
  {| listenersSetup := listenersSetup sc; pasteListener := pasteListener sc;
     contextMenuListener := contextMenuListener sc;
     domContentLoadedListener := domContentLoadedListener sc;
     periodicCheck := periodicCheck sc; page := p |}.

(** Lines 317-321: the variables as the script declares them. *)
Definition scriptStart : Script :=
  {| listenersSetup := false; pasteListener := false; contextMenuListener := false;
     domContentLoadedListener := false; periodicCheck := false;
     page := {| extensionContextValid := true; contextMenuListeners := 0; outbox := [] |} |}.

(** [setupListeners()], lines 355-368: the state it leaves and whether it
    returned.  The guard is set before the first [addEventListener], whose
    argument [handleKeyboardEvent] has to be evaluated first. *)
Definition setupListeners (rt : Runtime) (sc : Script) : Script * result unit :=
  if listenersSetup sc then (sc, Ok tt)
  else
    let sc :=
      {| listenersSetup := true; pasteListener := pasteListener sc;
         contextMenuListener := contextMenuListener sc;
         domContentLoadedListener := domContentLoadedListener sc;
         periodicCheck := periodicCheck sc; page := page sc |} in
    match resolve "handleKeyboardEvent" with
    | Throw msg => (sc, Throw msg)
    | Ok _ =>
        ({| listenersSetup := true; pasteListener := true; contextMenuListener := true;
            domContentLoadedListener := domContentLoadedListener sc;
            periodicCheck := periodicCheck sc;
            page := Liveness.testExtensionContext rt (page sc) |}, Ok tt)
    end.

(** The top level of the script, lines 307-549: the injection guard, the
    registration of the message listener (which needs [chrome.runtime]), the
    two calls of [setupListeners] (the first deferred to DOMContentLoaded
    while the document is loading) and the 30-second interval.  A statement
    that throws ends the script. *)
Definition topLevel (injected loading : bool) (rt : Runtime) : Script :=
  if injected then scriptStart
  else
    match rt with
    | RuntimeGone | RuntimeThrows _ => scriptStart
    | RuntimeAlive =>
        let '(sc, r) :=
          if loading
          then ({| listenersSetup := false; pasteListener := false;
                   contextMenuListener := false; domContentLoadedListener := true;
                   periodicCheck := false; page := page scriptStart |}, Ok tt)
          else setupListeners rt scriptStart in
        match r with
        | Throw _ => sc
        | Ok _ =>
            let '(sc, r) := setupListeners rt sc in
            match r with
            | Throw _ => sc
            | Ok _ =>
                {| listenersSetup := listenersSetup sc; pasteListener := pasteListener sc;
                   contextMenuListener := contextMenuListener sc;
                   domContentLoadedListener := domContentLoadedListener sc;
                   periodicCheck := true; page := page sc |}
            end
        end
    end.

(** What can happen to the script after its top level: an event reaches a
    listener or a timer only if the script has installed it.
    [SetupListeners] stands for DOMContentLoaded. *)
Definition pageStep (ev : Liveness.PageEvent) (sc : Script) : Script :=
  match ev with
  | Liveness.SetupListeners rt =>
      if domContentLoadedListener sc then fst (setupListeners rt sc) else sc
  | Liveness.Paste rt event =>
      if pasteListener sc
      then withPage (onPaste ContentBroad.isPasswordField rt event (page sc)) sc
      else sc
  | Liveness.ContextMenuTimer =>
      if contextMenuListener sc then withPage (handleContextMenu (page sc)) sc else sc
  | Liveness.SendCallback lastError =>
      withPage (Liveness.sendCallback lastError (page sc)) sc
  | Liveness.PeriodicCheck rt =>
      if periodicCheck sc then withPage (Liveness.periodicCheck rt (page sc)) sc else sc
  end.

Definition pageRun (evs : list Liveness.PageEvent) (sc : Script) : Script :=
  fold_left (fun sc ev => pageStep ev sc) evs sc.

End BroadScript.

(* ===================================================================== *)
(** * The clear primitives *)
(* ===================================================================== *)

Module Primitive.
Import JS.

(** What [document.execCommand('copy')] does while the one-shot [copy]
    listener of [setClipboardEmptyViaCopyEvent] is installed: the event
    reaches the handler, which returns or throws ([HandlerThrows] also
    stands for a command that throws itself), or no event is dispatched and
    the command returns false.  (A command that returned true without
    dispatching the event would leave the promise pending for ever.) *)
Inductive CopyEvent : Type :=
| Handled
| HandlerThrows (msg : string)
| Refused.

(** The page a primitive runs in: whether [navigator.clipboard.writeText]
    exists, how its n-th call settles, the copy event, and the
    [execCommand('copy')] on the selected textarea ([Throw] also stands for
    a DOM call around it that throws). *)
Record Host : Type := {
  clipboardApi : bool;
  writeText : nat -> result unit;
  copyEvent : CopyEvent;
  execCopy : result bool;
}.

(** The method through which a primitive got a success report.  The
    textarea of the [execCommand] method holds a single space;
    [overwritten] says whether the [writeText('')] issued after it was
    fulfilled. *)
Inductive Method : Type :=
| ByWriteText
| ByCopyEvent
| ByExecCommand (overwritten : bool).

Definition fulfilled {A} (r : result A) : bool :=
  match r with
  | Ok _ => true
  | Throw _ => false
  end.

(** ** The offscreen document: src/unnamed/part_002, lines 250-339 *)

(** [setClipboardEmptyViaCopyEvent()], lines 311-329. *)
Definition setClipboardEmptyViaCopyEvent (h : Host) : result unit :=
  match copyEvent h with
  | Handled => Ok tt
  | HandlerThrows msg => Throw msg
  | Refused => Throw "execCommand copy failed"
  end.

(** The promise built in lines 285-308; [calls] is the number of
    [writeText] calls made before. *)
Definition execCommandFallback (h : Host) (calls : nat) : result Method :=
  match execCopy h with
  | Ok true => Ok (ByExecCommand (clipboardApi h && fulfilled (writeText h calls)))
  | Ok false => Throw "execCommand failed"
  | Throw msg => Throw msg
  end.

(** [clearClipboard()] of the offscreen document, lines 265-309. *)
Definition offscreenClearClipboard (h : Host) : result Method :=
  let modern :=
    if clipboardApi h
    then try_catch (bind (writeText h 0) (fun _ => Ok true)) (fun _ => Ok false)
    else Ok false in
  bind modern (fun done =>
    if (done : bool) then Ok ByWriteText
    else
      bind (try_catch (bind (setClipboardEmptyViaCopyEvent h) (fun _ => Ok true))
                      (fun _ => Ok false))
           (fun done =>
              if (done : bool) then Ok ByCopyEvent
              else execCommandFallback h (if clipboardApi h then 1 else 0))).

Inductive OffscreenMessage : Type :=
| OFFSCREEN_PING
| OFFSCREEN_CLEAR_CLIPBOARD
| OFFSCREEN_OTHER.

(** The listener of the offscreen document, lines 252-263: the argument of
    [sendResponse], if it is called. *)
Definition offscreenListener (h : Host) (m : OffscreenMessage) : option Background.Response :=
  match m with
  | OFFSCREEN_PING => Some (Background.Reply true None None)
  | OFFSCREEN_CLEAR_CLIPBOARD =>
      match offscreenClearClipboard h with
      | Ok _ => Some (Background.Reply true None None)
      | Throw msg => Some (Background.Reply false None (Some msg))
      end
  | OFFSCREEN_OTHER => None
  end.

(** ** The content script: src/unnamed/part_002, lines 175-221 *)

(** [clearClipboardInContent()]: it returns ([Ok]) or rethrows; [Some m]
    when a method is known to have succeeded.  The [writeText] promise is
    not awaited; its rejection is only logged. *)
Definition clearClipboardInContent (h : Host) : result (option Method) :=
  if clipboardApi h
  then Ok (if fulfilled (writeText h 0) then Some ByWriteText else None)
  else
    match execCopy h with
    | Ok true => Ok (Some (ByExecCommand false))
    | Ok false => Ok None
    | Throw msg => Throw msg
    end.

(** The listener for CLEAR_CLIPBOARD_REQUEST, lines 175-187. *)
Definition contentListener (h : Host) : Background.Response :=
  match clearClipboardInContent h with
  | Ok _ => Background.Reply true None None
  | Throw msg => Background.Reply false None (Some msg)
  end.

(** ** The injected function: src/background.js, lines 213-252 *)

(** [clearWithExecCommand()], lines 224-247: every exception is logged. *)
Definition clearWithExecCommand (h : Host) (calls : nat) : option Method :=
  match execCopy h with
  | Ok true => Some (ByExecCommand (clipboardApi h && fulfilled (writeText h calls)))
  | Ok false => None
  | Throw _ => None
  end.

(** [clearClipboardInTab()]: it never throws; [Some m] when a method is
    known to have succeeded once every promise has settled. *)
Definition clearClipboardInTab (h : Host) : option Method :=
  if clipboardApi h
  then if fulfilled (writeText h 0) then Some ByWriteText else clearWithExecCommand h 1
  else clearWithExecCommand h 0.

(** The response object as [chrome.tabs.sendMessage] and the offscreen
    [send] hand it to the background script. *)
Definition successOf (r : Background.Response) : bool :=
  match r with
  | Background.Reply b _ _ => b
  | Background.ReplySettings _ => false
  end.

End Primitive.

(* ===================================================================== *)
(** * The popup's view: src/popup.js *)
(* ===================================================================== *)

Module PopupUI.
Import JS.

(** The elements the handlers read and write.  [status] is the message
    and class last shown by [showStatus]; the timer that hides it again is
    left out. *)
Record UI : Type := {
  intervalValue : string;
  enableChecked : bool;
  passwordOnlyChecked : bool;
  toggleText : string;
  settingsDisabled : bool;
  clearNowDisabled : bool;
  clearNowText : string;
  status : option (string * string);
}.

(** How the promise around [chrome.runtime.sendMessage] settles: the 5 s
    timer wins, the callback sees [lastError], or the callback gets the
    response ([None] for an undefined one). *)
Inductive Outcome : Type :=
| TimedOut
| LastError (msg : string)
| Got (response : option Background.Response).

(** [showStatus(message, type)], lines 271-279. *)
Definition showStatus (message type : string) (ui : UI) : UI :=
  {| intervalValue := intervalValue ui; enableChecked := enableChecked ui;
     passwordOnlyChecked := passwordOnlyChecked ui; toggleText := toggleText ui;
     settingsDisabled := settingsDisabled ui; clearNowDisabled := clearNowDisabled ui;
     clearNowText := clearNowText ui; status := Some (message, type) |}.

(** [updateUI(enabled)], lines 183-193. *)
Definition updateUI (enabled : bool) (ui : UI) : UI :=
  {| intervalValue := intervalValue ui; enableChecked := enableChecked ui;
     passwordOnlyChecked := passwordOnlyChecked ui;
     toggleText := if enabled then "Extension Enabled" else "Extension Disabled";
     settingsDisabled := negb enabled; clearNowDisabled := negb enabled;
     clearNowText := clearNowText ui; status := status ui |}.

Definition setEnableChecked (b : bool) (ui : UI) : UI :=
  {| intervalValue := intervalValue ui; enableChecked := b;
     passwordOnlyChecked := passwordOnlyChecked ui; toggleText := toggleText ui;
     settingsDisabled := settingsDisabled ui; clearNowDisabled := clearNowDisabled ui;
     clearNowText := clearNowText ui; status := status ui |}.

Definition setPasswordOnlyChecked (b : bool) (ui : UI) : UI :=
  {| intervalValue := intervalValue ui; enableChecked := enableChecked ui;
     passwordOnlyChecked := b; toggleText := toggleText ui;
     settingsDisabled := settingsDisabled ui; clearNowDisabled := clearNowDisabled ui;
     clearNowText := clearNowText ui; status := status ui |}.


Definition setClearNow (disabled : bool) (text : string) (ui : UI) : UI :=
  {| intervalValue := intervalValue ui; enableChecked := enableChecked ui;
     passwordOnlyChecked := passwordOnlyChecked ui; toggleText := toggleText ui;
     settingsDisabled := settingsDisabled ui; clearNowDisabled := disabled;
     clearNowText := text; status := status ui |}.

(** [response && response.success] *)
Definition succeeded (response : option Background.Response) : bool :=
  match response with
  | Some (Background.Reply b _ _) => b
  | Some (Background.ReplySettings _) => false
  | None => false
  end.


(** The message [toggleExtension()] sends (lines 148-151): the state of the
    checkbox when the handler runs. *)
Definition toggleExtensionMessage (ui : UI) : Background.Message :=
  Background.TOGGLE_EXTENSION (Bool (enableChecked ui)).

(** [toggleExtension()], lines 134-181, once its send has settled. *)
Definition toggleExtension (o : Outcome) (ui : UI) : UI :=
  let enabled := enableChecked ui in
  let ui := updateUI enabled ui in
  match o with
  | Got response =>
      if succeeded response
      then showStatus (if enabled then "Extension Enabled" else "Extension Disabled")
                      "success" ui
      else showStatus "Failed to update extension state" "error"
             (updateUI (negb enabled) (setEnableChecked (negb enabled) ui))
  | TimedOut =>
      showStatus ("Error: " ++ "Message timeout - background script may not be responding")
                 "error"
        (updateUI (negb enabled) (setEnableChecked (negb enabled) ui))
  | LastError msg =>
      showStatus ("Error: " ++ msg) "error"
        (updateUI (negb enabled) (setEnableChecked (negb enabled) ui))
  end.

(** The message [togglePasswordOnly()] sends (lines 108-111). *)
Definition togglePasswordOnlyMessage (ui : UI) : Background.Message :=
  Background.UPDATE_PASSWORD_ONLY (Bool (passwordOnlyChecked ui)).

(** [togglePasswordOnly()], lines 100-132, once its send has settled. *)
Definition togglePasswordOnly (o : Outcome) (ui : UI) : UI :=
  let value := passwordOnlyChecked ui in
  match o with
  | Got response =>
      if succeeded response
      then showStatus "Option saved" "success" ui
      else showStatus "Error saving option" "error" ui
  | TimedOut | LastError _ =>
      setPasswordOnlyChecked (negb value) (showStatus "Error saving option" "error" ui)
  end.

(** [autoSaveInterval()], lines 195-232, with what it shows: [o] is how
    the send settles when one is made. *)
Definition autoSaveIntervalShown (o : Outcome) (ui : UI) : UI :=
  match Popup.autoSaveInterval (intervalValue ui) with
  | None => showStatus "Please enter a valid interval (1-300 seconds)" "error" ui
  | Some _ =>
      match o with
      | Got response =>
          if succeeded response
          then showStatus "Settings auto-saved" "success" ui
          else showStatus "Error saving settings" "error" ui
      | TimedOut | LastError _ => showStatus "Error saving settings" "error" ui
      end
  end.

(** [clearClipboardNow()], lines 234-269, once its send has settled.  With
    an undefined response, reading [response.message] throws and the [catch]
    shows the same text. *)
Definition clearClipboardNow (o : Outcome) (ui : UI) : UI :=
  let ui := setClearNow true "Clearing..." ui in
  let ui :=
    match o with
    | Got response =>
        if succeeded response
        then showStatus "Clipboard cleared!" "success" ui
        else
          match response with
          | Some (Background.Reply _ (Some message) _) =>
              if isEmpty message
              then showStatus "Error clearing clipboard" "error" ui
              else showStatus message "error" ui
          | _ => showStatus "Error clearing clipboard" "error" ui
          end
    | TimedOut | LastError _ => showStatus "Error clearing clipboard" "error" ui
    end in
  setClearNow false "Clear Now" ui.

(** ** [debounce(func, wait)], lines 281-291 *)

(** One debounced function: the pending timer with its deadline and the
    arguments it will pass, the calls of [func] made so far (oldest first),
    and the clock. *)
Record Debounced (A : Type) : Type := {
  pending : option (Z * A);
  invoked : list A;
  clock : Z;
}.
Arguments pending {A} _.
Arguments invoked {A} _.
Arguments clock {A} _.

(** [executedFunction(...args)]: the pending timer is cleared and a new
    one is set. *)
Definition call {A} (wait : num) (args : A) (d : Debounced A) : Debounced A :=
  {| pending := Some (clock d + timerDelay wait, args); invoked := invoked d;
     clock := clock d |}.

(** The timer task [later], never before it is due. *)
Definition later {A} (d : Debounced A) : Debounced A :=
  match pending d with
  | Some (due, args) =>
      if due <=? clock d
      then {| pending := None; invoked := invoked d ++ [args]; clock := clock d |}
      else d
  | None => d
  end.

Definition elapse {A} (dt : N) (d : Debounced A) : Debounced A :=
  {| pending := pending d; invoked := invoked d; clock := clock d + Z.of_N dt |}.

Inductive DebounceEvent (A : Type) : Type :=
| Call (args : A)
| Later
| Elapsed (dt : N).
Arguments Call {A} args.
Arguments Later {A}.
Arguments Elapsed {A} dt.

Definition debounceStep {A} (wait : num) (ev : DebounceEvent A) (d : Debounced A)
  : Debounced A :=
  match ev with
  | Call args => call wait args d
  | Later => later d
  | Elapsed dt => elapse dt d
  end.

Definition debounceRun {A} (wait : num) (evs : list (DebounceEvent A)) (d : Debounced A)
  : Debounced A :=
  fold_left (fun d ev => debounceStep wait ev d) evs d.

(** The time a schedule lets pass. *)
Definition elapsed {A} (evs : list (DebounceEvent A)) : Z :=
  fold_right (fun ev acc => match ev with Elapsed dt => Z.of_N dt + acc | _ => acc end) 0 evs.

Definition isCall {A} (ev : DebounceEvent A) : bool :=
  match ev with
  | Call _ => true
  | _ => false
  end.

End PopupUI.

(* ===================================================================== *)
(** * Properties *)
(* ===================================================================== *)

Import JS.

(** ** The clearing chain and the "clear now" response *)

Section Chain.
Import Background.

(** A [try] whose handler returns never throws. *)
Lemma try_catch_returns {A} (body : result A) (a : A) :
  exists b, try_catch body (fun _ => Ok a) = Ok b.
Proof. destruct body as [b|msg]; simpl; eauto. Qed.

(** The outer [try]/[catch] of [clearClipboard] turns every exception into a
    log line, so the chain always comes to one of its three ends. *)
Lemma clearChain_ends (e : Env) : exists c, clearChain e = Ok c.
Proof.
  unfold clearChain.
  match goal with |- context [try_catch ?b _] => destruct b as [c|msg] end;
    simpl; eauto.
Qed.

(** The promise of [clearClipboard()] is fulfilled in every browser. *)
Lemma clearClipboardPromise_fulfilled (e : Env) : clearClipboardPromise e = Ok tt.
Proof.
  unfold clearClipboardPromise.
  destruct (clearChain_ends e) as [c ->]. reflexivity.
Qed.

(** C1 (evaluated on the code).  In the browser [hostileEnv] every step of
    the fallback chain fails: the active tab and every other tab are
    privileged pages, no content script acknowledges, there is no offscreen
    API and no auxiliary tab or window can be opened.  [clearClipboard]
    still fulfils its promise, so a CLEAR_CLIPBOARD_NOW request made there is
    answered [{success: true}]; and the promise is fulfilled in every
    browser, so the router's failure answer is never sent. *)
Theorem clear_now_reports_success_when_chain_fails :
  tryActiveTab hostileEnv = Ok false /\
  trySuitableTab hostileEnv = Ok false /\
  tryContentScripts hostileEnv = Ok false /\
  clearClipboardOffscreen hostileEnv = Ok false /\
  clearChain hostileEnv = Ok NoContext /\
  clearClipboardPromise hostileEnv = Ok tt /\
  trace (run [Deliver CLEAR_CLIPBOARD_NOW; ClearSettles 0 hostileEnv] initialState)
    = [Responded (Reply true None None); ClearCommand] /\
  (forall (e : Env) (s : State),
      trace (clearClipboard_resume true e s)
      = Responded (Reply true None None) :: trace (clearClipboard_resume false e s)).
Proof.
  repeat split; try (vm_compute; reflexivity).
  intros e s. unfold clearClipboard_resume.
  rewrite clearClipboardPromise_fulfilled. reflexivity.
Qed.

End Chain.

(** ** The detector *)

Section Detector.
Import Content.

Lemma trimStart_blank (s : string) : allWhiteSpace s = true -> trimStart s = "".
Proof.
  induction s as [|c r IH]; simpl; [reflexivity|].
  intros H. apply andb_true_iff in H as [Hc Hr]. rewrite Hc. auto.
Qed.

Lemma trim_blank (s : string) : allWhiteSpace s = true -> trim s = "".
Proof. intros H. unfold trim. rewrite trimStart_blank by assumption. reflexivity. Qed.

Lemma trimStart_head (s : string) :
  trimStart s = "" \/ exists c r, trimStart s = String c r /\ isWhiteSpace c = false.
Proof.
  induction s as [|c r IH]; simpl; [now left|].
  destruct (isWhiteSpace c) eqn:Hc; [exact IH|]. right. eauto.
Qed.

Lemma trimStart_empty (s : string) : trimStart s = "" -> allWhiteSpace s = true.
Proof.
  induction s as [|c r IH]; simpl; [reflexivity|].
  destruct (isWhiteSpace c); [exact IH | discriminate].
Qed.

(** [trim] leaves nothing exactly of the strings made of white space. *)
Lemma trim_empty_iff (s : string) : trim s = "" <-> allWhiteSpace s = true.
Proof.
  split; [|apply trim_blank].
  unfold trim. intros H.
  destruct (trimStart_head s) as [E|(c & r & E & Hc)].
  - now apply trimStart_empty.
  - rewrite E in H. simpl in H. rewrite Hc in H. discriminate.
Qed.

(** A paste with visible text is reported, with the classifier's verdict on
    its target, while the extension context is valid and reachable. *)
Lemma nonblank_paste_notifies
    (isPasswordField : Target -> bool) (event : PasteEvent) (p : Page) :
  extensionContextValid p = true ->
  allWhiteSpace (orEmpty (clipboardData event)) = false ->
  outbox (handlePasteEvent isPasswordField RuntimeAlive event p)
  = (outbox p ++ [Background.PASTE_DETECTED (Bool (isPasswordField (getPasteTarget event)))])%list.
Proof.
  intros Hv Hb. unfold handlePasteEvent.
  assert (Ht : isEmpty (trim (match clipboardData event with
                              | Some t => if isEmpty t then "" else t
                              | None => ""
                              end)) = false).
  { destruct (clipboardData event) as [t|]; simpl in Hb; [|discriminate].
    destruct t as [|c r]; [discriminate|]. simpl isEmpty. cbv iota.
    destruct (trim (String c r)) eqn:E; [|reflexivity].
    apply trim_empty_iff in E. congruence. }
  rewrite Ht. simpl. unfold notifyPasteEvent. rewrite Hv. reflexivity.
Qed.

(** C9.  A paste whose transferred text is empty or all white space (or
    whose event carries no clipboard data) sends no PASTE_DETECTED, whatever
    the classifier, the state of the extension context and the number of
    context-menu listeners that also see the event. *)
Theorem blank_paste_emits_nothing
    (isPasswordField : Target -> bool) (rt : Runtime) (event : PasteEvent) (p : Page) :
  allWhiteSpace (orEmpty (clipboardData event)) = true ->
  handlePasteEvent isPasswordField rt event p = p /\
  outbox (onPaste isPasswordField rt event p) = outbox p /\
  extensionContextValid (onPaste isPasswordField rt event p) = extensionContextValid p.
Proof.
  intros Hblank.
  assert (Hh : forall q, handlePasteEvent isPasswordField rt event q = q).
  { intros q. unfold handlePasteEvent.
    replace (trim _) with "".
    - reflexivity.
    - symmetry. apply trim_blank.
      destruct (clipboardData event) as [t|]; simpl in *; [|reflexivity].
      destruct t; [reflexivity | exact Hblank]. }
  split; [apply Hh|].
  unfold onPaste. rewrite Hh.
  generalize (contextMenuListeners p). intros n.
  induction n as [|n IH]; simpl; [split; reflexivity|].
  rewrite Hh. exact IH.
Qed.

Lemma blank_paste_emits_nothing_witness :
  outbox (onPaste ContentNarrow.isPasswordField RuntimeAlive
            {| composedPath := None; eventTarget := OtherNode; activeElement := NoTarget;
               clipboardData := Some "  " |}
            {| extensionContextValid := true; contextMenuListeners := 1; outbox := [] |})
  = [].
Proof.
  apply (blank_paste_emits_nothing ContentNarrow.isPasswordField RuntimeAlive
           {| composedPath := None; eventTarget := OtherNode; activeElement := NoTarget;
              clipboardData := Some "  " |}
           {| extensionContextValid := true; contextMenuListeners := 1; outbox := [] |}).
  reflexivity.
Defined.

(** The name and id of an element do not reach the narrow classifier. *)
Lemma narrow_ignores_name_and_id
    (ln i i' : string) (ty : string) (ac : option string) (nm nm' css : string)
    (ed : bool) (par : option Element) :
  ContentNarrow.isPasswordField
    (Elem (El ln i (Some {| type := ty; autocomplete := ac; name := nm;
                            textSecurity := css |}) ed par))
  = ContentNarrow.isPasswordField
      (Elem (El ln i' (Some {| type := ty; autocomplete := ac; name := nm';
                               textSecurity := css |}) ed par)).
Proof.
  unfold ContentNarrow.isPasswordField. simpl.
  unfold isInputTag. simpl. destruct (String.eqb ln "input"); reflexivity.
Qed.

(** The second script of src/content.js stops in [setupListeners]: whatever
    the page and the runtime, it installs neither its paste listener nor its
    context-menu listener, and nothing that happens later installs them or
    puts a message in its outbox. *)
Lemma broad_script_setup_throws (rt : Runtime) (sc : BroadScript.Script) :
  BroadScript.pasteListener (fst (BroadScript.setupListeners rt sc))
  = BroadScript.pasteListener sc /\
  BroadScript.contextMenuListener (fst (BroadScript.setupListeners rt sc))
  = BroadScript.contextMenuListener sc /\
  BroadScript.page (fst (BroadScript.setupListeners rt sc)) = BroadScript.page sc.
Proof.
  unfold BroadScript.setupListeners.
  destruct (BroadScript.listenersSetup sc); simpl; auto.
Qed.

Lemma broad_script_start (injected loading : bool) (rt : Runtime) :
  BroadScript.pasteListener (BroadScript.topLevel injected loading rt) = false /\
  BroadScript.contextMenuListener (BroadScript.topLevel injected loading rt) = false /\
  outbox (BroadScript.page (BroadScript.topLevel injected loading rt)) = [].
Proof. destruct injected, loading, rt; repeat split; reflexivity. Qed.

Lemma broad_script_step (ev : Liveness.PageEvent) (sc : BroadScript.Script) :
  BroadScript.pasteListener sc = false ->
  BroadScript.contextMenuListener sc = false ->
  BroadScript.pasteListener (BroadScript.pageStep ev sc) = false /\
  BroadScript.contextMenuListener (BroadScript.pageStep ev sc) = false /\
  outbox (BroadScript.page (BroadScript.pageStep ev sc)) = outbox (BroadScript.page sc).
Proof.
  intros Hp Hc. destruct ev as [rt|rt event| |lastError|rt]; simpl.
  - destruct (BroadScript.domContentLoadedListener sc); [|auto].
    destruct (broad_script_setup_throws rt sc) as (-> & -> & ->). auto.
  - rewrite Hp. auto.
  - rewrite Hc. auto.
  - repeat split; try assumption.
    unfold Liveness.sendCallback. destruct lastError as [error|]; [|reflexivity].
    destruct (_ || _); reflexivity.
  - destruct (BroadScript.periodicCheck sc); [|auto].
    repeat split; try assumption.
    unfold Liveness.periodicCheck.
    destruct (extensionContextValid (BroadScript.page sc)); [|reflexivity].
    destruct rt; reflexivity.
Qed.

Lemma broad_script_never_classifies
    (injected loading : bool) (rt : Runtime) (evs : list Liveness.PageEvent) :
  BroadScript.pasteListener
    (BroadScript.pageRun evs (BroadScript.topLevel injected loading rt)) = false /\
  BroadScript.contextMenuListener
    (BroadScript.pageRun evs (BroadScript.topLevel injected loading rt)) = false /\
  outbox (BroadScript.page
            (BroadScript.pageRun evs (BroadScript.topLevel injected loading rt))) = [].
Proof.
  generalize (broad_script_start injected loading rt).
  generalize (BroadScript.topLevel injected loading rt). intros sc.
  revert sc. induction evs as [|ev evs IH]; intros sc (Hp & Hc & Ho); simpl.
  - auto.
  - apply IH. destruct (broad_script_step ev sc Hp Hc) as (Hp' & Hc' & Ho').
    rewrite Ho'. auto.
Qed.

(** C8.  The classifier of src/unnamed/part_002 answers true exactly when
    the nearest [input] at or above the target is an [HTMLInputElement]
    whose type is password, whose autocomplete value holds one of
    current-password, new-password and one-time-code, or whose text is
    masked by CSS.  The name and id play no part: two inputs that differ in
    them only are classified alike, and an input that meets none of the
    three rules is classified false whatever its name and id contain.  The
    classifier of the second script of src/content.js is never applied to a
    paste: that script installs no paste listener and sends nothing, so no
    paste is classified by any other rule. *)
Theorem paste_target_classified_by_narrow_rules_only :
  (forall t : Target,
      ContentNarrow.isPasswordField t = true <->
      exists el input p,
        t = Elem el /\ closest isInputTag el = Some input /\ htmlInput input = Some p /\
        (toLowerCase (type p) = "password"
         \/ testWords ["current-password"; "new-password"; "one-time-code"]
              (toLowerCase (orEmpty (autocomplete p))) = true
         \/ masked (textSecurity p) = true)) /\
  (forall ln i i' ty ac nm nm' css ed par,
      ContentNarrow.isPasswordField
        (Elem (El ln i (Some {| type := ty; autocomplete := ac; name := nm;
                                textSecurity := css |}) ed par))
      = ContentNarrow.isPasswordField
          (Elem (El ln i' (Some {| type := ty; autocomplete := ac; name := nm';
                                   textSecurity := css |}) ed par))) /\
  (forall i p ed par,
      toLowerCase (type p) <> "password" ->
      testWords ["current-password"; "new-password"; "one-time-code"]
        (toLowerCase (orEmpty (autocomplete p))) = false ->
      masked (textSecurity p) = false ->
      ContentNarrow.isPasswordField (Elem (El "input" i (Some p) ed par)) = false) /\
  (forall injected loading rt evs,
      let sc := BroadScript.pageRun evs (BroadScript.topLevel injected loading rt) in
      BroadScript.pasteListener sc = false /\
      BroadScript.contextMenuListener sc = false /\
      outbox (BroadScript.page sc) = []).
Proof.
  split; [|split; [|split]].
  - intros t. unfold ContentNarrow.isPasswordField. split.
    + destruct t as [| |el]; try discriminate.
      destruct (closest isInputTag el) as [input|] eqn:Hc; try discriminate.
      destruct (htmlInput input) as [p|] eqn:Hp; try discriminate.
      unfold ContentNarrow.inputRules. intros H.
      exists el, input, p. repeat split; try assumption.
      destruct (String.eqb_spec (toLowerCase (type p)) "password") as [E|E]; [now left|].
      destruct (testWords _ _) eqn:Hw; [right; now left|]. right; now right.
    + intros (el & input & p & -> & Hc & Hp & H). rewrite Hc, Hp.
      unfold ContentNarrow.inputRules.
      destruct H as [H|[H|H]].
      * rewrite H. reflexivity.
      * destruct (String.eqb _ "password"); [reflexivity|]. rewrite H. reflexivity.
      * destruct (String.eqb _ "password"); [reflexivity|].
        destruct (testWords _ _); [reflexivity | exact H].
  - intros. apply narrow_ignores_name_and_id.
  - intros i p ed par Ht Ha Hm.
    unfold ContentNarrow.isPasswordField, ContentNarrow.inputRules. simpl.
    destruct (String.eqb_spec (toLowerCase (type p)) "password") as [E|E]; [contradiction|].
    rewrite Ha. exact Hm.
  - intros injected loading rt evs. apply broad_script_never_classifies.
Qed.

Lemma paste_target_classified_by_narrow_rules_only_witness :
  ContentNarrow.isPasswordField
    (Elem (El "input" "forgot-password-email"
              (Some {| type := "email"; autocomplete := Some "email"; name := "password-hint";
                       textSecurity := "none" |}) false None)) = false.
Proof.
  apply (proj1 (proj2 (proj2 paste_target_classified_by_narrow_rules_only))).
  - discriminate.
  - reflexivity.
  - reflexivity.
Defined.

(** The function [isPasswordField] of the second script of src/content.js,
    which that script never calls, reads the name and the id (lines
    331-332): it would classify an e-mail field whose id contains "password"
    as a password field, where the classifier of part_002 does not. *)
Remark broad_classifier_reads_name_and_id :
  let p := {| type := "email"; autocomplete := Some "email"; name := "email";
              textSecurity := "none" |} in
  let el := El "input" "forgot-password-email" (Some p) false None in
  ContentBroad.isPasswordField (Elem el) = true /\
  ContentNarrow.isPasswordField (Elem el) = false.
Proof. vm_compute. split; reflexivity. Qed.

End Detector.

(** ** The delay setting *)

Section Delay.
Import Background.

Lemma inDomain_Int (z : Z) : inDomain (Int z) <-> 1 <= z <= 300.
Proof.
  split.
  - intros (z' & E & H). injection E as ->. exact H.
  - intros H. exists z. split; [reflexivity | exact H].
Qed.

Lemma not_inDomain_NaN : ~ inDomain NaN.
Proof. intros (z & E & _). discriminate. Qed.

(** The popup's guard (lines 198-201) lets through exactly the integers of
    the domain. *)
Lemma autoSaveInterval_guard (n : num) :
  isNaN n || lt n 1 || gt n 300 = false <-> inDomain n.
Proof.
  destruct n as [z|]; simpl.
  - rewrite inDomain_Int, orb_false_iff, Z.ltb_ge, Z.ltb_ge. lia.
  - split; [discriminate | intros H; destruct (not_inDomain_NaN H)].
Qed.

Lemma settings_answerWaiters n s : settings (answerWaiters n s) = settings s.
Proof. revert s. induction n as [|n IH]; intros s; simpl; [reflexivity|]. now rewrite IH. Qed.

Lemma settings_fire id s : settings (fire id s) = settings s.
Proof.
  unfold fire. destruct (timers s !! id) as [t|]; [|reflexivity].
  destruct (due t <=? now s); [|reflexivity].
  destruct (callback t) as [n|ivl| |]; simpl; try reflexivity.
  - destruct (gt (decr n) 0); reflexivity.
  - unfold clearClipboard. simpl. destruct (clearTimer s); reflexivity.
  - unfold clearClipboard. simpl. destruct (clearTimer s); reflexivity.
Qed.

(** What a message of the popup carries. *)
Lemma autoSaveInterval_sends fieldValue m :
  Popup.autoSaveInterval fieldValue = Some m ->
  exists z, 1 <= z <= 300 /\ Popup.parseInt fieldValue = Int z /\
            m = UPDATE_SETTINGS (Num (Int z)).
Proof.
  unfold Popup.autoSaveInterval.
  destruct (isNaN _ || lt _ 1 || gt _ 300) eqn:G; [discriminate|].
  apply autoSaveInterval_guard in G. destruct G as (z & E & Hz).
  intros [= <-]. exists z. rewrite E. auto.
Qed.

(** The delay stays in its domain across every event of the scripts' own. *)
Lemma delay_domain_step ev s :
  System.ownEvent ev -> inDomain (interval (settings s)) ->
  inDomain (interval (settings (step ev s))).
Proof.
  intros Hev H. destruct ev as [dt| |m|id|k r|k ok|k e]; simpl.
  - exact H.
  - exact H.
  - destruct m as [v| |v|v|v| |ty]; simpl in *.
    + destruct (enabled (settings s)); [|exact H].
      destruct (negb _ || Boolean v); [|exact H].
      unfold handlePasteEvent. destruct (clearTimer s); exact H.
    + destruct (settingsInitialized s); [exact H|].
      unfold ensureSettingsLoaded.
      destruct (settingsInitPromise s) as [k|]; [|exact H].
      destruct (awaiting s !! k) as [[w| | |r]|]; exact H.
    + destruct (clearTimer s), (Boolean v); exact H.
    + destruct Hev as [fieldValue Hf].
      apply autoSaveInterval_sends in Hf as (z & Hz & _ & [= ->]).
      simpl. apply inDomain_Int, Hz.
    + exact H.
    + destruct (negb (enabled (settings s))); [exact H|].
      unfold clearClipboard. simpl. destruct (clearTimer s); exact H.
    + exact H.
  - rewrite settings_fire. exact H.
  - destruct (awaiting s !! k) as [[w| | |r']|]; try exact H.
    rewrite settings_answerWaiters.
    match goal with |- context [decide ?P] => destruct (decide P) as [Hd|Hd] end;
      (destruct r as [r|]; simpl in *; [|apply inDomain_Int; lia]);
      (destruct (clipboardInterval r) as [c|]; simpl; [|apply inDomain_Int; lia]);
      destruct Hev as (z & -> & Hz); simpl;
      (replace (z =? 0) with false by (symmetry; apply Z.eqb_neq; lia));
      simpl; apply inDomain_Int, Hz.
  - destruct (awaiting s !! k) as [[w| | |r']|]; try exact H.
    unfold updateSettings_resume. destruct ok as [u|msg]; [|exact H].
    simpl. destruct (clearTimer s); exact H.
  - destruct (awaiting s !! k) as [[w| | |r']|]; try exact H.
    unfold clearClipboard_resume. rewrite clearClipboardPromise_fulfilled.
    destruct (clearChain e) as [[| |msg]|msg], r'; exact H.
Qed.

(** C7, as the code has it.  The delay defaults to 10.  The popup sends
    UPDATE_SETTINGS only with an integer from 1 to 300 - a field value that
    [parseInt] reads as NaN or as a number outside the domain sends nothing -
    and after such a request the stored delay is that integer; so as long as
    every UPDATE_SETTINGS comes from the popup and every stored delay is one
    of the domain, the delay is in the domain in every reachable state.  The
    router itself stores [Number(message.interval)] whatever it is. *)
Theorem popup_guards_the_delay_domain :
  interval (settings initialState) = Int 10 /\
  (forall fieldValue : string,
      match Popup.autoSaveInterval fieldValue with
      | Some m =>
          exists z, 1 <= z <= 300 /\ Popup.parseInt fieldValue = Int z /\
                    m = UPDATE_SETTINGS (Num (Int z)) /\
                    forall s, interval (settings (step (Deliver m) s)) = Int z
      | None => ~ inDomain (Popup.parseInt fieldValue)
      end) /\
  (forall evs : list Event,
      Forall System.ownEvent evs -> inDomain (interval (settings (run evs initialState)))) /\
  (forall (v : value) (s : State),
      interval (settings (step (Deliver (UPDATE_SETTINGS v)) s)) = Number v).
Proof.
  split; [reflexivity|]. split; [|split].
  - intros fieldValue.
    destruct (Popup.autoSaveInterval fieldValue) as [m|] eqn:E.
    + apply autoSaveInterval_sends in E as (z & Hz & Hp & ->). exists z. auto.
    + unfold Popup.autoSaveInterval in E.
      destruct (isNaN _ || lt _ 1 || gt _ 300) eqn:G; [|discriminate].
      intros H. apply autoSaveInterval_guard in H. congruence.
  - intros evs.
    assert (G : forall s, Forall System.ownEvent evs -> inDomain (interval (settings s)) ->
                          inDomain (interval (settings (run evs s)))).
    { induction evs as [|ev evs IH]; intros s Hall H; simpl; [exact H|].
      apply Forall_cons in Hall as [Hev Hall].
      apply IH; [exact Hall|]. apply delay_domain_step; assumption. }
    intros Hall. apply G; [exact Hall|]. apply inDomain_Int. simpl. lia.
  - intros v s. reflexivity.
Qed.

Lemma popup_guards_the_delay_domain_witness :
  inDomain (interval (settings
    (run [Deliver (UPDATE_SETTINGS (Num (Int 42))); StorageSetSettles 0 (Ok tt)]
         initialState))).
Proof.
  apply (proj1 (proj2 (proj2 popup_guards_the_delay_domain))).
  repeat constructor. exists " 42". vm_compute. reflexivity.
Defined.

(** C7 fails on the router: a request with interval 500, and one without a
    numeric interval, are both stored and (once the storage write settles)
    answered with success. *)
Lemma router_stores_any_interval_counterexample :
  let big := run [Deliver (UPDATE_SETTINGS (Num (Int 500))); StorageSetSettles 0 (Ok tt)]
                 initialState in
  let none := run [Deliver (UPDATE_SETTINGS Undefined); StorageSetSettles 0 (Ok tt)]
                  initialState in
  interval (settings big) = Int 500 /\
  trace big = [Responded (Reply true None None)] /\
  ~ inDomain (interval (settings big)) /\
  interval (settings none) = NaN /\
  trace none = [Responded (Reply true None None)] /\
  ~ inDomain (interval (settings none)).
Proof.
  repeat split; try (vm_compute; reflexivity).
  - change (~ inDomain (Int 500)). rewrite inDomain_Int. lia.
  - apply not_inDomain_NaN.
Qed.

End Delay.

(** ** The router while the extension is disabled *)

Section Disabled.
Import Background.

(** C10.  While [enabled] is false, CLEAR_CLIPBOARD_NOW is answered
    [{success: false, message: 'Extension is disabled'}] and nothing else
    happens: no clear command, no call left waiting, and the settings, the
    timers and the badge are as before. *)
Theorem clear_now_refused_when_disabled (s : State) :
  enabled (settings s) = false ->
  step (Deliver CLEAR_CLIPBOARD_NOW) s
    = sendResponse (Reply false (Some "Extension is disabled") None) s /\
  trace (step (Deliver CLEAR_CLIPBOARD_NOW) s)
    = Responded (Reply false (Some "Extension is disabled") None) :: trace s /\
  clearCommands (step (Deliver CLEAR_CLIPBOARD_NOW) s) = clearCommands s /\
  awaiting (step (Deliver CLEAR_CLIPBOARD_NOW) s) = awaiting s /\
  settings (step (Deliver CLEAR_CLIPBOARD_NOW) s) = settings s /\
  timers (step (Deliver CLEAR_CLIPBOARD_NOW) s) = timers s /\
  clearTimer (step (Deliver CLEAR_CLIPBOARD_NOW) s) = clearTimer s.
Proof.
  intros H. simpl. rewrite H. simpl. repeat split; reflexivity.
Qed.

Lemma clear_now_refused_when_disabled_witness :
  trace (step (Deliver CLEAR_CLIPBOARD_NOW)
           (run [Deliver (PASTE_DETECTED Undefined); Deliver (TOGGLE_EXTENSION (Bool false))]
                initialState))
  = Responded (Reply false (Some "Extension is disabled") None)
      :: trace (run [Deliver (PASTE_DETECTED Undefined); Deliver (TOGGLE_EXTENSION (Bool false))]
                    initialState).
Proof.
  apply (clear_now_refused_when_disabled
           (run [Deliver (PASTE_DETECTED Undefined); Deliver (TOGGLE_EXTENSION (Bool false))]
                initialState)).
  vm_compute. reflexivity.
Defined.

End Disabled.

(** ** The countdown *)

Section Countdown.
Import Background.

Implicit Types (tm : gmap nat Timer) (ct : option nat) (s : State).

Lemma quiet_tracked tm ct : quiet tm -> tracked tm ct.
Proof. intros Hq id t Hl Hc. rewrite (Hq id t Hl) in Hc. discriminate. Qed.

Lemma tracked_None_quiet tm : tracked tm None -> quiet tm.
Proof.
  intros Ht id t Hl. destruct (isClearCallback (callback t)) eqn:Hc; [|reflexivity].
  specialize (Ht id t Hl Hc). discriminate.
Qed.

Lemma quiet_delete tm id : quiet tm -> quiet (delete id tm).
Proof. intros Hq i t Hl. apply lookup_delete_Some in Hl as [_ Hl]. eauto. Qed.

Lemma tracked_delete_quiet tm id : tracked tm (Some id) -> quiet (delete id tm).
Proof.
  intros Ht i t Hl. apply lookup_delete_Some in Hl as [Hne Hl].
  destruct (isClearCallback (callback t)) eqn:Hc; [|reflexivity].
  specialize (Ht i t Hl Hc). congruence.
Qed.

Lemma quiet_insert tm id t :
  quiet tm -> isClearCallback (callback t) = false -> quiet (<[id := t]> tm).
Proof.
  intros Hq Hc i t' Hl. apply lookup_insert_Some in Hl as [[_ <-]|[_ Hl]]; eauto.
Qed.

Lemma quiet_alter tm id f :
  quiet tm -> (forall t, isClearCallback (callback (f t)) = false) -> quiet (alter f id tm).
Proof.
  intros Hq Hf i t Hl. destruct (decide (id = i)) as [->|Hne].
  - rewrite lookup_alter_eq in Hl. destruct (tm !! i); simplify_eq/=. apply Hf.
  - rewrite lookup_alter_ne in Hl by assumption. eauto.
Qed.

Lemma tracked_insert_quiet tm id t : quiet tm -> tracked (<[id := t]> tm) (Some id).
Proof.
  intros Hq i t' Hl Hc. apply lookup_insert_Some in Hl as [[-> _]|[_ Hl]]; [reflexivity|].
  rewrite (Hq i t' Hl) in Hc. discriminate.
Qed.

Lemma tracked_delete tm ct id : tracked tm ct -> tracked (delete id tm) ct.
Proof. intros Ht i t Hl. apply lookup_delete_Some in Hl as [_ Hl]. eauto. Qed.

Lemma tracked_insert_other tm ct id t :
  tracked tm ct -> isClearCallback (callback t) = false -> tracked (<[id := t]> tm) ct.
Proof.
  intros Ht Hc i t' Hl Hc'. apply lookup_insert_Some in Hl as [[_ <-]|[_ Hl]]; [congruence|].
  eauto.
Qed.

Lemma tracked_rearm tm ct id t t' :
  tracked tm ct -> tm !! id = Some t -> callback t' = callback t ->
  tracked (<[id := t']> tm) ct.
Proof.
  intros Ht Hid Hcb i t'' Hl Hc. apply lookup_insert_Some in Hl as [[<- <-]|[_ Hl]].
  - rewrite Hcb in Hc. eauto.
  - eauto.
Qed.

Lemma tracked_alter tm ct id f :
  tracked tm ct -> (forall t, isClearCallback (callback (f t)) = false) ->
  tracked (alter f id tm) ct.
Proof.
  intros Ht Hf i t Hl Hc. destruct (decide (id = i)) as [->|Hne].
  - rewrite lookup_alter_eq in Hl. destruct (tm !! i); simplify_eq/=.
    rewrite Hf in Hc. discriminate.
  - rewrite lookup_alter_ne in Hl by assumption. eauto.
Qed.

Lemma issued_insert_next tm n t : issued n tm -> issued (S n) (<[n := t]> tm).
Proof.
  intros Hi i t' Hl. apply lookup_insert_Some in Hl as [[<- _]|[_ Hl]]; [lia|].
  specialize (Hi i t' Hl). lia.
Qed.

Lemma issued_insert_old tm n id t t' :
  issued n tm -> tm !! id = Some t -> issued n (<[id := t']> tm).
Proof.
  intros Hi Hid i t'' Hl. apply lookup_insert_Some in Hl as [[<- _]|[_ Hl]]; eauto.
Qed.

Lemma issued_delete tm n id : issued n tm -> issued n (delete id tm).
Proof. intros Hi i t Hl. apply lookup_delete_Some in Hl as [_ Hl]. eauto. Qed.

Lemma issued_alter tm n id f : issued n tm -> issued n (alter f id tm).
Proof.
  intros Hi i t Hl. destruct (decide (id = i)) as [->|Hne].
  - rewrite lookup_alter_eq in Hl. destruct (tm !! i) eqn:E; simplify_eq/=. eauto.
  - rewrite lookup_alter_ne in Hl by assumption. eauto.
Qed.

Create HintDb timers.
#[local] Hint Resolve quiet_tracked tracked_None_quiet quiet_delete tracked_delete_quiet
  quiet_insert quiet_alter tracked_insert_quiet tracked_delete tracked_insert_other
  tracked_alter issued_insert_next issued_delete issued_alter : timers.

(** *** The invariant holds along every schedule *)

Lemma invariant_initial : invariant initialState.
Proof. split; intros id t Hl; simpl in Hl; rewrite lookup_empty in Hl; discriminate. Qed.

Lemma clearClipboard_quiet reply s :
  invariant s ->
  quiet (timers (clearClipboard reply s)) /\
  clearTimer (clearClipboard reply s) = None /\
  issued (nextTimer (clearClipboard reply s)) (timers (clearClipboard reply s)).
Proof.
  intros [Ht Hi]. unfold clearClipboard. simpl.
  destruct (clearTimer s) as [id|] eqn:E; simpl; auto with timers.
Qed.

Lemma invariant_clearClipboard reply s : invariant s -> invariant (clearClipboard reply s).
Proof.
  intros H. destruct (clearClipboard_quiet reply s H) as (Hq & Hc & Hi).
  split; [|exact Hi]. rewrite Hc. auto with timers.
Qed.

Lemma invariant_handlePasteEvent s : invariant s -> invariant (handlePasteEvent s).
Proof.
  intros [Ht Hi]. unfold handlePasteEvent, invariant.
  destruct (clearTimer s) as [id|] eqn:E; simpl; split; auto 6 with timers.
Qed.

Lemma invariant_showClearedBadge s : invariant s -> invariant (showClearedBadge s).
Proof. intros [Ht Hi]. unfold showClearedBadge, invariant. simpl. auto with timers. Qed.

Lemma invariant_updateSettings_resume r s :
  invariant s -> invariant (updateSettings_resume r s).
Proof.
  intros [Ht Hi]. unfold updateSettings_resume, invariant.
  destruct r as [u|msg]; [|simpl; auto].
  destruct (clearTimer s) as [id|] eqn:E; simpl; [|rewrite E; auto].
  auto 6 with timers.
Qed.

Lemma invariant_answerWaiters n s : invariant s -> invariant (answerWaiters n s).
Proof. revert s. induction n as [|n IH]; intros s H; simpl; [exact H|]. apply IH. exact H. Qed.

Lemma invariant_onMessage m s : invariant s -> invariant (onMessage m s).
Proof.
  intros H. destruct m as [v| |v|v|v| |ty]; simpl.
  - destruct (enabled (settings s)); [|exact H].
    destruct (negb _ || Boolean v); [|exact H].
    apply (invariant_handlePasteEvent s H).
  - destruct (settingsInitialized s); [exact H|].
    unfold ensureSettingsLoaded.
    destruct (settingsInitPromise s) as [k|]; [|exact H].
    destruct (awaiting s !! k) as [[w| | |r]|]; exact H.
  - destruct H as [Ht Hi]. unfold invariant.
    destruct (clearTimer s) as [id|] eqn:E; destruct (Boolean v); simpl;
      rewrite ?E; auto 6 with timers.
  - exact H.
  - exact H.
  - destruct (negb (enabled (settings s))); [exact H|].
    apply invariant_clearClipboard. exact H.
  - exact H.
Qed.

Lemma invariant_fire id s : invariant s -> invariant (fire id s).
Proof.
  intros H. unfold fire.
  destruct (timers s !! id) as [t|] eqn:Hid; [|exact H].
  destruct (due t <=? now s); [|exact H].
  set (remaining := match period t with
                    | Some p => <[id := {| due := due t + p; period := Some p;
                                          callback := callback t |}]> (timers s)
                    | None => delete id (timers s)
                    end).
  assert (Hr : invariant (set_timers (nextTimer s) remaining s)).
  { destruct H as [Ht Hi]. unfold invariant, remaining. simpl.
    destruct (period t) as [p|]; split; auto with timers.
    - eapply tracked_rearm; eauto.
    - eapply issued_insert_old; eauto. }
  clearbody remaining. generalize dependent (set_timers (nextTimer s) remaining s).
  intros s' Hs'. destruct (callback t) as [n|ivl| |]; simpl.
  - destruct Hs' as [Ht Hi]. destruct (gt (decr n) 0); unfold invariant; simpl;
      auto 6 with timers.
  - apply invariant_clearClipboard. destruct Hs' as [Ht Hi].
    unfold invariant. simpl. auto with timers.
  - apply invariant_clearClipboard. exact Hs'.
  - exact Hs'.
Qed.

Lemma invariant_loadSettings_resume r s :
  invariant s -> invariant (loadSettings_resume r s).
Proof. intros H. destruct r; exact H. Qed.

Lemma invariant_step ev s : invariant s -> invariant (step ev s).
Proof.
  intros H. destruct ev as [dt| |m|id|k r|k ok|k e]; simpl.
  - exact H.
  - exact H.
  - apply invariant_onMessage. exact H.
  - apply invariant_fire. exact H.
  - destruct (awaiting s !! k) as [[w| | |r']|]; try exact H.
    apply invariant_answerWaiters.
    match goal with |- context [decide ?P] => destruct (decide P) end;
      apply (invariant_loadSettings_resume r (resume k s)); exact H.
  - destruct (awaiting s !! k) as [[w| | |r']|]; try exact H.
    apply (invariant_updateSettings_resume ok (resume k s)). exact H.
  - destruct (awaiting s !! k) as [[w| | |r']|]; try exact H.
    unfold clearClipboard_resume.
    assert (Hs : invariant (match clearChain e with
                            | Ok Cleared => showClearedBadge (resume k s)
                            | _ => resume k s
                            end)).
    { destruct (clearChain e) as [[| |msg]|msg]; try exact H.
      apply (invariant_showClearedBadge (resume k s)). exact H. }
    destruct r'; [|exact Hs].
    destruct (clearClipboardPromise e); exact Hs.
Qed.

(** Every state the service worker can reach satisfies the invariant. *)
Lemma invariant_run evs s : invariant s -> invariant (run evs s).
Proof.
  revert s. induction evs as [|ev evs IH]; intros s H; simpl; [exact H|].
  apply IH, invariant_step, H.
Qed.

Lemma invariant_reachable evs : invariant (run evs initialState).
Proof. apply invariant_run, invariant_initial. Qed.

(** *** Reading the active countdowns off the timer table *)

Lemma countdowns_quiet s : quiet (timers s) -> countdowns s = [].
Proof.
  intros Hq. unfold countdowns, pendingClears.
  replace (filter _ (timers s)) with (∅ : gmap nat Timer); [reflexivity|].
  symmetry. apply map_empty. intros i.
  destruct (filter _ (timers s) !! i) as [t|] eqn:E; [|reflexivity].
  apply map_lookup_filter_Some in E as [Hl Hc]. simpl in Hc.
  rewrite (Hq i t Hl) in Hc. discriminate.
Qed.

Lemma countdowns_single s id t :
  tracked (timers s) (Some id) -> timers s !! id = Some t ->
  isClearCallback (callback t) = true ->
  countdowns s = [(id, due t)].
Proof.
  intros Ht Hid Hc. unfold countdowns, pendingClears.
  replace (filter _ (timers s)) with ({[id := t]} : gmap nat Timer).
  - rewrite map_to_list_singleton. reflexivity.
  - apply map_eq. intros i. apply option_eq. intros t'.
    rewrite map_lookup_filter_Some, lookup_singleton_Some. simpl. split.
    + intros [<- <-]. split; assumption.
    + intros [Hl Hc']. specialize (Ht i t' Hl Hc'). injection Ht as ->.
      split; [reflexivity | congruence].
Qed.

(** Under the invariant there is at most one countdown, and it is the one
    whose handle [clearTimer] holds. *)
Lemma countdowns_tracked s :
  tracked (timers s) (clearTimer s) ->
  countdowns s = [] \/
  exists id t, clearTimer s = Some id /\ timers s !! id = Some t /\
               isClearCallback (callback t) = true /\ countdowns s = [(id, due t)].
Proof.
  intros Ht. destruct (clearTimer s) as [id|] eqn:E.
  - destruct (timers s !! id) as [t|] eqn:Hid.
    + destruct (isClearCallback (callback t)) eqn:Hc.
      * right. exists id, t. repeat split; try assumption.
        apply countdowns_single; assumption.
      * left. apply countdowns_quiet. intros i t' Hl.
        destruct (isClearCallback (callback t')) eqn:Hc'; [|reflexivity].
        specialize (Ht i t' Hl Hc'). injection Ht as ->. congruence.
    + left. apply countdowns_quiet. intros i t' Hl.
      destruct (isClearCallback (callback t')) eqn:Hc'; [|reflexivity].
      specialize (Ht i t' Hl Hc'). injection Ht as ->. congruence.
  - left. apply countdowns_quiet. auto with timers.
Qed.

Lemma countdowns_same_timers s s' :
  timers s' = timers s -> countdowns s' = countdowns s.
Proof. intros H. unfold countdowns, pendingClears. rewrite H. reflexivity. Qed.

(** The delay of a countdown for a setting in the domain. *)
Lemma timerDelay_domain (z : Z) : 1 <= z <= 300 -> timerDelay (times (Int z) 1000) = 1000 * z.
Proof.
  intros H. unfold timerDelay, times, toInt32.
  rewrite Z.mod_small by lia. lia.
Qed.

(** Two timer tables with the same clear timers show the same countdowns. *)
Lemma countdowns_ext s s' :
  (forall i t, isClearCallback (callback t) = true ->
               (timers s' !! i = Some t <-> timers s !! i = Some t)) ->
  countdowns s' = countdowns s.
Proof.
  intros H. unfold countdowns, pendingClears. do 2 f_equal.
  apply map_eq. intros i. apply option_eq. intros t.
  rewrite !map_lookup_filter_Some. simpl. split; intros [Hl Hc]; split; try assumption;
    apply (H i t Hc); assumption.
Qed.

(** A timer that is not a countdown runs without touching the countdowns. *)
Lemma fire_other_keeps_countdowns s id t :
  timers s !! id = Some t -> isClearCallback (callback t) = false ->
  countdowns (fire id s) = countdowns s.
Proof.
  intros Hid Hnc. unfold fire. rewrite Hid.
  destruct (due t <=? now s); [|reflexivity].
  apply countdowns_ext. intros i t' Hc.
  destruct (decide (i = id)) as [->|Hne].
  - split; intros Hl.
    + exfalso.
      destruct (period t) as [p|], (callback t) as [n|ivl| |] eqn:Hcb;
        simpl in *; try discriminate;
        try destruct (gt (decr n) 0); simpl in Hl;
        unfold clearInterval, clearTimeout in Hl; simpl in Hl;
        rewrite ?lookup_delete_eq, ?lookup_alter_eq, ?lookup_insert_eq, ?lookup_delete_eq in Hl;
        simpl in Hl; simplify_eq; simpl in Hc; try discriminate.
    + rewrite Hl in Hid. injection Hid as <-. congruence.
  - destruct (period t) as [p|], (callback t) as [n|ivl| |]; simpl in *; try discriminate;
      try destruct (gt (decr n) 0); simpl; unfold clearInterval, clearTimeout; simpl;
      rewrite ?lookup_delete_ne, ?lookup_alter_ne, ?lookup_insert_ne, ?lookup_delete_ne
        by congruence; reflexivity.
Qed.

(** *** Restart on every qualifying paste *)

(** C3.  In every state the service worker can reach there is at most one
    active countdown.  A qualifying paste (extension enabled, and the
    password-only option off or the paste flagged as a password paste)
    leaves exactly one, whose deadline is the arrival time of that paste plus
    the configured delay; the passing of time and the badge's own timers do
    not move it. *)
Theorem paste_restarts_the_single_countdown (evs : list Event) (v : value) (z : Z) :
  let s := run evs initialState in
  (length (countdowns s) <= 1)%nat /\
  (enabled (settings s) = true ->
   clearOnlyOnPasswordPaste (settings s) = false \/ Boolean v = true ->
   interval (settings s) = Int z -> 1 <= z <= 300 ->
   countdowns (step (Deliver (PASTE_DETECTED v)) s)
     = [(S (nextTimer s), now s + 1000 * z)]) /\
  (forall dt, countdowns (step (Elapse dt) s) = countdowns s) /\
  (forall id t, timers s !! id = Some t -> isClearCallback (callback t) = false ->
                countdowns (step (Fire id) s) = countdowns s).
Proof.
  intros s. pose proof (invariant_reachable evs) as Hinv. fold s in Hinv.
  destruct Hinv as [Ht Hi]. repeat split.
  - destruct (countdowns_tracked s Ht) as [->|(id & t & _ & _ & _ & ->)]; simpl; lia.
  - intros Hen Hq Hz Hdom. simpl. rewrite Hen.
    replace (negb _ || Boolean v) with true
      by (destruct Hq as [-> | ->]; [reflexivity | apply eq_sym, orb_true_r]).
    rewrite <- (timerDelay_domain z Hdom), <- Hz.
    unfold handlePasteEvent.
    destruct (clearTimer s) as [id|] eqn:E; simpl;
      (apply (countdowns_single _ (S (nextTimer s))
                {| due := now s + timerDelay (times (interval (settings s)) 1000);
                   period := None; callback := ExpireCountdown (nextTimer s) |});
       simpl;
       [apply tracked_insert_quiet; auto with timers | apply lookup_insert_eq | reflexivity]).
  - intros id t Hid Hnc. apply fire_other_keeps_countdowns with t; assumption.
Qed.

Lemma paste_restarts_the_single_countdown_witness :
  countdowns (run [Deliver (PASTE_DETECTED (Bool false)); Elapse 3000;
                   Deliver (PASTE_DETECTED (Bool false))] initialState)
  = [(4%nat, 13000)].
Proof.
  apply (proj1 (proj2 (paste_restarts_the_single_countdown
                         [Deliver (PASTE_DETECTED (Bool false)); Elapse 3000]
                         (Bool false) 10))).
  - vm_compute. reflexivity.
  - left. vm_compute. reflexivity.
  - vm_compute. reflexivity.
  - lia.
Defined.

(** *** Which pastes start a countdown *)

(** C5.  In every reachable state a PASTE_DETECTED message starts a
    countdown if and only if the extension is enabled and either the
    password-only option is off or the message's [isPassword] is truthy. *)
Theorem paste_starts_countdown_iff_qualifying (evs : list Event) (v : value) :
  let s := run evs initialState in
  startsCountdown s (step (Deliver (PASTE_DETECTED v)) s) <->
  enabled (settings s) = true /\
  (clearOnlyOnPasswordPaste (settings s) = false \/ Boolean v = true).
Proof.
  intros s. pose proof (invariant_reachable evs) as [_ Hi]. fold s in Hi.
  simpl. split.
  - intros (id & t & Hl & _ & Hge).
    destruct (enabled (settings s)) eqn:Hen.
    + destruct (clearOnlyOnPasswordPaste (settings s)) eqn:Hpw; [|auto].
      destruct (Boolean v) eqn:Hv; [auto|].
      simpl in Hl. specialize (Hi id t Hl). lia.
    + simpl in Hl. specialize (Hi id t Hl). lia.
  - intros [Hen Hq]. rewrite Hen.
    replace (negb _ || Boolean v) with true
      by (destruct Hq as [-> | ->]; [reflexivity | apply eq_sym, orb_true_r]).
    exists (S (nextTimer s)).
    exists {| due := now s + timerDelay (times (interval (settings s)) 1000);
              period := None; callback := ExpireCountdown (nextTimer s) |}.
    split; [|split; [reflexivity | lia]].
    unfold handlePasteEvent. destruct (clearTimer s); simpl; apply lookup_insert_eq.
Qed.

(** *** Disabling *)

Lemma clearCommands_sendResponse r s : clearCommands (sendResponse r s) = clearCommands s.
Proof. reflexivity. Qed.

Lemma clearCommands_answerWaiters n s : clearCommands (answerWaiters n s) = clearCommands s.
Proof. revert s. induction n as [|n IH]; intros s; simpl; [reflexivity|]. now rewrite IH. Qed.

Lemma timers_answerWaiters n s :
  timers (answerWaiters n s) = timers s /\ clearTimer (answerWaiters n s) = clearTimer s.
Proof.
  revert s. induction n as [|n IH]; intros s; simpl; [split; reflexivity|].
  destruct (IH (sendResponse (ReplySettings (settings s)) s)) as [-> ->]. split; reflexivity.
Qed.

(** With no countdown pending, nothing but a message issues a clear
    command or schedules one. *)
Lemma idle_step ev s :
  isDeliver ev = false -> quiet (timers s) -> clearTimer s = None ->
  quiet (timers (step ev s)) /\ clearTimer (step ev s) = None /\
  clearCommands (step ev s) = clearCommands s.
Proof.
  intros Hev Hq Hc. destruct ev as [dt| |m|id|k r|k ok|k e]; simpl in *; try discriminate.
  - auto.
  - auto.
  - unfold fire. destruct (timers s !! id) as [t|] eqn:Hid; [|auto].
    destruct (due t <=? now s); [|auto].
    pose proof (Hq id t Hid) as Hnc.
    destruct (period t) as [p|], (callback t) as [n|ivl| |] eqn:Hcb; simpl in *;
      try discriminate; try destruct (gt (decr n) 0); simpl;
      unfold clearInterval, clearTimeout; simpl; repeat split;
      auto 6 with timers.
  - destruct (awaiting s !! k) as [[w| | |r']|]; auto.
    rewrite clearCommands_answerWaiters.
    match goal with |- context [answerWaiters w ?x] =>
      destruct (timers_answerWaiters w x) as [-> ->] end.
    match goal with |- context [decide ?P] => destruct (decide P) end;
      destruct r; simpl; auto.
  - destruct (awaiting s !! k) as [[w| | |r']|]; auto.
    unfold updateSettings_resume. destruct ok as [u|msg]; simpl; rewrite ?Hc; simpl; auto.
  - destruct (awaiting s !! k) as [[w| | |r']|]; auto.
    unfold clearClipboard_resume. rewrite clearClipboardPromise_fulfilled.
    destruct (clearChain e) as [[| |msg]|msg], r'; simpl; auto with timers.
Qed.

Lemma idle_run evs s :
  forallb (fun ev => negb (isDeliver ev)) evs = true ->
  quiet (timers s) -> clearTimer s = None ->
  clearCommands (run evs s) = clearCommands s.
Proof.
  revert s. induction evs as [|ev evs IH]; intros s Hevs Hq Hc; simpl; [reflexivity|].
  simpl in Hevs. apply andb_true_iff in Hevs as [Hev Hevs].
  apply negb_true_iff in Hev.
  destruct (idle_step ev s Hev Hq Hc) as (Hq' & Hc' & <-).
  apply IH; assumption.
Qed.

(** C6.  A TOGGLE_EXTENSION request with a falsy [enabled] leaves the
    extension disabled with no countdown pending, issues no clear command and
    starts no run of the clearing chain; and as long as no further message
    arrives, no timer or settled call issues one later. *)
Theorem disable_cancels_without_clearing (evs later : list Event) (v : value) :
  let s := run evs initialState in
  let s' := step (Deliver (TOGGLE_EXTENSION v)) s in
  Boolean v = false ->
  enabled (settings s') = false /\
  countdowns s' = [] /\
  clearTimer s' = None /\
  clearCommands s' = clearCommands s /\
  awaiting s' = awaiting s /\
  (forallb (fun ev => negb (isDeliver ev)) later = true ->
   clearCommands (run later s') = clearCommands s).
Proof.
  intros s s' Hv. pose proof (invariant_reachable evs) as [Ht _]. fold s in Ht.
  assert (Hq : quiet (timers s') /\ clearTimer s' = None).
  { unfold s'. simpl. rewrite Hv. simpl.
    destruct (clearTimer s) as [id|] eqn:E; simpl; rewrite ?E; split;
      auto with timers. }
  destruct Hq as [Hq Hc].
  assert (Hn : clearCommands s' = clearCommands s).
  { unfold s'. simpl. rewrite Hv. simpl. destruct (clearTimer s); reflexivity. }
  repeat split.
  - unfold s'. simpl. rewrite Hv. simpl. destruct (clearTimer s); reflexivity.
  - apply countdowns_quiet, Hq.
  - exact Hc.
  - exact Hn.
  - unfold s'. simpl. rewrite Hv. simpl. destruct (clearTimer s); reflexivity.
  - intros Hl. rewrite <- Hn. apply idle_run; assumption.
Qed.

Lemma disable_cancels_without_clearing_witness :
  let s := run [Deliver (PASTE_DETECTED (Bool true)); Elapse 4000] initialState in
  let s' := step (Deliver (TOGGLE_EXTENSION (Bool false))) s in
  countdowns s = [(2%nat, 10000)] /\
  countdowns s' = [] /\
  clearCommands (run [Elapse 1000; Fire 1; Elapse 5000; Fire 2; Fire 3] s') = 0%nat.
Proof.
  split; [vm_compute; reflexivity|].
  pose proof (disable_cancels_without_clearing
                [Deliver (PASTE_DETECTED (Bool true)); Elapse 4000]
                [Elapse 1000; Fire 1; Elapse 5000; Fire 2; Fire 3]
                (Bool false) eq_refl) as (_ & Hc & _ & _ & _ & Hlater).
  split; [exact Hc|]. exact (Hlater eq_refl).
Defined.

(** *** Changing the delay during a countdown *)

(** The two paths of [updateSettings].  While a countdown is pending, an
    UPDATE_SETTINGS request with a delay [z] of the domain whose storage
    write succeeds [dt] ms later replaces the countdown by one that is due a
    full [z] seconds after the write completes, whatever the old deadline
    [d] was; when the write is rejected the countdown keeps its deadline. *)
Lemma delay_update_restarts_after_the_write
    (evs : list Event) (z : Z) (dt : N) (id : nat) (d : Z) (msg : string) :
  let s := run evs initialState in
  countdowns s = [(id, d)] -> 1 <= z <= 300 ->
  countdowns (run [Deliver (UPDATE_SETTINGS (Num (Int z))); Elapse dt;
                   StorageSetSettles (nextCall s) (Ok tt)] s)
    = [(nextTimer s, now s + Z.of_N dt + 1000 * z)] /\
  countdowns (run [Deliver (UPDATE_SETTINGS (Num (Int z))); Elapse dt;
                   StorageSetSettles (nextCall s) (Throw msg)] s)
    = [(id, d)].
Proof.
  intros s Hcd Hz. pose proof (invariant_reachable evs) as [Ht _]. fold s in Ht.
  destruct (countdowns_tracked s Ht) as [E|(id' & t & Hct & Hid & Hc & E)];
    rewrite E in Hcd; [discriminate|].
  injection Hcd as -> <-.
  simpl. rewrite !lookup_insert_eq. unfold updateSettings_resume, resume. simpl.
  rewrite Hct. simpl. split.
  - rewrite <- (timerDelay_domain z Hz).
    apply (countdowns_single _ (nextTimer s)
             {| due := now s + Z.of_N dt + timerDelay (times (Int z) 1000);
                period := None; callback := ExpireRestarted |}); simpl.
    + apply tracked_insert_quiet. rewrite Hct in Ht. auto with timers.
    + apply lookup_insert_eq.
    + reflexivity.
  - rewrite <- E. apply countdowns_same_timers. reflexivity.
Qed.

Lemma delay_update_restarts_after_the_write_witness :
  let s := run [Deliver (PASTE_DETECTED Undefined); Elapse 6000] initialState in
  countdowns s = [(2%nat, 10000)] /\
  countdowns (run [Deliver (UPDATE_SETTINGS (Num (Int 5))); Elapse 0;
                   StorageSetSettles (nextCall s) (Ok tt)] s)
  = [(3%nat, 11000)].
Proof.
  intros s. subst s.
  assert (H : countdowns (run [Deliver (PASTE_DETECTED Undefined); Elapse 6000] initialState)
              = [(2%nat, 10000)]) by (vm_compute; reflexivity).
  assert (Hz : 1 <= 5 <= 300) by lia.
  split; [exact H|].
  etransitivity.
  - apply (proj1 (delay_update_restarts_after_the_write
                    [Deliver (PASTE_DETECTED Undefined); Elapse 6000] 5 0 2%nat 10000 ""
                    H Hz)).
  - vm_compute. reflexivity.
Defined.

(** C4 (evaluated on the code).  Six seconds into a ten-second countdown
    the delay is set to 5.  When the storage write is rejected the setting is
    5 and the request is answered with success, but the countdown is still
    due at 10 s rather than at 6 s + 5 s; when the write is fulfilled the
    countdown is restarted and due at 11 s; and the same rejection is
    reported to the sender by UPDATE_PASSWORD_ONLY. *)
Theorem rejected_write_keeps_the_old_deadline :
  let before := run [Deliver (PASTE_DETECTED Undefined); Elapse 6000] initialState in
  let update := Deliver (UPDATE_SETTINGS (Num (Int 5))) in
  let rejected :=
    run [update; StorageSetSettles 0 (Throw "MAX_WRITE_OPERATIONS_PER_MINUTE quota exceeded")] before in
  let fulfilled := run [update; StorageSetSettles 0 (Ok tt)] before in
  let sibling :=
    run [Deliver (UPDATE_PASSWORD_ONLY (Bool true));
         StorageSetSettles 0 (Throw "MAX_WRITE_OPERATIONS_PER_MINUTE quota exceeded")] before in
  countdowns before = [(2%nat, 10000)] /\
  now rejected = 6000 /\
  interval (settings rejected) = Int 5 /\
  trace rejected = Responded (Reply true None None) :: trace before /\
  countdowns rejected = [(2%nat, 10000)] /\
  ~ (exists id, countdowns rejected = [(id, now rejected + 1000 * 5)]) /\
  countdowns fulfilled = [(3%nat, 11000)] /\
  trace sibling
  = Responded (Reply false None (Some "MAX_WRITE_OPERATIONS_PER_MINUTE quota exceeded")) :: trace before.
Proof.
  repeat split; try (vm_compute; reflexivity).
  intros [id H]. vm_compute in H. discriminate.
Qed.

(** *** What a restart leaves behind *)

(** The expiry of a countdown issues one clear command and leaves no
    countdown behind. *)
Lemma expiry_issues_one_clear_command s id t :
  invariant s -> timers s !! id = Some t -> isClearCallback (callback t) = true ->
  period t = None -> due t <= now s ->
  clearCommands (step (Fire id) s) = S (clearCommands s) /\
  countdowns (step (Fire id) s) = [].
Proof.
  intros [Ht Hi] Hid Hc Hp Hdue. simpl. unfold fire. rewrite Hid, Hp.
  replace (due t <=? now s) with true by (symmetry; apply Z.leb_le, Hdue).
  pose proof (Ht id t Hid Hc) as Hct.
  destruct (callback t) as [n|ivl| |]; simpl in Hc; try discriminate; simpl.
  - split.
    + unfold clearClipboard. simpl. rewrite Hct. reflexivity.
    + apply countdowns_quiet.
      apply (clearClipboard_quiet false). split; simpl.
      * rewrite Hct in *. auto with timers.
      * auto with timers.
  - split.
    + unfold clearClipboard. simpl. rewrite Hct. reflexivity.
    + apply countdowns_quiet.
      apply (clearClipboard_quiet false). split; simpl.
      * rewrite Hct in *. auto with timers.
      * auto with timers.
Qed.

(** The countdown that a paste replaces never runs: its handle is gone from
    the timer table, so the host has nothing to fire under it. *)
Lemma replaced_countdown_never_fires s id t :
  invariant s -> clearTimer s = Some id -> timers s !! id = Some t ->
  timers (handlePasteEvent s) !! id = None /\
  step (Fire id) (handlePasteEvent s) = handlePasteEvent s.
Proof.
  intros [Ht Hi] Hct Hid.
  assert (Hn : timers (handlePasteEvent s) !! id = None).
  { unfold handlePasteEvent. rewrite Hct. simpl.
    specialize (Hi id t Hid).
    rewrite !lookup_insert_ne by lia. apply lookup_delete_eq. }
  split; [exact Hn|]. simpl. unfold fire. rewrite Hn. reflexivity.
Qed.

(** A paste cancels the timer under [clearTimer] and nothing else: every
    other pending timer, the previous countdown's badge interval included,
    stays in the table as it was. *)
Lemma paste_keeps_other_timers s i t :
  invariant s -> timers s !! i = Some t -> clearTimer s <> Some i ->
  timers (handlePasteEvent s) !! i = Some t.
Proof.
  intros [Ht Hi] Hl Hne. specialize (Hi i t Hl).
  unfold handlePasteEvent. destruct (clearTimer s) as [id|]; simpl.
  - rewrite !lookup_insert_ne by lia. rewrite lookup_delete_ne by congruence. exact Hl.
  - rewrite !lookup_insert_ne by lia. exact Hl.
Qed.

(** C2 (evaluated on the code).  A paste at 0 s starts a ten-second
    countdown whose badge interval (handle 1) ticks at 1, 2 and 3 s; a second
    paste at 3.5 s replaces the countdown (now due at 13.5 s, badge "10") but
    leaves interval 1 pending beside the new interval 3.  At 4 s interval 1
    runs and writes the old countdown's "6" over the badge. *)
Theorem restart_leaves_previous_badge_interval :
  let paste := Deliver (PASTE_DETECTED (Bool false)) in
  let s := run [paste; Elapse 1000; Fire 1; Elapse 1000; Fire 1; Elapse 1000; Fire 1;
                Elapse 500; paste] initialState in
  let s' := run [Elapse 500; Fire 1] s in
  countdowns s = [(4%nat, 13500)] /\
  badgeTicks s = [3%nat; 1%nat] /\
  badgeText s = "10" /\
  now s' = 4000 /\
  countdowns s' = [(4%nat, 13500)] /\
  badgeText s' = "6".
Proof. vm_compute. repeat split; reflexivity. Qed.

End Countdown.

(* ===================================================================== *)
(** * Further properties of the clearing chain *)
(* ===================================================================== *)

Section ChainSteps.
Import Background.

Lemma tryActiveTab_returns e : exists b, tryActiveTab e = Ok b.
Proof. apply try_catch_returns. Qed.

Lemma trySuitableTab_returns e : exists b, trySuitableTab e = Ok b.
Proof. apply try_catch_returns. Qed.

Lemma tryContentScripts_returns e : exists b, tryContentScripts e = Ok b.
Proof. apply try_catch_returns. Qed.

Lemma ensureOffscreen_returns e : exists b, ensureOffscreen e = Ok b.
Proof.
  unfold ensureOffscreen. destruct (negb (offscreenCreateAvailable e)); [eauto|].
  apply try_catch_returns.
Qed.

Lemma clearClipboardOffscreen_returns e : exists b, clearClipboardOffscreen e = Ok b.
Proof.
  unfold clearClipboardOffscreen.
  destruct (ensureOffscreen_returns e) as [ready ->]. simpl.
  destruct ready; simpl.
  - destruct (try_catch_returns
                (res ← try_catch (send (offscreenClear e 0))
                                 (fun _ => send (offscreenClear e 1));
                 if acknowledged res
                 then _ ← (if offscreenCloseAvailable e
                           then swallow (offscreenCloseDocument e) else Ok tt);
                      Ok true
                 else Ok false) false) as [d Hd].
    unfold askOffscreen. rewrite Hd. simpl.
    destruct d; [eauto|]. apply try_catch_returns.
  - apply try_catch_returns.
Qed.

Lemma clearChain_by_steps (e : Env) :
  (clearChain e = Ok Cleared \/ clearChain e = Ok NoContext) /\
  (clearChain e = Ok Cleared <->
   tryActiveTab e = Ok true \/ trySuitableTab e = Ok true \/
   tryContentScripts e = Ok true \/ clearClipboardOffscreen e = Ok true).
Proof.
  unfold clearChain.
  destruct (tryActiveTab_returns e) as [a ->].
  destruct (trySuitableTab_returns e) as [b ->].
  destruct (tryContentScripts_returns e) as [c ->].
  destruct (clearClipboardOffscreen_returns e) as [d ->].
  destruct a, b, c, d; simpl; split; auto;
    split; auto; intros H; try discriminate;
    repeat (destruct H as [H|H]; try discriminate).
Qed.

(** X1.  When the calls it awaits have settled, the chain has stopped at the
    first step that succeeded and has one of two ends: its outer [catch] is
    never entered.  It ends with the "cleared" badge exactly when one of its
    four steps returned from inside the chain. *)
Theorem clearChain_cleared_iff_some_step (e : Env) :
  (clearChain e = Ok Cleared \/ clearChain e = Ok NoContext) /\
  (clearChain e = Ok Cleared <->
   tryActiveTab e = Ok true \/ trySuitableTab e = Ok true \/
   tryContentScripts e = Ok true \/ clearClipboardOffscreen e = Ok true).
Proof. exact (clearChain_by_steps e). Qed.

(** X2.  The content-script step asks the tabs in order, skipping [chrome://]
    and [chrome-extension://] pages and treating a rejected send like a
    refusal; it succeeds exactly when some eligible tab acknowledges. *)
Theorem askContentScripts_some_tab_acknowledges (e : Env) (tabs : list Tab) :
  askContentScripts e tabs
  = Ok (existsb (fun t => urlAvoids ["chrome://"; "chrome-extension://"] t &&
                          match tabsSendMessage e (tab_id t) with
                          | Ok response => acknowledged response
                          | Throw _ => false
                          end) tabs).
Proof.
  induction tabs as [|t rest IH]; simpl; [reflexivity|].
  destruct (urlAvoids _ t); simpl; [|exact IH].
  destruct (tabsSendMessage e (tab_id t)) as [response|msg]; simpl; [|exact IH].
  destruct (acknowledged response); simpl; [reflexivity | exact IH].
Qed.

Lemma pingOffscreen_false (e : Env) (i retries : nat) :
  pingOffscreen e i retries = false <->
  forall j, (j < retries)%nat -> pingAttempt (offscreenPing e (i + j)) = false.
Proof.
  revert i. induction retries as [|n IH]; intros i; simpl.
  - split; [intros _ j Hj; lia | reflexivity].
  - destruct (pingAttempt (offscreenPing e i)) eqn:P.
    + split; [discriminate|]. intros H. specialize (H 0%nat ltac:(lia)).
      rewrite Nat.add_0_r in H. congruence.
    + rewrite IH. split; intros H j Hj.
      * destruct j as [|j]; [rewrite Nat.add_0_r; exact P|].
        rewrite Nat.add_succ_r. apply (H j). lia.
      * specialize (H (S j) ltac:(lia)). rewrite Nat.add_succ_r in H. exact H.
Qed.

Lemma pingOffscreen_true (e : Env) (i retries : nat) :
  pingOffscreen e i retries = true ->
  exists k, (k < retries)%nat /\
            pingAttempt (offscreenPing e (i + k)) = true /\
            (forall j, (j < k)%nat -> pingAttempt (offscreenPing e (i + j)) = false) /\
            pingsSent e i retries = seq i (S k).
Proof.
  revert i. induction retries as [|n IH]; intros i; simpl; [discriminate|].
  destruct (pingAttempt (offscreenPing e i)) eqn:P.
  - intros _. exists 0%nat. rewrite Nat.add_0_r.
    split; [lia|]. split; [exact P|]. split; [intros j Hj; lia | reflexivity].
  - intros H. destruct (IH (S i) H) as (k & Hk & Hp & Hbefore & Hsent).
    exists (S k). rewrite Nat.add_succ_r.
    split; [lia|]. split; [exact Hp|]. split.
    + intros [|j] Hj; [rewrite Nat.add_0_r; exact P|].
      rewrite Nat.add_succ_r. apply (Hbefore j). lia.
    + rewrite Hsent. reflexivity.
Qed.

Lemma pingsSent_all (e : Env) (i retries : nat) :
  pingOffscreen e i retries = false -> pingsSent e i retries = seq i retries.
Proof.
  revert i. induction retries as [|n IH]; intros i; simpl; [reflexivity|].
  destruct (pingAttempt (offscreenPing e i)); [discriminate|].
  intros H. rewrite (IH (S i) H). reflexivity.
Qed.

(** X3.  [pingOffscreen] resolves [true] exactly when the callback of one of
    its [retries] attempts gets a response with a truthy [success] and no
    [lastError]; it then has sent the pings up to the first such attempt and
    no later one.  It resolves [false] exactly when every attempt fails, and
    then has sent all [retries] pings. *)
Theorem pingOffscreen_stops_at_first_acknowledgement (e : Env) (i retries : nat) :
  (pingOffscreen e i retries = true <->
   exists k, (k < retries)%nat /\
             pingAttempt (offscreenPing e (i + k)) = true /\
             (forall j, (j < k)%nat -> pingAttempt (offscreenPing e (i + j)) = false) /\
             pingsSent e i retries = seq i (S k)) /\
  (pingOffscreen e i retries = false <->
   forall j, (j < retries)%nat -> pingAttempt (offscreenPing e (i + j)) = false) /\
  (pingOffscreen e i retries = false -> pingsSent e i retries = seq i retries).
Proof.
  split; [|split].
  - split; [apply pingOffscreen_true|].
    intros (k & Hk & Hp & _).
    destruct (pingOffscreen e i retries) eqn:E; [reflexivity|].
    rewrite (proj1 (pingOffscreen_false e i retries) E k Hk) in Hp. discriminate.
  - apply pingOffscreen_false.
  - apply pingsSent_all.
Qed.

Lemma pingOffscreen_stops_at_first_acknowledgement_witness :
  let e := {| tabsQueryActive := Ok [];
              tabsQueryAll := fun _ => Ok [];
              executeScript := fun _ => Ok tt;
              tabsSendMessage := fun _ => Ok None;
              offscreenCreateAvailable := true;
              offscreenHasDocumentAvailable := true;
              offscreenHasDocument := Ok false;
              offscreenCreateDocument := Ok tt;
              offscreenPing := fun k => if (k <? 2)%nat
                                        then PingLastError "Receiving end does not exist"
                                        else PingAnswer (Some true);
              offscreenClear := fun _ => Answer (Some true);
              offscreenCloseAvailable := true;
              offscreenCloseDocument := Ok tt;
              tabsCreate := Ok tt;
              tabsRemove := Ok tt;
              windowsCreateMinimized := Ok tt;
              windowsCreateNormal := Ok tt;
              windowsRemove := Ok tt |} in
  pingOffscreen e 0 5 = true /\ pingsSent e 0 5 = [0; 1; 2]%nat.
Proof.
  intros e.
  assert (H : pingOffscreen e 0 5 = true) by reflexivity.
  split; [exact H|].
  destruct (proj1 (proj1 (pingOffscreen_stops_at_first_acknowledgement e 0 5)) H)
    as (k & Hk & Hp & Hbefore & Hsent).
  destruct k as [|[|[|k]]].
  - discriminate Hp.
  - discriminate Hp.
  - exact Hsent.
  - specialize (Hbefore 2%nat ltac:(lia)). discriminate Hbefore.
Defined.

(** X4.  The second step injects into the first suitable tab only: it succeeds
    exactly when the tab query resolves, some tab passes the URL filter and
    the injection into the first such tab resolves. *)
Theorem trySuitableTab_first_suitable_only (e : Env) :
  trySuitableTab e = Ok true <->
  exists allTabs t rest u,
    tabsQueryAll e 0%nat = Ok allTabs /\
    List.filter
      (urlAvoids ["chrome://"; "chrome-extension://"; "edge://"; "about:"; "moz-extension://"])
      allTabs = t :: rest /\
    executeScript e (tab_id t) = Ok u.
Proof.
  unfold trySuitableTab. split.
  - destruct (tabsQueryAll e 0%nat) as [allTabs|msg]; simpl; [|discriminate].
    destruct (List.filter _ allTabs) as [|t rest] eqn:F; simpl; [discriminate|].
    destruct (executeScript e (tab_id t)) as [u|msg] eqn:X; simpl; [|discriminate].
    intros _. exists allTabs, t, rest, u. auto.
  - intros (allTabs & t & rest & u & -> & F & X). simpl. rewrite F. simpl.
    rewrite X. reflexivity.
Qed.

(** X5.  Best effort: once the earlier steps have failed and the calls the
    offscreen step awaits have settled, the ability to open an auxiliary tab
    or window is enough for the chain to end with the "cleared" badge;
    nothing the auxiliary page does is waited for. *)
Theorem clearChain_cleared_when_window_opens (e : Env) (u1 u2 : unit) :
  tabsCreate e = Ok u1 \/ windowsCreateMinimized e = Ok u1 ->
  windowsCreateNormal e = Ok u2 ->
  clearChain e = Ok Cleared.
Proof.
  intros Haux Hwin. apply clearChain_by_steps.
  right; right; right.
  unfold clearClipboardOffscreen.
  destruct (ensureOffscreen_returns e) as [ready ->]. simpl.
  destruct ready; simpl.
  - destruct (askOffscreen e) as [[|]|msg] eqn:A; simpl; try reflexivity.
    + unfold ephemeralWindow. rewrite Hwin. simpl.
      destruct (windowsRemove e); reflexivity.
    + unfold askOffscreen in A.
      match type of A with try_catch ?b _ = _ => destruct b; discriminate end.
  - unfold ephemeralTab.
    destruct (tabsCreate e) as [u|msg] eqn:T; simpl.
    + destruct (tabsRemove e); reflexivity.
    + destruct Haux as [Haux|Haux]; [discriminate|]. rewrite Haux. simpl.
      destruct (windowsRemove e); reflexivity.
Qed.

Lemma clearChain_cleared_when_window_opens_witness :
  clearChain
    {| tabsQueryActive := Throw "no window";
       tabsQueryAll := fun _ => Ok [];
       executeScript := fun _ => Throw "x";
       tabsSendMessage := fun _ => Throw "x";
       offscreenCreateAvailable := false;
       offscreenHasDocumentAvailable := false;
       offscreenHasDocument := Throw "x";
       offscreenCreateDocument := Throw "x";
       offscreenPing := fun _ => PingLastError "x";
       offscreenClear := fun _ => NoAnswer;
       offscreenCloseAvailable := false;
       offscreenCloseDocument := Throw "x";
       tabsCreate := Throw "No current window";
       tabsRemove := Throw "x";
       windowsCreateMinimized := Ok tt;
       windowsCreateNormal := Ok tt;
       windowsRemove := Throw "x" |}
  = Ok Cleared.
Proof.
  apply (clearChain_cleared_when_window_opens _ tt tt).
  - right. reflexivity.
  - reflexivity.
Defined.

End ChainSteps.

(* ===================================================================== *)
(** * Further properties of the service worker *)
(* ===================================================================== *)

Section Worker.
Import Background.

Implicit Types (s : State).

Create HintDb worker.
#[local] Hint Resolve quiet_tracked tracked_None_quiet quiet_delete tracked_delete_quiet
  quiet_insert quiet_alter tracked_insert_quiet tracked_delete tracked_insert_other
  tracked_alter issued_insert_next issued_delete issued_alter : worker.

Lemma fire_other_keeps_trace s id t :
  timers s !! id = Some t -> isClearCallback (callback t) = false ->
  trace (fire id s) = trace s /\ clearTimer (fire id s) = clearTimer s.
Proof.
  intros Hid Hnc. unfold fire. rewrite Hid.
  destruct (due t <=? now s); [|auto].
  destruct (callback t) as [n|ivl| |]; simpl in *; try discriminate.
  - destruct (gt (decr n) 0); auto.
  - auto.
Qed.

(** X6.  A timer task issues a clear command only as the expiry of the pending
    countdown, and never before the deadline: when the countdown [id] is due,
    running it issues exactly one command and leaves no countdown and no
    [clearTimer]; any other timer task - another handle, or this one before
    its deadline - issues none and leaves the countdown as it is. *)
Theorem timer_task_clears_at_the_deadline_only (evs : list Event) (id : nat) :
  let s := run evs initialState in
  (forall d, countdowns s = [(id, d)] -> d <= now s ->
             clearCommands (step (Fire id) s) = S (clearCommands s) /\
             countdowns (step (Fire id) s) = [] /\
             clearTimer (step (Fire id) s) = None) /\
  ((forall d, countdowns s = [(id, d)] -> now s < d) ->
   clearCommands (step (Fire id) s) = clearCommands s /\
   countdowns (step (Fire id) s) = countdowns s).
Proof.
  intros s. pose proof (invariant_reachable evs) as Hinv. fold s in Hinv.
  destruct Hinv as [Ht Hi]. split.
  - intros d Hcd Hdue.
    destruct (countdowns_tracked s Ht) as [E|(id' & t & Hct & Hid & Hc & E)];
      rewrite E in Hcd; [discriminate|].
    injection Hcd as -> <-.
    simpl. unfold fire. rewrite Hid.
    replace (due t <=? now s) with true by (symmetry; apply Z.leb_le, Hdue).
    set (remaining := match period t with
                      | Some p => <[id := {| due := due t + p; period := Some p;
                                            callback := callback t |}]> (timers s)
                      | None => delete id (timers s)
                      end).
    assert (Hr : tracked remaining (Some id)).
    { unfold remaining. rewrite Hct in Ht. destruct (period t) as [p|].
      - eapply tracked_rearm; eauto.
      - apply tracked_delete, Ht. }
    clearbody remaining.
    destruct (callback t) as [n|ivl| |]; simpl in Hc; try discriminate; simpl;
      unfold clearClipboard; simpl; rewrite Hct; simpl;
      repeat split; try reflexivity;
      apply countdowns_quiet; simpl; auto with worker.
  - intros Hearly. simpl.
    destruct (timers s !! id) as [t|] eqn:Hid.
    + destruct (isClearCallback (callback t)) eqn:Hc.
      * pose proof (Ht id t Hid Hc) as Hct. rewrite Hct in Ht.
        pose proof (countdowns_single s id t Ht Hid Hc) as E.
        specialize (Hearly (due t) E).
        unfold fire. rewrite Hid.
        replace (due t <=? now s) with false by (symmetry; apply Z.leb_gt, Hearly).
        auto.
      * split.
        -- unfold clearCommands.
           destruct (fire_other_keeps_trace s id t Hid Hc) as [-> _]. reflexivity.
        -- apply fire_other_keeps_countdowns with t; assumption.
    + unfold fire. rewrite Hid. auto.
Qed.

Lemma timer_task_clears_at_the_deadline_only_witness :
  let s := run [Deliver (PASTE_DETECTED Undefined); Elapse 10000] initialState in
  clearCommands (step (Fire 2) s) = 1%nat /\ countdowns (step (Fire 2) s) = [].
Proof.
  intros s.
  destruct (proj1 (timer_task_clears_at_the_deadline_only
                     [Deliver (PASTE_DETECTED Undefined); Elapse 10000] 2%nat) 10000)
    as (H1 & H2 & _).
  - vm_compute. reflexivity.
  - vm_compute. discriminate.
  - split; [exact H1 | exact H2].
Defined.

(** X7.  "Clear now" short-circuits a countdown: while enabled, the request
    issues exactly one clear command at once, drops the pending countdown
    (whose timer can then no longer run) and leaves one run of the chain
    waiting, on which the answer hangs. *)
Theorem clear_now_short_circuits_the_countdown (evs : list Event) :
  let s := run evs initialState in
  let s' := step (Deliver CLEAR_CLIPBOARD_NOW) s in
  enabled (settings s) = true ->
  clearCommands s' = S (clearCommands s) /\
  countdowns s' = [] /\
  clearTimer s' = None /\
  (forall id d, countdowns s = [(id, d)] -> step (Fire id) s' = s') /\
  awaiting s' !! nextCall s = Some (AwaitClear true) /\
  trace s' = ClearCommand :: trace s.
Proof.
  intros s s' Hen. pose proof (invariant_reachable evs) as Hinv. fold s in Hinv.
  assert (E : s' = clearClipboard true s).
  { unfold s'. simpl. rewrite Hen. reflexivity. }
  rewrite E. destruct (clearClipboard_quiet true s Hinv) as (Hq & Hc & _).
  repeat split.
  - unfold clearClipboard. simpl. destruct (clearTimer s); reflexivity.
  - apply countdowns_quiet, Hq.
  - exact Hc.
  - intros id d Hcd. destruct Hinv as [Ht Hi].
    destruct (countdowns_tracked s Ht) as [E'|(id' & t & Hct & Hid & Hcb & E')];
      rewrite E' in Hcd; [discriminate|].
    injection Hcd as -> <-.
    simpl. unfold fire, clearClipboard. simpl. rewrite Hct. simpl.
    rewrite lookup_delete_eq. reflexivity.
  - unfold clearClipboard. simpl. destruct (clearTimer s); simpl; apply lookup_insert_eq.
  - unfold clearClipboard. simpl. destruct (clearTimer s); reflexivity.
Qed.

Lemma clear_now_short_circuits_the_countdown_witness :
  let s := run [Deliver (PASTE_DETECTED Undefined); Elapse 4000] initialState in
  countdowns s = [(2%nat, 10000)] /\
  countdowns (step (Deliver CLEAR_CLIPBOARD_NOW) s) = [] /\
  clearCommands (step (Deliver CLEAR_CLIPBOARD_NOW) s) = 1%nat.
Proof.
  intros s. split; [vm_compute; reflexivity|].
  destruct (clear_now_short_circuits_the_countdown
              [Deliver (PASTE_DETECTED Undefined); Elapse 4000] eq_refl)
    as (H1 & H2 & _).
  split; [exact H2 | exact H1].
Defined.

(** X8.  A failed storage write is reported for the password-only option but not
    for the delay; in both cases the new value is already in force in
    memory. *)
Theorem failed_write_is_reported_for_the_option_only (s : State) (v : value) (msg : string) :
  let option := run [Deliver (UPDATE_PASSWORD_ONLY v);
                     StorageSetSettles (nextCall s) (Throw msg)] s in
  let delay := run [Deliver (UPDATE_SETTINGS v);
                    StorageSetSettles (nextCall s) (Throw msg)] s in
  clearOnlyOnPasswordPaste (settings option) = Boolean v /\
  trace option = Responded (Reply false None (Some msg)) :: trace s /\
  interval (settings delay) = Number v /\
  trace delay = Responded (Reply true None None) :: trace s.
Proof.
  simpl. rewrite !lookup_insert_eq. repeat split; reflexivity.
Qed.

Lemma repeat_shift {A} (x : A) (n : nat) (l : list A) :
  (repeat x n ++ x :: l = x :: repeat x n ++ l)%list.
Proof. induction n as [|n IH]; simpl; [reflexivity|]. rewrite IH. reflexivity. Qed.

Lemma trace_answerWaiters n s :
  trace (answerWaiters n s)
  = (repeat (Responded (ReplySettings (settings s))) n ++ trace s)%list.
Proof.
  revert s. induction n as [|n IH]; intros s; simpl; [reflexivity|].
  rewrite IH. simpl. apply repeat_shift.
Qed.

Lemma answerWaiters_frame n s :
  awaiting (answerWaiters n s) = awaiting s /\
  settingsInitialized (answerWaiters n s) = settingsInitialized s /\
  settingsInitPromise (answerWaiters n s) = settingsInitPromise s.
Proof.
  revert s. induction n as [|n IH]; intros s; simpl; [auto|].
  destruct (IH (sendResponse (ReplySettings (settings s)) s)) as (-> & -> & ->). auto.
Qed.

Lemma more_waiters n k w s :
  settingsInitialized s = false -> settingsInitPromise s = Some k ->
  awaiting s !! k = Some (AwaitLoadSettings w) ->
  run (repeat (Deliver GET_SETTINGS) n) s
  = set_awaiting (nextCall s) (<[k := AwaitLoadSettings (n + w)]> (awaiting s)) s.
Proof.
  revert w s. induction n as [|n IH]; intros w s Hi Hp Hk; simpl.
  - rewrite insert_id by assumption. destruct s; reflexivity.
  - rewrite Hi. unfold ensureSettingsLoaded. rewrite Hp, Hk.
    rewrite (IH (S w)); simpl; try assumption.
    + rewrite insert_insert_eq. replace (n + S w)%nat with (S (n + w)) by lia. reflexivity.
    + apply lookup_insert_eq.
Qed.

(** X9.  Requests for the settings that arrive before the settings are loaded
    share one storage read: however many arrive, one call is left waiting,
    nothing is answered yet, and when the read settles - either way - each
    request gets one answer carrying the settings just loaded; the settings
    then count as initialized. *)
Theorem settings_requests_share_one_load (s : State) (n : nat) (r : option Stored) :
  settingsInitialized s = false -> settingsInitPromise s = None ->
  let k := nextCall s in
  let s1 := run (repeat (Deliver GET_SETTINGS) (S n)) s in
  let s2 := step (StorageGetSettles k r) s1 in
  awaiting s1 = <[k := AwaitLoadSettings (S n)]> (awaiting s) /\
  nextCall s1 = S k /\
  trace s1 = trace s /\
  settings s2 = settings (loadSettings_resume r s) /\
  trace s2 = (repeat (Responded (ReplySettings (settings s2))) (S n) ++ trace s)%list /\
  awaiting s2 = delete k (awaiting s) /\
  settingsInitialized s2 = true /\
  settingsInitPromise s2 = None.
Proof.
  intros Hi Hp k s1 s2.
  assert (E1 : s1 = set_awaiting (S k) (<[k := AwaitLoadSettings (S n)]> (awaiting s))
                      (set_initialized false (Some k) s)).
  { unfold s1. simpl. rewrite Hi. unfold ensureSettingsLoaded. rewrite Hp. simpl.
    rewrite (more_waiters n k 1); simpl; try reflexivity.
    - rewrite insert_insert_eq. replace (n + 1)%nat with (S n) by lia.
      rewrite Hi. reflexivity.
    - exact Hi.
    - apply lookup_insert_eq. }
  assert (E2 : s2 = answerWaiters (S n)
                      (set_initialized true None
                         (loadSettings_resume r
                            (set_awaiting (S k) (delete k (awaiting s))
                               (set_initialized false (Some k) s))))).
  { unfold s2. rewrite E1. simpl. rewrite lookup_insert_eq. unfold resume. simpl.
    rewrite delete_insert_eq.
    destruct r as [result|]; simpl;
      (destruct (decide (Some k = Some k)) as [_|Hne]; [reflexivity | congruence]). }
  rewrite E1. repeat split; try reflexivity.
  - rewrite E2. rewrite settings_answerWaiters. destruct r; reflexivity.
  - rewrite E2. rewrite trace_answerWaiters, settings_answerWaiters. destruct r; reflexivity.
  - rewrite E2. rewrite (proj1 (answerWaiters_frame _ _)). destruct r; reflexivity.
  - rewrite E2. rewrite (proj1 (proj2 (answerWaiters_frame _ _))). destruct r; reflexivity.
  - rewrite E2. rewrite (proj2 (proj2 (answerWaiters_frame _ _))). destruct r; reflexivity.
Qed.

Lemma settings_requests_share_one_load_witness :
  trace (run [Deliver GET_SETTINGS; Deliver GET_SETTINGS; Deliver GET_SETTINGS;
              StorageGetSettles 0 None] initialState)
  = [Responded (ReplySettings defaultSettings); Responded (ReplySettings defaultSettings);
     Responded (ReplySettings defaultSettings)].
Proof.
  pose proof (settings_requests_share_one_load initialState 2 None eq_refl eq_refl)
    as (_ & _ & _ & _ & H & _).
  exact H.
Defined.

(** X10.  Whatever the storage holds, a load leaves a usable delay - a stored
    0, NaN or a missing key becomes 10 - and marks the settings initialized;
    a failed load restores all three defaults.  A load does not touch the
    timers: a countdown that is running keeps running even if the loaded
    settings say "disabled". *)
Theorem load_leaves_a_usable_delay (r : option Stored) (s : State) :
  num_truthy (interval (settings (loadSettings_resume r s))) = true /\
  settingsInitialized (loadSettings_resume r s) = true /\
  settings (loadSettings_resume None s) = defaultSettings /\
  countdowns (loadSettings_resume r s) = countdowns s /\
  clearTimer (loadSettings_resume r s) = clearTimer s.
Proof.
  destruct r as [result|]; simpl; repeat split; try reflexivity.
  destruct (clipboardInterval result) as [n|]; [|reflexivity].
  destruct (num_truthy n) eqn:E; [exact E | reflexivity].
Qed.

End Worker.

(* ===================================================================== *)
(** * Every message is answered once *)
(* ===================================================================== *)

Section Answers.
Import Background Accounting.

Implicit Types (s : State) (m : gmap nat Cont).

Lemma owedBy_insert_fresh m i c :
  m !! i = None -> owedBy (<[i := c]> m) = (replies c + owedBy m)%nat.
Proof.
  intros H. unfold owedBy.
  apply (map_fold_insert_L (fun _ k acc => (replies k + acc)%nat)); [|exact H].
  intros. lia.
Qed.

Lemma owedBy_delete m i c :
  m !! i = Some c -> owedBy m = (replies c + owedBy (delete i m))%nat.
Proof.
  intros H. unfold owedBy.
  apply (map_fold_delete_L (fun _ k acc => (replies k + acc)%nat)); [|exact H].
  intros. lia.
Qed.

Lemma owedBy_update m i c c' :
  m !! i = Some c -> (owedBy (<[i := c']> m) + replies c = replies c' + owedBy m)%nat.
Proof.
  intros H. rewrite <- (insert_delete_eq m i c').
  rewrite owedBy_insert_fresh by apply lookup_delete_eq.
  rewrite (owedBy_delete m i c H). lia.
Qed.

Lemma booked_frame s s' d :
  callsInvariant s -> awaiting s' = awaiting s -> nextCall s' = nextCall s ->
  settingsInitPromise s' = settingsInitPromise s ->
  answered s' = (answered s + d)%nat ->
  booked s s' d.
Proof.
  intros [Hf Hp] Ha Hn Hs Ht. split.
  - split; rewrite Ha; [rewrite Hn; exact Hf | rewrite Hs; exact Hp].
  - unfold owed. rewrite Ha, Ht. lia.
Qed.

Lemma booked_suspend s s' c :
  callsInvariant s ->
  awaiting s' = <[nextCall s := c]> (awaiting s) -> nextCall s' = S (nextCall s) ->
  settingsInitPromise s' = settingsInitPromise s \/
  (settingsInitPromise s' = Some (nextCall s) /\ exists w, c = AwaitLoadSettings w) ->
  answered s' = answered s ->
  booked s s' (replies c).
Proof.
  intros [Hf Hp] Ha Hn Hs Ht.
  assert (Hfresh : awaiting s !! nextCall s = None).
  { destruct (awaiting s !! nextCall s) as [c0|] eqn:E; [|reflexivity].
    specialize (Hf _ _ E). lia. }
  split.
  - split.
    + intros k c0. rewrite Ha, Hn. intros H.
      apply lookup_insert_Some in H as [[<- _]|[_ H]]; [lia|].
      specialize (Hf _ _ H). lia.
    + intros k Hk. rewrite Ha. destruct Hs as [Hs|[Hs [w ->]]].
      * rewrite Hs in Hk. destruct (Hp k Hk) as [w Hw]. exists w.
        rewrite lookup_insert_ne; [exact Hw|]. intros <-. congruence.
      * rewrite Hs in Hk. injection Hk as <-. exists w. apply lookup_insert_eq.
  - unfold owed. rewrite Ha, Ht, owedBy_insert_fresh by exact Hfresh. lia.
Qed.

Lemma booked_settle s s' k c :
  callsInvariant s -> awaiting s !! k = Some c ->
  awaiting s' = delete k (awaiting s) -> nextCall s' = nextCall s ->
  settingsInitPromise s' = None \/
  (settingsInitPromise s' = settingsInitPromise s /\
   (settingsInitPromise s <> Some k \/ forall w, c <> AwaitLoadSettings w)) ->
  answered s' = (answered s + replies c)%nat ->
  booked s s' 0.
Proof.
  intros [Hf Hp] Hk Ha Hn Hs Ht. split.
  - split.
    + intros j c0. rewrite Ha, Hn. intros H.
      apply lookup_delete_Some in H as [_ H]. eauto.
    + intros j Hj. rewrite Ha. destruct Hs as [Hs|[Hs Hne]]; [congruence|].
      rewrite Hs in Hj. destruct (Hp j Hj) as [w Hw]. exists w.
      rewrite lookup_delete_ne; [exact Hw|].
      intros <-. destruct Hne as [Hne|Hne]; [congruence|].
      rewrite Hk in Hw. injection Hw as ->. apply (Hne w). reflexivity.
  - unfold owed. rewrite Ha, Ht, (owedBy_delete (awaiting s) k c Hk). lia.
Qed.

Lemma booked_one_more_waiter s s' k w :
  callsInvariant s -> awaiting s !! k = Some (AwaitLoadSettings w) ->
  awaiting s' = <[k := AwaitLoadSettings (S w)]> (awaiting s) ->
  nextCall s' = nextCall s -> settingsInitPromise s' = settingsInitPromise s ->
  answered s' = answered s ->
  booked s s' 1.
Proof.
  intros [Hf Hp] Hk Ha Hn Hs Ht. split.
  - split.
    + intros j c0. rewrite Ha, Hn. intros H.
      apply lookup_insert_Some in H as [[<- _]|[_ H]]; eauto.
    + intros j Hj. rewrite Ha. rewrite Hs in Hj. destruct (Hp j Hj) as [w' Hw'].
      destruct (decide (k = j)) as [->|Hne].
      * exists (S w). apply lookup_insert_eq.
      * exists w'. rewrite lookup_insert_ne by assumption. exact Hw'.
  - unfold owed. rewrite Ha, Ht.
    pose proof (owedBy_update (awaiting s) k _ (AwaitLoadSettings (S w)) Hk) as H.
    simpl in H. lia.
Qed.

Lemma answered_answerWaiters n s : answered (answerWaiters n s) = (n + answered s)%nat.
Proof.
  unfold answered. rewrite trace_answerWaiters, List.filter_app, length_app.
  f_equal. induction n as [|n IH]; simpl; [reflexivity|]. now rewrite IH.
Qed.

Lemma nextCall_answerWaiters n s : nextCall (answerWaiters n s) = nextCall s.
Proof. revert s. induction n as [|n IH]; intros s; simpl; [reflexivity|]. now rewrite IH. Qed.

Ltac books :=
  try assumption;
  unfold clearClipboard, handlePasteEvent, updateSettings_resume, answered; simpl;
  repeat match goal with
         | |- context [match clearTimer ?s with _ => _ end] => destruct (clearTimer s)
         | |- context [if ?b then _ else _] => destruct b
         end;
  simpl;
  first [reflexivity | left; reflexivity | lia
        | right; split; [reflexivity | right; discriminate] ].

Lemma fire_books id s : callsInvariant s -> booked s (fire id s) 0.
Proof.
  intros H. unfold fire.
  destruct (timers s !! id) as [t|]; [|apply booked_frame; books].
  destruct (due t <=? now s); [|apply booked_frame; books].
  destruct (callback t) as [n|ivl| |]; simpl.
  - destruct (gt (decr n) 0); apply booked_frame; books.
  - apply (booked_suspend s _ (AwaitClear false)); books.
  - apply (booked_suspend s _ (AwaitClear false)); books.
  - apply booked_frame; books.
Qed.

Lemma onMessage_books msg s : callsInvariant s -> booked s (onMessage msg s) 1.
Proof.
  intros H. destruct msg as [v| |v|v|v| |ty]; simpl.
  - apply booked_frame; books.
  - destruct (settingsInitialized s).
    + apply booked_frame; books.
    + unfold ensureSettingsLoaded.
      destruct (settingsInitPromise s) as [k|] eqn:Hp.
      * destruct (proj2 H k Hp) as [w Hw]. rewrite Hw.
        apply (booked_one_more_waiter s _ k w); books.
      * apply (booked_suspend s _ (AwaitLoadSettings 1)); try assumption;
          try reflexivity.
        right. split; [reflexivity|]. eauto.
  - apply booked_frame; books.
  - apply (booked_suspend s _ AwaitUpdateSettings); books.
  - apply (booked_suspend s _ AwaitPasswordOnly); books.
  - destruct (negb (enabled (settings s))).
    + apply booked_frame; books.
    + apply (booked_suspend s _ (AwaitClear true)); books.
  - apply booked_frame; books.
Qed.

Lemma step_books ev s :
  callsInvariant s -> booked s (step ev s) (if isDeliver ev then 1 else 0).
Proof.
  intros H. destruct ev as [dt| |msg|id|k r|k r|k e]; simpl.
  - apply booked_frame; books.
  - apply (booked_suspend s _ (AwaitLoadSettings 0)); books.
  - apply onMessage_books, H.
  - apply fire_books, H.
  - destruct (awaiting s !! k) as [[w| | |reply]|] eqn:Hk;
      try (apply booked_frame; books; fail).
    set (loaded := loadSettings_resume r (resume k s)).
    assert (Hl : awaiting loaded = delete k (awaiting s) /\
                 nextCall loaded = nextCall s /\
                 settingsInitPromise loaded = settingsInitPromise s /\
                 answered loaded = answered s).
    { unfold loaded. destruct r; simpl; auto. }
    destruct Hl as (La & Ln & Lp & Lt). clearbody loaded.
    apply (booked_settle s _ k (AwaitLoadSettings w)); try assumption.
    + rewrite (proj1 (answerWaiters_frame _ _)).
      destruct (decide (settingsInitPromise loaded = Some k)); simpl; exact La.
    + rewrite nextCall_answerWaiters.
      destruct (decide (settingsInitPromise loaded = Some k)); simpl; exact Ln.
    + destruct (decide (settingsInitPromise loaded = Some k)) as [Hd|Hd].
      * left. rewrite (proj2 (proj2 (answerWaiters_frame _ _))). reflexivity.
      * right. rewrite (proj2 (proj2 (answerWaiters_frame _ _))).
        split; [exact Lp|]. left. congruence.
    + rewrite answered_answerWaiters.
      destruct (decide (settingsInitPromise loaded = Some k)); simpl;
        unfold answered in *; simpl; lia.
  - destruct (awaiting s !! k) as [[w| | |reply]|] eqn:Hk;
      try (apply booked_frame; books; fail).
    + apply (booked_settle s _ k AwaitUpdateSettings); try assumption;
        destruct r as [u|msg]; books.
    + apply (booked_settle s _ k AwaitPasswordOnly); try assumption; books.
  - destruct (awaiting s !! k) as [[w| | |reply]|] eqn:Hk;
      try (apply booked_frame; books; fail).
    apply (booked_settle s _ k (AwaitClear reply)); try assumption;
      unfold clearClipboard_resume; rewrite clearClipboardPromise_fulfilled;
      destruct (clearChain e) as [[| |msg]|msg], reply; books.
Qed.

Lemma run_books evs s :
  callsInvariant s ->
  (answered (run evs s) + owed (run evs s) = answered s + owed s + delivered evs)%nat.
Proof.
  revert s. induction evs as [|ev evs IH]; intros s H; simpl.
  - unfold delivered. simpl. lia.
  - destruct (step_books ev s H) as [H' E]. rewrite (IH _ H'), E.
    unfold delivered. simpl. destruct (isDeliver ev); simpl; lia.
Qed.

(** X11.  Along every schedule each delivered message is answered exactly once:
    the answers given so far and the answers that hang on calls still
    waiting for the browser add up to the number of messages delivered. *)
Theorem every_message_is_answered_once (evs : list Event) :
  (answered (run evs initialState) + owed (run evs initialState) = delivered evs)%nat.
Proof.
  rewrite run_books.
  - reflexivity.
  - split; simpl.
    + intros k c H. rewrite lookup_empty in H. discriminate.
    + discriminate.
Qed.

End Answers.

(* ===================================================================== *)
(** * The badge during a countdown *)
(* ===================================================================== *)

Section Badge.
Import Background.

Lemma badge_tick (s : State) (id : nat) (d m : Z) :
  timers s !! id = Some {| due := d; period := Some 1000; callback := BadgeTick (Int m) |} ->
  d <= now s ->
  now (fire id s) = now s /\
  (1 < m ->
   badgeText (fire id s) = pretty (m - 1) /\
   timers (fire id s) !! id
   = Some {| due := d + 1000; period := Some 1000; callback := BadgeTick (Int (m - 1)) |}) /\
  (m <= 1 -> timers (fire id s) !! id = None /\ badgeText (fire id s) = badgeText s).
Proof.
  intros Hid Hdue. unfold fire. rewrite Hid. simpl.
  replace (d <=? now s) with true by (symmetry; apply Z.leb_le, Hdue).
  simpl. destruct (0 <? m - 1) eqn:G.
  - apply Z.ltb_lt in G. split; [reflexivity|]. split; [|intros; lia].
    intros _. split; [reflexivity|].
    simpl. rewrite lookup_alter_eq, lookup_insert_eq. reflexivity.
  - apply Z.ltb_ge in G. split; [reflexivity|]. split; [intros; lia|].
    intros _. split; [|reflexivity].
    unfold clearInterval, clearTimeout. simpl. apply lookup_delete_eq.
Qed.

(** X12.  After a paste with a delay of [n] seconds, [n] a safe integer,
    the badge, ticked by its own interval only, shows [n], [n-1], ... one
    second apart and never gets to 0: the tick that would show 0 removes the
    interval instead and leaves the "1" on the badge. *)
Theorem badge_counts_down_and_stops (s : State) (n : Z) (k : nat) :
  interval (settings s) = Int n -> isSafeInteger n = true ->
  let id := nextTimer s in
  let ticks j := Nat.iter j (fun x => step (Fire id) (step (Elapse 1000) x))
                          (handlePasteEvent s) in
  (Z.of_nat k < n ->
   badgeText (ticks k) = pretty (n - Z.of_nat k) /\
   timers (ticks k) !! id
   = Some {| due := now s + 1000 * (Z.of_nat k + 1); period := Some 1000;
             callback := BadgeTick (Int (n - Z.of_nat k)) |}) /\
  (1 <= n -> Z.of_nat k = n ->
   timers (ticks k) !! id = None /\ badgeText (ticks k) = pretty 1).
Proof.
  intros Hn _ id ticks.
  assert (P : forall j, Z.of_nat j < n ->
                now (ticks j) = now s + 1000 * Z.of_nat j /\
                badgeText (ticks j) = pretty (n - Z.of_nat j) /\
                timers (ticks j) !! id
                = Some {| due := now s + 1000 * (Z.of_nat j + 1); period := Some 1000;
                          callback := BadgeTick (Int (n - Z.of_nat j)) |}).
  { induction j as [|j IH]; intros Hj.
    - unfold ticks, handlePasteEvent, id. simpl.
      destruct (clearTimer s); simpl; rewrite Hn; simpl;
        (repeat split; [lia | f_equal; lia |]);
        (rewrite lookup_insert_ne by lia); rewrite lookup_insert_eq;
        do 2 f_equal; try lia; f_equal; f_equal; lia.
    - destruct IH as (Hnow & Hbadge & Htimer); [lia|].
      change (ticks (S j)) with (step (Fire id) (step (Elapse 1000) (ticks j))).
      set (s1 := step (Elapse 1000) (ticks j)).
      assert (H1 : timers s1 !! id
                   = Some {| due := now s + 1000 * (Z.of_nat j + 1); period := Some 1000;
                             callback := BadgeTick (Int (n - Z.of_nat j)) |})
        by exact Htimer.
      assert (H2 : now s1 = now s + 1000 * Z.of_nat j + 1000)
        by (unfold s1; simpl; rewrite Hnow; reflexivity).
      destruct (badge_tick s1 id _ _ H1) as (Hnow' & Hbig & _); [lia|].
      destruct Hbig as [Hb Ht]; [lia|].
      simpl. rewrite Hnow', Hb, Ht, H2. repeat split.
      + lia.
      + f_equal. lia.
      + do 2 f_equal; try lia. do 2 f_equal. lia. }
  split.
  - intros Hk. destruct (P k Hk) as (_ & Hb & Ht). split; assumption.
  - intros H1 Hk. destruct k as [|j]; [simpl in Hk; lia|].
    destruct (P j) as (Hnow & Hbadge & Htimer); [lia|].
    change (ticks (S j)) with (step (Fire id) (step (Elapse 1000) (ticks j))).
    set (s1 := step (Elapse 1000) (ticks j)).
    assert (H2 : timers s1 !! id
                 = Some {| due := now s + 1000 * (Z.of_nat j + 1); period := Some 1000;
                           callback := BadgeTick (Int (n - Z.of_nat j)) |})
      by exact Htimer.
    assert (H3 : now s1 = now s + 1000 * Z.of_nat j + 1000)
      by (unfold s1; simpl; rewrite Hnow; reflexivity).
    destruct (badge_tick s1 id _ _ H2) as (_ & _ & Hend); [lia|].
    destruct Hend as [Ht Hb]; [lia|].
    simpl. rewrite Ht, Hb. split; [reflexivity|].
    change (badgeText s1) with (badgeText (ticks j)). rewrite Hbadge. f_equal. lia.
Qed.

Lemma badge_counts_down_and_stops_witness :
  badgeText (Nat.iter 3 (fun x => step (Fire 1) (step (Elapse 1000) x))
                      (handlePasteEvent initialState)) = "7".
Proof.
  apply (proj1 (badge_counts_down_and_stops initialState 10 3 eq_refl eq_refl)).
  vm_compute. reflexivity.
Defined.

End Badge.

(* ===================================================================== *)
(** * Further properties of the content script *)
(* ===================================================================== *)

Section Script.
Import Content Liveness Words.

Lemma handlePasteEvent_invalid cls rt event (p : Page) :
  extensionContextValid p = false -> handlePasteEvent cls rt event p = p.
Proof.
  intros H. unfold handlePasteEvent, notifyPasteEvent. rewrite H. simpl.
  destruct (negb (isEmpty _)); reflexivity.
Qed.

Lemma onPaste_invalid cls rt event (p : Page) :
  extensionContextValid p = false ->
  extensionContextValid (onPaste cls rt event p) = false /\
  outbox (onPaste cls rt event p) = outbox p.
Proof.
  intros H. unfold onPaste. rewrite (handlePasteEvent_invalid cls rt event p H).
  generalize (contextMenuListeners p). intros n.
  induction n as [|n IH]; simpl; [auto|].
  rewrite handlePasteEvent_invalid; [exact IH|]. apply IH.
Qed.

Lemma pageStep_invalid cls ev (sc : Script) :
  listenersSetup sc = true -> extensionContextValid (page sc) = false ->
  listenersSetup (pageStep cls ev sc) = true /\
  extensionContextValid (page (pageStep cls ev sc)) = false /\
  outbox (page (pageStep cls ev sc)) = outbox (page sc).
Proof.
  intros Hs Hv. destruct ev as [rt|rt event| |lastError|rt]; simpl.
  - unfold setupListeners. rewrite Hs. auto.
  - rewrite Hs. simpl. split; [reflexivity|]. apply onPaste_invalid, Hv.
  - rewrite Hs. simpl. auto.
  - unfold sendCallback. destruct lastError as [error|]; [|auto].
    destruct (includes _ _ || includes _ _ || includes _ _); simpl; auto.
  - unfold periodicCheck. rewrite Hv. auto.
Qed.

(** X13.  Once the script has marked the extension context invalid it stays so:
    no paste, timer, callback or check makes it valid again, and nothing more
    is sent, even if the runtime is reachable again.  A paste that finds the
    runtime gone is what marks it. *)
Theorem invalid_context_is_final
    (cls : Target -> bool) (evs : list PageEvent) (sc : Script) (event : PasteEvent) :
  listenersSetup sc = true ->
  (extensionContextValid (page sc) = false ->
   extensionContextValid (page (pageRun cls evs sc)) = false /\
   outbox (page (pageRun cls evs sc)) = outbox (page sc)) /\
  (allWhiteSpace (orEmpty (clipboardData event)) = false ->
   extensionContextValid (page (pageRun cls (Paste RuntimeGone event :: evs) sc)) = false /\
   outbox (page (pageRun cls (Paste RuntimeGone event :: evs) sc)) = outbox (page sc)).
Proof.
  intros Hs.
  assert (F : forall evs sc, listenersSetup sc = true ->
                extensionContextValid (page sc) = false ->
                extensionContextValid (page (pageRun cls evs sc)) = false /\
                outbox (page (pageRun cls evs sc)) = outbox (page sc)).
  { clear. intros evs. induction evs as [|ev evs IH]; intros sc Hs Hv; simpl; [auto|].
    destruct (pageStep_invalid cls ev sc Hs Hv) as (Hs' & Hv' & Ho').
    destruct (IH _ Hs' Hv') as [H1 H2]. rewrite H1, H2, Ho'. auto. }
  split; [apply F, Hs|].
  intros Hb.
  destruct (extensionContextValid (page sc)) eqn:Hv.
  - assert (G : extensionContextValid (page (pageStep cls (Paste RuntimeGone event) sc)) = false
                /\ outbox (page (pageStep cls (Paste RuntimeGone event) sc))
                   = outbox (page sc)).
    { simpl. rewrite Hs. simpl. unfold onPaste.
      assert (E : handlePasteEvent cls RuntimeGone event (page sc)
                  = {| extensionContextValid := false;
                       contextMenuListeners := contextMenuListeners (page sc);
                       outbox := outbox (page sc) |}).
      { unfold handlePasteEvent.
        replace (negb (isEmpty (trim _))) with true.
        - unfold notifyPasteEvent. rewrite Hv. reflexivity.
        - symmetry. apply negb_true_iff.
          destruct (clipboardData event) as [t|]; simpl in Hb; [|discriminate].
          destruct t as [|c r]; [discriminate|]. simpl isEmpty. cbv iota.
          destruct (trim (String c r)) eqn:T; [|reflexivity].
          apply trim_empty_iff in T. congruence. }
      rewrite E. simpl.
      generalize (contextMenuListeners (page sc)). intros n.
      induction n as [|n IH]; simpl; [auto|].
      rewrite handlePasteEvent_invalid; [exact IH|]. apply IH. }
    destruct G as [G1 G2].
    change (pageRun cls (Paste RuntimeGone event :: evs) sc)
      with (pageRun cls evs (pageStep cls (Paste RuntimeGone event) sc)).
    destruct (F evs (pageStep cls (Paste RuntimeGone event) sc)) as [H1 H2];
      [simpl; rewrite Hs; reflexivity | exact G1 |].
    rewrite H1, H2, G2. auto.
  - apply (F (Paste RuntimeGone event :: evs) sc Hs Hv).
Qed.

Lemma invalid_context_is_final_witness :
  let event := {| composedPath := None; eventTarget := OtherNode; activeElement := NoTarget;
                  clipboardData := Some "hunter2" |} in
  outbox (page (pageRun ContentNarrow.isPasswordField
                  [Paste RuntimeGone event; Paste RuntimeAlive event;
                   PeriodicCheck RuntimeAlive; Paste RuntimeAlive event]
                  (setupListeners RuntimeAlive scriptStart)))
  = [].
Proof.
  intros event.
  apply (proj2 (invalid_context_is_final ContentNarrow.isPasswordField
                  [Paste RuntimeAlive event; PeriodicCheck RuntimeAlive;
                   Paste RuntimeAlive event]
                  (setupListeners RuntimeAlive scriptStart) event eq_refl)).
  reflexivity.
Defined.

(** X14.  A paste that follows [k] openings of the context menu is reported
    [k + 1] times: by the listener installed at start and once more by every
    one-shot listener, which are all used up by it. *)
Theorem context_menu_paste_is_reported_again
    (cls : Target -> bool) (event : PasteEvent) (p : Page) :
  extensionContextValid p = true ->
  allWhiteSpace (orEmpty (clipboardData event)) = false ->
  outbox (onPaste cls RuntimeAlive event p)
  = (outbox p ++ repeat (Background.PASTE_DETECTED (Bool (cls (getPasteTarget event))))
                        (S (contextMenuListeners p)))%list /\
  contextMenuListeners (onPaste cls RuntimeAlive event p) = 0%nat.
Proof.
  intros Hv Hb.
  set (msg := Background.PASTE_DETECTED (Bool (cls (getPasteTarget event)))).
  assert (E : forall q, extensionContextValid q = true ->
                handlePasteEvent cls RuntimeAlive event q
                = {| extensionContextValid := true;
                     contextMenuListeners := contextMenuListeners q;
                     outbox := (outbox q ++ [msg])%list |}).
  { intros q Hq. unfold handlePasteEvent.
    replace (negb (isEmpty (trim _))) with true.
    - unfold notifyPasteEvent. rewrite Hq. simpl. rewrite Hq. reflexivity.
    - symmetry. apply negb_true_iff.
      destruct (clipboardData event) as [t|]; simpl in Hb; [|discriminate].
      destruct t as [|c r]; [discriminate|]. simpl isEmpty. cbv iota.
      destruct (trim (String c r)) eqn:T; [|reflexivity].
      apply trim_empty_iff in T. congruence. }
  unfold onPaste. rewrite (E p Hv). simpl.
  generalize (contextMenuListeners p). intros n.
  assert (G : forall n q, extensionContextValid q = true -> contextMenuListeners q = 0%nat ->
                Nat.iter n (handlePasteEvent cls RuntimeAlive event) q
                = {| extensionContextValid := true; contextMenuListeners := 0;
                     outbox := (outbox q ++ repeat msg n)%list |}).
  { clear - E. induction n as [|n IH]; intros q Hq Hc; simpl.
    - rewrite app_nil_r. destruct q; simpl in *; subst; reflexivity.
    - rewrite (IH q Hq Hc), E by reflexivity. simpl.
      rewrite <- app_assoc. do 2 f_equal.
      rewrite (repeat_shift msg n []), app_nil_r. reflexivity. }
  rewrite G by reflexivity. simpl. split; [|reflexivity].
  rewrite <- app_assoc. reflexivity.
Qed.

Lemma context_menu_paste_is_reported_again_witness :
  outbox (onPaste ContentNarrow.isPasswordField RuntimeAlive
            {| composedPath := None; eventTarget := OtherNode; activeElement := NoTarget;
               clipboardData := Some "hunter2" |}
            {| extensionContextValid := true; contextMenuListeners := 1; outbox := [] |})
  = [Background.PASTE_DETECTED (Bool false); Background.PASTE_DETECTED (Bool false)].
Proof.
  apply (proj1 (context_menu_paste_is_reported_again ContentNarrow.isPasswordField
                  {| composedPath := None; eventTarget := OtherNode;
                     activeElement := NoTarget; clipboardData := Some "hunter2" |}
                  {| extensionContextValid := true; contextMenuListeners := 1; outbox := [] |}
                  eq_refl eq_refl)).
Defined.

(** *** The autocomplete rule *)

Lemma pieces_nonempty (s : string) : pieces s <> [].
Proof.
  destruct s as [|c r]; simpl; [discriminate|].
  destruct (isWhiteSpace c); [discriminate|]. destruct (pieces r); discriminate.
Qed.

(** A word without white space stands at the head of [s], delimited, exactly
    when it is the first piece of [s]. *)
Lemma wordHere_first_piece (s w : string) :
  solid w = true -> wordHere s w = String.eqb (hd "" (pieces s)) w.
Proof.
  revert w. induction s as [|c r IH]; intros w Hw.
  - destruct w; reflexivity.
  - unfold wordHere. simpl pieces.
    destruct (isWhiteSpace c) eqn:Hc.
    + destruct w as [|a w']; simpl; [exact Hc|].
      simpl in Hw. apply andb_true_iff in Hw as [Ha _].
      destruct (ascii_dec a c) as [->|Hne]; [|reflexivity].
      rewrite Hc in Ha. discriminate.
    + destruct (pieces r) as [|t ts] eqn:Hp; [destruct (pieces_nonempty r Hp)|].
      destruct w as [|a w']; simpl; [exact Hc|].
      simpl in Hw. apply andb_true_iff in Hw as [_ Hw'].
      destruct (ascii_dec a c) as [->|Hne].
      * specialize (IH w' Hw'). unfold wordHere in IH. rewrite IH. simpl.
        rewrite Ascii.eqb_refl. reflexivity.
      * destruct (Ascii.eqb_spec c a) as [->|_]; [congruence | reflexivity].
Qed.

Lemma existsb_wordHere (ws : list string) (s : string) :
  forallb solid ws = true ->
  existsb (wordHere s) ws = isOneOf ws (hd "" (pieces s)).
Proof.
  intros H. unfold isOneOf. induction ws as [|w ws IH]; simpl; [reflexivity|].
  simpl in H. apply andb_true_iff in H as [Hw Hws].
  rewrite wordHere_first_piece by exact Hw. rewrite IH by exact Hws. reflexivity.
Qed.

Lemma testFrom_pieces (ws : list string) (s : string) :
  forallb solid ws = true ->
  testFrom ws true s = existsb (isOneOf ws) (pieces s) /\
  testFrom ws false s = existsb (isOneOf ws) (tl (pieces s)).
Proof.
  intros H. induction s as [|c r [IHt IHf]].
  - simpl. rewrite orb_false_r. split; [|reflexivity].
    rewrite (existsb_wordHere ws "" H). simpl. rewrite orb_false_r. reflexivity.
  - cbn [testFrom]. rewrite (existsb_wordHere ws (String c r) H).
    simpl pieces. destruct (isWhiteSpace c) eqn:Hc.
    + simpl. rewrite IHt. split; reflexivity.
    + destruct (pieces r) as [|t ts] eqn:Hp; [destruct (pieces_nonempty r Hp)|].
      simpl. simpl in IHf. rewrite IHf. split; reflexivity.
Qed.

(** X15.  The regular expression on the autocomplete attribute accepts a value
    exactly when one of its white-space separated pieces is one of the words:
    [new-password] and ["section-x new-password"] pass, ["new-password2"] and
    ["renew-password"] do not.  This holds for the word list of either
    classifier. *)
Theorem autocomplete_rule_matches_whole_words (ac : string) :
  testWords ["current-password"; "new-password"; "one-time-code"] ac
  = existsb (isOneOf ["current-password"; "new-password"; "one-time-code"]) (pieces ac) /\
  testWords ["current-password"; "new-password"] ac
  = existsb (isOneOf ["current-password"; "new-password"]) (pieces ac).
Proof.
  unfold testWords. split; apply testFrom_pieces; reflexivity.
Qed.

End Script.

(* ===================================================================== *)
(** * The scripts working together *)
(* ===================================================================== *)

Section Together.
Import Background Content PopupUI Primitive.

(** X16.  With the password-only option on, a paste of visible text reported by
    the detector of part_002 starts a countdown in the enabled service worker
    exactly when that detector classifies the paste target as a password
    field. *)
Theorem password_only_paste_end_to_end (evs : list Event) (event : PasteEvent) (p : Page) :
  let s := run evs initialState in
  enabled (settings s) = true -> clearOnlyOnPasswordPaste (settings s) = true ->
  extensionContextValid p = true -> contextMenuListeners p = 0%nat -> outbox p = [] ->
  allWhiteSpace (orEmpty (clipboardData event)) = false ->
  let sent := outbox (onPaste ContentNarrow.isPasswordField RuntimeAlive event p) in
  sent = [PASTE_DETECTED (Bool (ContentNarrow.isPasswordField (getPasteTarget event)))] /\
  (startsCountdown s (run (map Deliver sent) s) <->
   ContentNarrow.isPasswordField (getPasteTarget event) = true).
Proof.
  intros s. pose proof (invariant_reachable evs) as [_ Hi]. fold s in Hi. clearbody s.
  intros Hen Hpw Hv Hc Ho Hb sent.
  assert (Hs : sent = [PASTE_DETECTED
                         (Bool (ContentNarrow.isPasswordField (getPasteTarget event)))]).
  { unfold sent, onPaste.
    pose proof (nonblank_paste_notifies ContentNarrow.isPasswordField event p Hv Hb) as H.
    rewrite Ho in H. simpl in H.
    assert (Hl : contextMenuListeners
                   (handlePasteEvent ContentNarrow.isPasswordField RuntimeAlive event p)
                 = 0%nat).
    { unfold handlePasteEvent, notifyPasteEvent. rewrite Hv. simpl.
      destruct (negb (isEmpty _)); simpl; exact Hc. }
    rewrite Hl. simpl. exact H. }
  split; [exact Hs|]. rewrite Hs.
  set (b := ContentNarrow.isPasswordField (getPasteTarget event)).
  assert (E : run (map Deliver [PASTE_DETECTED (Bool b)]) s
              = sendResponse (Reply true None None)
                  (if b then Background.handlePasteEvent s else s)).
  { simpl. rewrite Hen, Hpw. destruct b; reflexivity. }
  rewrite E. clearbody b. destruct b.
  - split; [reflexivity|]. intros _.
    exists (S (nextTimer s)).
    exists {| due := now s + timerDelay (times (interval (settings s)) 1000);
              period := None; callback := ExpireCountdown (nextTimer s) |}.
    split; [|split; [reflexivity | lia]].
    unfold Background.handlePasteEvent. destruct (clearTimer s); simpl; apply lookup_insert_eq.
  - split; [|discriminate].
    intros (id & t & Hl & _ & Hge). simpl in Hl. specialize (Hi id t Hl). lia.
Qed.

Lemma password_only_paste_end_to_end_witness :
  let field := El "input" "pw" (Some {| type := "password"; autocomplete := None;
                                        name := "pw"; textSecurity := "" |}) false None in
  let event := {| composedPath := Some [Elem field]; eventTarget := NoTarget;
                  activeElement := NoTarget; clipboardData := Some "hunter2" |} in
  let s := run [Deliver (UPDATE_PASSWORD_ONLY (Bool true))] initialState in
  startsCountdown s (run [Deliver (PASTE_DETECTED (Bool true))] s).
Proof.
  intros field event s.
  destruct (password_only_paste_end_to_end
              [Deliver (UPDATE_PASSWORD_ONLY (Bool true))] event
              {| extensionContextValid := true; contextMenuListeners := 0; outbox := [] |}
              eq_refl eq_refl eq_refl eq_refl eq_refl eq_refl) as [_ H].
  apply H. reflexivity.
Defined.

(** *** The popup and the service worker *)





(** X18.  After either toggle the popup's checkbox agrees with the service
    worker's setting whenever the worker's answer reaches the popup - for the
    password-only option even when the storage write failed, since the worker
    keeps the new value and the popup, though it shows an error, does not
    revert.  When the answer is lost (time-out) the popup reverts its
    checkbox while the worker has already applied the change, and the two
    disagree. *)
Theorem toggles_agree_unless_the_answer_is_lost
    (s : State) (ui : UI) (r : result unit) :
  let w := step (Deliver (toggleExtensionMessage ui)) s in
  let w1 := step (Deliver (togglePasswordOnlyMessage ui)) s in
  let w2 := step (StorageSetSettles (nextCall s) r) w1 in
  (exists reply,
      trace w = Responded reply :: trace s /\
      enableChecked (toggleExtension (Got (Some reply)) ui) = enabled (settings w)) /\
  enableChecked (toggleExtension TimedOut ui) = negb (enabled (settings w)) /\
  (exists reply,
      trace w2 = Responded reply :: trace s /\
      passwordOnlyChecked (togglePasswordOnly (Got (Some reply)) ui)
      = clearOnlyOnPasswordPaste (settings w2) /\
      status (togglePasswordOnly (Got (Some reply)) ui)
      = Some (if fulfilled r then ("Option saved", "success")
              else ("Error saving option", "error"))) /\
  passwordOnlyChecked (togglePasswordOnly TimedOut ui)
  = negb (clearOnlyOnPasswordPaste (settings w1)).
Proof.
  intros w w1 w2. split; [|split; [|split]].
  - exists (Reply true None None). unfold w, toggleExtensionMessage.
    split; destruct (clearTimer s) eqn:E, (enableChecked ui) eqn:C;
      simpl; rewrite ?E, ?C; reflexivity.
  - unfold w, toggleExtensionMessage.
    destruct (clearTimer s) eqn:E, (enableChecked ui) eqn:C;
      simpl; rewrite ?E, ?C; reflexivity.
  - unfold w2, w1, togglePasswordOnlyMessage. simpl. rewrite lookup_insert_eq.
    destruct r as [u|msg]; simpl; eexists; repeat split; reflexivity.
  - reflexivity.
Qed.

(** X19.  What the popup shows after a settings change whose storage write
    failed: "Settings auto-saved" for the delay, because the worker answers
    success either way, and "Error saving option" for the password-only
    option. *)
Theorem popup_after_a_failed_write (s : State) (ui : UI) (z : Z) (msg : string) :
  Popup.autoSaveInterval (intervalValue ui) = Some (UPDATE_SETTINGS (Num (Int z))) ->
  (exists reply,
      trace (run [Deliver (UPDATE_SETTINGS (Num (Int z)));
                  StorageSetSettles (nextCall s) (Throw msg)] s)
      = Responded reply :: trace s /\
      status (autoSaveIntervalShown (Got (Some reply)) ui)
      = Some ("Settings auto-saved", "success")) /\
  (exists reply,
      trace (run [Deliver (togglePasswordOnlyMessage ui);
                  StorageSetSettles (nextCall s) (Throw msg)] s)
      = Responded reply :: trace s /\
      status (togglePasswordOnly (Got (Some reply)) ui)
      = Some ("Error saving option", "error")).
Proof.
  intros Hf. simpl. rewrite !lookup_insert_eq. split.
  - eexists. split; [reflexivity|].
    unfold autoSaveIntervalShown. rewrite Hf. reflexivity.
  - eexists. split; reflexivity.
Qed.

Lemma popup_after_a_failed_write_witness :
  let ui := {| intervalValue := "30"; enableChecked := true; passwordOnlyChecked := true;
               toggleText := ""; settingsDisabled := false; clearNowDisabled := false;
               clearNowText := "Clear Now"; status := None |} in
  exists reply,
    trace (run [Deliver (UPDATE_SETTINGS (Num (Int 30)));
                StorageSetSettles 0 (Throw "quota exceeded")] initialState)
    = [Responded reply] /\
    status (autoSaveIntervalShown (Got (Some reply)) ui)
    = Some ("Settings auto-saved", "success").
Proof.
  intros ui.
  exact (proj1 (popup_after_a_failed_write initialState ui 30 "quota exceeded" eq_refl)).
Defined.

(** X20.  What "Clear Now" shows: the worker's "Extension is disabled" while the
    extension is disabled; "Clipboard cleared!" whenever the extension is
    enabled and the answer arrives, whatever the browser let the chain do;
    and in every case the button ends enabled and labelled "Clear Now". *)
Theorem what_clear_now_shows (s : State) (ui : UI) (e : Env) (o : Outcome) :
  let w := step (Deliver CLEAR_CLIPBOARD_NOW) s in
  (enabled (settings s) = false ->
   exists reply,
     trace w = Responded reply :: trace s /\
     status (clearClipboardNow (Got (Some reply)) ui)
     = Some ("Extension is disabled", "error")) /\
  (enabled (settings s) = true ->
   exists reply,
     trace (step (ClearSettles (nextCall s) e) w)
     = Responded reply :: ClearCommand :: trace s /\
     status (clearClipboardNow (Got (Some reply)) ui)
     = Some ("Clipboard cleared!", "success")) /\
  clearNowDisabled (clearClipboardNow o ui) = false /\
  clearNowText (clearClipboardNow o ui) = "Clear Now".
Proof.
  intros w. split; [|split; [|split]].
  - intros H. unfold w. simpl. rewrite H. simpl. eexists. split; reflexivity.
  - intros H. unfold w. simpl. rewrite H. simpl. unfold clearClipboard. simpl.
    assert (L : forall m : gmap nat Cont,
                <[nextCall s := AwaitClear true]> m !! nextCall s = Some (AwaitClear true))
      by (intros; apply lookup_insert_eq).
    destruct (clearTimer s); simpl; rewrite L;
      unfold clearClipboard_resume; rewrite clearClipboardPromise_fulfilled;
      eexists; (split; [destruct (clearChain e) as [[| |m]|m]; reflexivity|]);
      reflexivity.
  - destruct o as [| |[[b [m|] er|st]|]]; simpl; try reflexivity;
      destruct b; try reflexivity; destruct (isEmpty m); reflexivity.
  - destruct o as [| |[[b [m|] er|st]|]]; simpl; try reflexivity;
      destruct b; try reflexivity; destruct (isEmpty m); reflexivity.
Qed.

Lemma what_clear_now_shows_witness :
  let ui := {| intervalValue := "10"; enableChecked := true; passwordOnlyChecked := false;
               toggleText := ""; settingsDisabled := false; clearNowDisabled := false;
               clearNowText := "Clear Now"; status := None |} in
  exists reply,
    trace (step (ClearSettles 0 hostileEnv) (step (Deliver CLEAR_CLIPBOARD_NOW) initialState))
    = [Responded reply; ClearCommand] /\
    status (clearClipboardNow (Got (Some reply)) ui) = Some ("Clipboard cleared!", "success").
Proof.
  intros ui.
  exact (proj1 (proj2 (what_clear_now_shows initialState ui hostileEnv TimedOut)) eq_refl).
Defined.

End Together.

(* ===================================================================== *)
(** * The popup's debounce *)
(* ===================================================================== *)

Section Debouncing.
Import PopupUI.

Context {A : Type}.
Implicit Types (d : Debounced A) (evs : list (DebounceEvent A)).

Lemma debounceRun_snoc wait evs ev d :
  debounceRun wait (evs ++ [ev]) d = debounceStep wait ev (debounceRun wait evs d).
Proof. unfold debounceRun. rewrite fold_left_app. reflexivity. Qed.

Lemma elapsed_snoc evs (ev : DebounceEvent A) :
  elapsed (evs ++ [ev])
  = elapsed evs + match ev with Elapsed dt => Z.of_N dt | _ => 0 end.
Proof.
  unfold elapsed. induction evs as [|e evs IH]; simpl.
  - destruct ev; lia.
  - rewrite IH. destruct e; lia.
Qed.

Lemma elapsed_nonneg evs : 0 <= elapsed evs.
Proof.
  unfold elapsed. induction evs as [|e evs IH]; simpl; [lia|]. destruct e; lia.
Qed.

(** After a call, and until the next one, the debounced function is either
    still waiting with that call's arguments or has run once with them, and
    it has not run before the full wait had passed. *)
Lemma after_call wait (a : A) d evs :
  forallb (fun ev => negb (isCall ev)) evs = true ->
  let d' := debounceRun wait evs (call wait a d) in
  clock d' = clock d + elapsed evs /\
  ((pending d' = Some (clock d + timerDelay wait, a) /\ invoked d' = invoked d) \/
   (pending d' = None /\ invoked d' = (invoked d ++ [a])%list /\
    timerDelay wait <= elapsed evs)).
Proof.
  induction evs as [|ev evs IH] using rev_ind; intros Hevs.
  - simpl. split; [lia|]. left. auto.
  - rewrite forallb_app in Hevs. apply andb_true_iff in Hevs as [Hevs Hev].
    simpl in Hev. rewrite andb_true_r in Hev.
    specialize (IH Hevs). simpl in IH. destruct IH as [Hc IH].
    simpl. rewrite debounceRun_snoc, elapsed_snoc.
    set (d1 := debounceRun wait evs (call wait a d)) in *.
    destruct ev as [b| |dt]; simpl in Hev; [discriminate| |].
    + simpl. unfold later. destruct IH as [[Hp Hi]|(Hp & Hi & Hw)].
      * rewrite Hp. destruct (clock d + timerDelay wait <=? clock d1) eqn:G; simpl.
        -- split; [lia|]. right. apply Z.leb_le in G. rewrite Hi. repeat split. lia.
        -- split; [lia|]. left. auto.
      * rewrite Hp. split; [lia|]. right. repeat split; try assumption. lia.
    + simpl. split; [lia|]. destruct IH as [[Hp Hi]|(Hp & Hi & Hw)].
      * left. auto.
      * right. repeat split; try assumption. lia.
Qed.

(** X21.  [debounce]: calls that follow one another by less than the wait are
    merged.  Until the next call the function runs at most once, with the
    arguments of the last call and not before the wait has passed since it;
    and a call that arrives before that replaces the pending one, whose
    arguments are then never passed on. *)
Theorem debounce_passes_on_the_last_call (wait : num) (a b : A) d evs :
  forallb (fun ev => negb (isCall ev)) evs = true ->
  let d' := debounceRun wait evs (call wait a d) in
  (invoked d' = invoked d \/
   (invoked d' = (invoked d ++ [a])%list /\ timerDelay wait <= elapsed evs)) /\
  (elapsed evs < timerDelay wait ->
   invoked (call wait b d') = invoked d /\
   pending (call wait b d') = Some (clock d + elapsed evs + timerDelay wait, b)).
Proof.
  intros Hevs d'. destruct (after_call wait a d evs Hevs) as [Hc H]. fold d' in Hc, H.
  split.
  - destruct H as [[_ Hi]|(_ & Hi & Hw)]; auto.
  - intros Hlt. destruct H as [[_ Hi]|(_ & _ & Hw)]; [|lia].
    simpl. rewrite Hc, Hi. auto.
Qed.

End Debouncing.

Lemma debounce_passes_on_the_last_call_witness :
  let d0 := {| PopupUI.pending := None; PopupUI.invoked := []; PopupUI.clock := 0 |} in
  let d1 := PopupUI.debounceRun (Int 1000) [PopupUI.Elapsed 400; PopupUI.Later]
              (PopupUI.call (Int 1000) "1" d0) in
  PopupUI.invoked (PopupUI.call (Int 1000) "12" d1) = [] /\
  PopupUI.pending (PopupUI.call (Int 1000) "12" d1) = Some (1400, "12").
Proof.
  intros d0 d1.
  apply (proj2 (debounce_passes_on_the_last_call (Int 1000) "1" "12" d0
                  [PopupUI.Elapsed 400; PopupUI.Later] eq_refl)).
  vm_compute. reflexivity.
Defined.


(* ===================================================================== *)
(** * The clear primitives *)
(* ===================================================================== *)

Section Primitives.
Import Background Primitive.

(** Whether some method of the offscreen document reports success on [h]. *)
Lemma offscreen_fulfilled (h : Host) :
  fulfilled (offscreenClearClipboard h)
  = clipboardApi h && fulfilled (writeText h 0)
    || match copyEvent h with Handled => true | _ => false end
    || match execCopy h with Ok true => true | _ => false end.
Proof.
  unfold offscreenClearClipboard, setClipboardEmptyViaCopyEvent, execCommandFallback.
  destruct (clipboardApi h); simpl;
    try destruct (writeText h 0) as [u|m]; simpl;
    destruct (copyEvent h) as [|m'|]; simpl; try reflexivity;
    destruct (execCopy h) as [[|]|m'']; reflexivity.
Qed.

(** X22.  The offscreen document reports honestly: its clear is fulfilled, and
    OFFSCREEN_CLEAR_CLIPBOARD answered with success, exactly when one of its
    three methods - [writeText('')], the intercepted copy event, the
    [execCommand] on a textarea - reported success, tried in that order; and
    when its answer is what the service worker's first send receives, the
    worker's offscreen step returns from there exactly in that case. *)
Theorem offscreen_document_reports_honestly (h : Host) (e : Env) :
  let worked := clipboardApi h && fulfilled (writeText h 0)
                || match copyEvent h with Handled => true | _ => false end
                || match execCopy h with Ok true => true | _ => false end in
  fulfilled (offscreenClearClipboard h) = worked /\
  (exists reply, offscreenListener h OFFSCREEN_CLEAR_CLIPBOARD = Some reply /\
                 successOf reply = worked) /\
  (clipboardApi h = true -> fulfilled (writeText h 0) = true ->
   offscreenClearClipboard h = Ok ByWriteText) /\
  (forall reply, offscreenListener h OFFSCREEN_CLEAR_CLIPBOARD = Some reply ->
                 offscreenClear e 0 = Answer (Some (successOf reply)) ->
                 askOffscreen e = Ok worked).
Proof.
  intros worked. pose proof (offscreen_fulfilled h) as F. fold worked in F.
  split; [exact F|]. split; [|split].
  - unfold offscreenListener. destruct (offscreenClearClipboard h) as [m|msg];
      simpl in F; eexists; (split; [reflexivity|]); simpl; exact F.
  - intros Ha Hw. unfold offscreenClearClipboard. rewrite Ha.
    destruct (writeText h 0); [reflexivity | discriminate].
  - intros reply Hl Hd. unfold askOffscreen. rewrite Hd. simpl.
    assert (Hs : successOf reply = worked).
    { unfold offscreenListener in Hl.
      destruct (offscreenClearClipboard h) as [m|msg]; simpl in F;
        injection Hl as <-; simpl; exact F. }
    rewrite Hs. destruct worked; simpl; [|reflexivity].
    destruct (offscreenCloseAvailable e); simpl; [|reflexivity].
    destruct (offscreenCloseDocument e); reflexivity.
Qed.

Lemma offscreen_document_reports_honestly_witness :
  let h := {| clipboardApi := true; writeText := fun _ => Throw "NotAllowedError";
              copyEvent := Refused; execCopy := Ok false |} in
  offscreenListener h OFFSCREEN_CLEAR_CLIPBOARD
  = Some (Reply false None (Some "execCommand failed")) /\
  askOffscreen
    {| tabsQueryActive := Throw "x"; tabsQueryAll := fun _ => Throw "x";
       executeScript := fun _ => Throw "x"; tabsSendMessage := fun _ => Throw "x";
       offscreenCreateAvailable := true; offscreenHasDocumentAvailable := true;
       offscreenHasDocument := Ok true; offscreenCreateDocument := Ok tt;
       offscreenPing := fun _ => PingAnswer (Some true);
       offscreenClear := fun _ => Answer (Some false);
       offscreenCloseAvailable := true; offscreenCloseDocument := Ok tt;
       tabsCreate := Throw "x"; tabsRemove := Throw "x";
       windowsCreateMinimized := Throw "x"; windowsCreateNormal := Throw "x";
       windowsRemove := Throw "x" |}
  = Ok false.
Proof.
  intros h. split; [reflexivity|].
  apply (proj2 (proj2 (proj2 (offscreen_document_reports_honestly h _)))
           (Reply false None (Some "execCommand failed"))); reflexivity.
Defined.

(** X23.  The content script acknowledges CLEAR_CLIPBOARD_REQUEST with success
    unless a DOM call throws: in a page that has [navigator.clipboard] it
    always does, without waiting for the write, so that the service worker's
    content-script step succeeds on such a tab even when the write is
    rejected and nothing was cleared. *)
Theorem content_script_acknowledges_before_the_write
    (h : Host) (e : Env) (before after : list Tab) (t : Tab) :
  (successOf (contentListener h) = false <->
   clipboardApi h = false /\ exists msg, execCopy h = Throw msg) /\
  (clipboardApi h = true ->
   urlAvoids ["chrome://"; "chrome-extension://"] t = true ->
   tabsQueryAll e 1%nat = Ok (before ++ t :: after)%list ->
   tabsSendMessage e (tab_id t) = Ok (Some (successOf (contentListener h))) ->
   tryContentScripts e = Ok true /\
   (fulfilled (writeText h 0) = false -> clearClipboardInContent h = Ok None)).
Proof.
  split.
  - unfold contentListener, clearClipboardInContent.
    destruct (clipboardApi h); simpl.
    + split; [discriminate | intros [H _]; discriminate].
    + destruct (execCopy h) as [[|]|msg]; simpl; split; try discriminate;
        try (intros [_ [m H]]; discriminate); eauto.
  - intros Ha Ht Hq Hsend.
    assert (Hack : successOf (contentListener h) = true).
    { unfold contentListener, clearClipboardInContent. rewrite Ha. reflexivity. }
    split.
    + unfold tryContentScripts. rewrite Hq. simpl.
      replace (askContentScripts e (before ++ t :: after)) with (@Ok bool true);
        [reflexivity|].
      clear Hq. induction before as [|t' before IH]; simpl.
      * rewrite Ht, Hsend, Hack. reflexivity.
      * destruct (urlAvoids _ t'); [|exact IH].
        destruct (tabsSendMessage e (tab_id t')) as [[[|]|]|msg]; simpl;
          try exact IH; reflexivity.
    + intros Hw. unfold clearClipboardInContent. rewrite Ha, Hw. reflexivity.
Qed.

Lemma content_script_acknowledges_before_the_write_witness :
  let h := {| clipboardApi := true; writeText := fun _ => Throw "Document is not focused";
              copyEvent := Refused; execCopy := Ok false |} in
  let page := {| tab_id := 7; tab_url := Some "https://example.org/" |} in
  let e := {| tabsQueryActive := Throw "x";
              tabsQueryAll := fun _ => Ok [ {| tab_id := 1; tab_url := Some "chrome://newtab/" |};
                                            page ];
              executeScript := fun _ => Throw "x";
              tabsSendMessage := fun _ => Ok (Some true);
              offscreenCreateAvailable := false; offscreenHasDocumentAvailable := false;
              offscreenHasDocument := Throw "x"; offscreenCreateDocument := Throw "x";
              offscreenPing := fun _ => PingLastError "x"; offscreenClear := fun _ => NoAnswer;
              offscreenCloseAvailable := false; offscreenCloseDocument := Throw "x";
              tabsCreate := Throw "x"; tabsRemove := Throw "x";
              windowsCreateMinimized := Throw "x"; windowsCreateNormal := Throw "x";
              windowsRemove := Throw "x" |} in
  tryContentScripts e = Ok true /\ clearClipboardInContent h = Ok None.
Proof.
  intros h page e.
  destruct (proj2 (content_script_acknowledges_before_the_write h e
                     [ {| tab_id := 1; tab_url := Some "chrome://newtab/" |} ] [] page)
              eq_refl eq_refl eq_refl eq_refl) as [H1 H2].
  split; [exact H1 | exact (H2 eq_refl)].
Defined.

(** X24.  The offscreen document tries every method the other two primitives
    have: on a page where the injected function or the content script gets a
    success report, the offscreen clear is fulfilled too. *)
Theorem offscreen_covers_the_other_primitives (h : Host) (m : Method) :
  (clearClipboardInTab h = Some m -> fulfilled (offscreenClearClipboard h) = true) /\
  (clearClipboardInContent h = Ok (Some m) -> fulfilled (offscreenClearClipboard h) = true).
Proof.
  rewrite offscreen_fulfilled.
  unfold clearClipboardInTab, clearWithExecCommand, clearClipboardInContent.
  destruct (clipboardApi h); simpl;
    try destruct (writeText h 0) as [u|msg]; simpl;
    destruct (copyEvent h); simpl;
    destruct (execCopy h) as [[|]|msg']; simpl; split; intros H;
    try reflexivity; try discriminate.
Qed.

Lemma offscreen_covers_the_other_primitives_witness :
  fulfilled (offscreenClearClipboard
               {| clipboardApi := false; writeText := fun _ => Throw "x";
                  copyEvent := Refused; execCopy := Ok true |}) = true.
Proof.
  apply (proj1 (offscreen_covers_the_other_primitives
                  {| clipboardApi := false; writeText := fun _ => Throw "x";
                     copyEvent := Refused; execCopy := Ok true |}
                  (ByExecCommand false))).
  reflexivity.
Defined.

End Primitives.
